(** * Arkiv RFQ SDK: the RFQ lifecycle client, its validators and its retry executor

    A shallow embedding of the TypeScript SDK (sdk/src/utils/validation.ts,
    sdk/src/utils/retry.ts, sdk/src/errors/index.ts, sdk/src/client/ArkivRFQClient.ts
    and the test double sdk/tests/mocks/ArkivClientMock.ts).

    Conventions of the embedding.
    - JavaScript strings are [string]; the text handled by this code (addresses,
      digit strings, fixed messages) is ASCII, and [toLowerCase] folds A-Z.
    - JavaScript numbers are integers of [Z]: [Number.isInteger] holds of all of
      them; fractions, NaN and the infinities are outside the model.
    - A promise that rejects and a function that throws are a [Throw] result;
      [await] is sequencing in the monad [M] over the [World].
    - The entity store, the wallet signer, the clock and the random generator are
      collaborators: the store is a record of state transformers over an
      arbitrary store state, the signer a record of results, the clock and the
      generator oracles indexed by the number of earlier readings. *)

From Stdlib Require Import String Ascii ZArith List Bool Lia DecimalString.
Import ListNotations.
Open Scope string_scope.
Open Scope Z_scope.

Set Implicit Arguments.

(** ** Strings *)

Module Js.

Definition isUpper (c : ascii) : bool :=
  let n := nat_of_ascii c in (65 <=? n)%nat && (n <=? 90)%nat.

Definition isDigit (c : ascii) : bool :=
  let n := nat_of_ascii c in (48 <=? n)%nat && (n <=? 57)%nat.

(** The character class [a-fA-F0-9]. *)
Definition isHexDigit (c : ascii) : bool :=
  let n := nat_of_ascii c in
  ((97 <=? n)%nat && (n <=? 102)%nat)
  || ((65 <=? n)%nat && (n <=? 70)%nat)
  || ((48 <=? n)%nat && (n <=? 57)%nat).

(** White space removed by [String.prototype.trim], within ASCII:
    TAB, LF, VT, FF, CR and SPACE. *)
Definition isSpace (c : ascii) : bool :=
  let n := nat_of_ascii c in
  ((9 <=? n)%nat && (n <=? 13)%nat) || (n =? 32)%nat.

Definition lowerChar (c : ascii) : ascii :=
  if isUpper c then ascii_of_nat (nat_of_ascii c + 32) else c.

(** [s.toLowerCase()] *)
Fixpoint toLowerCase (s : string) : string :=
  match s with
  | EmptyString => EmptyString
  | String c r => String (lowerChar c) (toLowerCase r)
  end.

Fixpoint forallb (p : ascii -> bool) (s : string) : bool :=
  match s with
  | EmptyString => true
  | String c r => p c && forallb p r
  end.

(** [s.includes(sub)] *)
Fixpoint includes (s sub : string) : bool :=
  prefix sub s ||
  match s with
  | EmptyString => false
  | String _ r => includes r sub
  end.

(** [!s] for a string: only the empty string is falsy. *)
Definition falsy (s : string) : bool :=
  match s with EmptyString => true | _ => false end.

(** [s.trim().length === 0] *)
Definition trimIsEmpty (s : string) : bool := forallb isSpace s.

(** [`${n}`] for an integer. *)
Definition numberToString (n : Z) : string :=
  NilZero.string_of_int (Z.to_int n).

(** [/^\d+$/.test(s)] : one or more decimal digits and nothing else
    ([$] has no multiline flag, so it matches at the end of input only). *)
Definition matchesDigits (s : string) : bool :=
  negb (falsy s) && forallb isDigit s.

(** [/^0x[a-fA-F0-9]{40}$/.test(s)] *)
Definition matchesAddress (s : string) : bool :=
  match s with
  | String "0" (String "x" r) =>
      (Nat.eqb (String.length r) 40) && forallb isHexDigit r
  | _ => false
  end.

End Js.

(** ** Errors (sdk/src/errors/index.ts) *)

(** A thrown value: an [Error] instance with its [name], its [message] and the
    [originalError] some subclasses record, or any other value. *)
#[warnings="-register-all"]
Inductive thrown : Type :=
| JsError (name message : string) (originalError : option thrown)
| JsValue (v : string).

Definition errorName (e : thrown) : option string :=
  match e with JsError n _ _ => Some n | JsValue _ => None end.

Definition errorMessage (e : thrown) : option string :=
  match e with JsError _ m _ => Some m | JsValue _ => None end.

Definition ArkivNetworkError (message : string) (originalError : option thrown) : thrown :=
  JsError "ArkivNetworkError" ("Network error: " ++ message) originalError.

Definition SignatureError (message : string) (originalError : option thrown) : thrown :=
  JsError "SignatureError" ("Signature error: " ++ message) originalError.

Definition ValidationError (message : string) : thrown :=
  JsError "ValidationError" ("Validation error: " ++ message) None.

Definition OwnershipError (message : string) : thrown :=
  JsError "OwnershipError" ("Ownership error: " ++ message) None.

Definition RFQNotFoundError (id : string) : thrown :=
  JsError "RFQNotFoundError" ("RFQ not found with id: " ++ id) None.

(** The outcome of a call: a value, or a thrown error. *)
Inductive Result (A : Type) : Type :=
| Ok (a : A)
| Throw (e : thrown).
Arguments Ok {A} a.
Arguments Throw {A} e.

Definition andThen {A B} (r : Result A) (k : A -> Result B) : Result B :=
  match r with Ok a => k a | Throw e => Throw e end.

Notation "r1 >>> r2" := (andThen r1 (fun _ => r2))
  (at level 61, left associativity).

(** ** Data model (sdk/src/types/RFQ.ts) *)

Record TokenInfo := mkTokenInfo { address : string; chainId : Z }.

Inductive RFQStatus := OPEN | FILLED | CANCELLED.

Record Fill := mkFill {
  acceptor : string; amount : string; timestamp : Z; txHash : string }.

Record RFQ := mkRFQ {
  id : string;
  creator : string;
  baseToken : TokenInfo;
  quoteToken : TokenInfo;
  baseAmount : string;
  quoteAmount : string;
  expiresIn : Z;
  status : RFQStatus;
  createdAt : Z;
  updatedAt : Z;
  filledAmount : option string;
  fills : option (list Fill);
  minFillAmount : option string;
  counterpartyRestrictions : option (list string) }.

Record CreateRFQInput := mkCreateRFQInput {
  in_baseToken : TokenInfo;
  in_quoteToken : TokenInfo;
  in_baseAmount : string;
  in_quoteAmount : string;
  in_expiresIn : Z;
  in_minFillAmount : option string;
  in_counterpartyRestrictions : option (list string) }.

(** An absent key is [None]; a key that is present with the value [undefined]
    is outside the declared interface and not modelled. *)
Record UpdateRFQInput := mkUpdateRFQInput {
  up_baseAmount : option string;
  up_quoteAmount : option string;
  up_expiresIn : option Z;
  up_status : option RFQStatus;
  up_filledAmount : option string;
  up_fills : option (list Fill) }.

Definition RFQStatus_eqb (a b : RFQStatus) : bool :=
  match a, b with
  | OPEN, OPEN | FILLED, FILLED | CANCELLED, CANCELLED => true
  | _, _ => false
  end.

(** ** Validator (sdk/src/utils/validation.ts), the clock-free part *)

(** The tests [typeof x !== 'string'], [typeof x !== 'object'], [!token],
    [!input] and [!Array.isArray(x)] of the validators are false of every value
    of the declared types and are left out; [!s] on a string stays. *)

Definition Number_isInteger (n : Z) : bool := true.

Definition validateAddress (address fieldName : string) : Result unit :=
  if Js.falsy address then
    Throw (ValidationError (fieldName ++ " is required and must be a string"))
  else if negb (Js.matchesAddress address) then
    Throw (ValidationError (fieldName ++ " must be a valid Ethereum address"))
  else Ok tt.

Definition validateTokenInfo (token : TokenInfo) (fieldName : string) : Result unit :=
  validateAddress (address token) (fieldName ++ ".address") >>>
  if negb (Number_isInteger (chainId token)) || (chainId token <=? 0) then
    Throw (ValidationError (fieldName ++ ".chainId must be a positive integer"))
  else Ok tt.

Definition validateAmount (amount fieldName : string) : Result unit :=
  if Js.falsy amount then
    Throw (ValidationError (fieldName ++ " is required and must be a string"))
  else if negb (Js.matchesDigits amount) then
    Throw (ValidationError (fieldName ++ " must be a valid positive integer string"))
  else if String.eqb amount "0" then
    Throw (ValidationError (fieldName ++ " must be greater than zero"))
  else Ok tt.

Definition validateRFQId (id : string) : Result unit :=
  if Js.falsy id then
    Throw (ValidationError "RFQ ID is required and must be a string")
  else if Js.trimIsEmpty id then
    Throw (ValidationError "RFQ ID cannot be empty")
  else Ok tt.

(** [input.counterpartyRestrictions.forEach((address, index) => ...)] *)
Fixpoint validateRestrictions (l : list string) (index : Z) : Result unit :=
  match l with
  | [] => Ok tt
  | a :: r =>
      validateAddress a ("counterpartyRestrictions[" ++ Js.numberToString index ++ "]") >>>
      validateRestrictions r (index + 1)
  end.

(** The integer a string of decimal digits denotes. *)
Definition digitValue (c : ascii) : Z := Z.of_nat (nat_of_ascii c) - 48.

Fixpoint amountValueFrom (acc : Z) (s : string) : Z :=
  match s with
  | EmptyString => acc
  | String c r => amountValueFrom (10 * acc + digitValue c) r
  end.

Definition amountValue (s : string) : Z := amountValueFrom 0 s.

(** ** The world the client runs in *)

(** The clock and the random generator: [Date_now n] is the value of the
    [n]-th evaluation of [Date.now()] (milliseconds), [Math_random n] the text
    [Math.random().toString(36).substring(2, 15)] of the [n]-th draw. *)
Record Env := mkEnv {
  Date_now : nat -> Z;
  Math_random : nat -> string }.

(** ** Store collaborator (sdk/src/types/arkiv.ts) *)

(** [data] is a [Record<string, any>]; the client writes RFQ records into it
    and reads the fields of an RFQ record out of it. *)
Record ArkivEntity := mkArkivEntity {
  entityKey : string;
  data : RFQ;
  ent_timestamp : Z }.

Record WriteEntityOptions := mkWriteEntityOptions {
  w_entityType : string;
  w_entityKey : string;
  w_data : RFQ;
  w_signature : option string }.

(** A value of a store filter: a string or a number compared for equality, a
    range [{ $gte, $lte }], or the list of alternatives of [$or]. *)
#[warnings="-register-all"]
Inductive FilterValue : Type :=
| FString (s : string)
| FNumber (n : Z)
| FStatus (s : RFQStatus)
| FRange (gte lte : Z)
| FOr (alternatives : list (list (string * FilterValue))).

(** A [Record<string, any>] of filters, in insertion order. *)
Definition ArkivFilters := list (string * FilterValue).

Inductive SortOrder := asc | desc.

Record ArkivSort := mkArkivSort { field : string; order : SortOrder }.

Record QueryOptions := mkQueryOptions {
  q_entityType : string;
  q_filters : ArkivFilters;
  q_sort : option ArkivSort;
  q_limit : Z;
  q_cursor : option string }.

Record QueryResponse := mkQueryResponse {
  entities : list ArkivEntity;
  total : Z;
  nextCursor : option string }.

(** [ArkivPublicClient] over a store state [S]: each method transforms the state
    of the store and resolves or rejects. *)
Record ArkivPublicClient (S : Type) := mkArkivPublicClient {
  writeEntity : WriteEntityOptions -> S -> Result ArkivEntity * S;
  queryEntities : QueryOptions -> S -> Result QueryResponse * S;
  getEntity : string -> string -> S -> Result (option ArkivEntity) * S;
  deleteEntity : string -> string -> S -> Result unit * S }.

(** A store method the client has invoked, with its arguments. *)
Inductive StoreCall : Type :=
| CallWriteEntity (options : WriteEntityOptions)
| CallQueryEntities (options : QueryOptions)
| CallGetEntity (entityType entityKey : string)
| CallDeleteEntity (entityType entityKey : string).

(** Signer collaborator ([ethers.Signer]): [getAddress()] and
    [signMessage(JSON.stringify(data))]; the signer is given the record whose
    serialisation it signs. *)
Record Signer := mkSigner {
  getAddress : Result string;
  signMessage : RFQ -> Result string }.

Record World (S : Type) := mkWorld {
  store : S;                 (* the state of the entity store *)
  calls : list StoreCall;    (* store methods invoked so far, oldest first *)
  sleeps : list Z;           (* delays waited in [sleep], oldest first *)
  clockReads : nat;          (* evaluations of [Date.now()] so far *)
  randomReads : nat }.       (* evaluations of [Math.random()] so far *)

Section Monad.

Variable S : Type.

(** An asynchronous computation: it transforms the world and resolves to a
    value or rejects. *)
Definition M (A : Type) : Type := World S -> Result A * World S.

Definition ret {A} (a : A) : M A := fun w => (Ok a, w).

Definition throw {A} (e : thrown) : M A := fun w => (Throw e, w).

Definition bind {A B} (m : M A) (k : A -> M B) : M B :=
  fun w => match m w with
           | (Ok a, w') => k a w'
           | (Throw e, w') => (Throw e, w')
           end.

(** [try { m } catch (error) { h(error) }] *)
Definition tryCatch {A} (m : M A) (h : thrown -> M A) : M A :=
  fun w => match m w with
           | (Ok a, w') => (Ok a, w')
           | (Throw e, w') => h e w'
           end.

Definition lift {A} (r : Result A) : M A := fun w => (r, w).

(** [Date.now()] *)
Definition dateNow (env : Env) : M Z :=
  fun w => (Ok (Date_now env (clockReads w)),
            mkWorld (store w) (calls w) (sleeps w) (Datatypes.S (clockReads w)) (randomReads w)).

(** [Math.random().toString(36).substring(2, 15)] *)
Definition mathRandom (env : Env) : M string :=
  fun w => (Ok (Math_random env (randomReads w)),
            mkWorld (store w) (calls w) (sleeps w) (clockReads w) (Datatypes.S (randomReads w))).

(** [sleep(ms)] (retry.ts) *)
Definition sleep (ms : Z) : M unit :=
  fun w => (Ok tt,
            mkWorld (store w) (calls w) (sleeps w ++ [ms]) (clockReads w) (randomReads w)).

(** A method of the store invoked by the client: the call is recorded, then the
    store runs. *)
Definition callStore {A} (c : StoreCall) (method : S -> Result A * S) : M A :=
  fun w => let (r, s') := method (store w) in
           (r, mkWorld s' (calls w ++ [c]) (sleeps w) (clockReads w) (randomReads w)).

End Monad.

Arguments ret {S A} a.
Arguments throw {S A} e.
Arguments lift {S A} r.
Arguments dateNow {S} env.
Arguments mathRandom {S} env.
Arguments sleep {S} ms.

Notation "'let*' x ':=' m 'in' k" := (bind m (fun x => k))
  (at level 10, x name, m at level 100, k at level 200).
Notation "m ';;' k" := (bind m (fun _ => k))
  (at level 100, k at level 200, right associativity).

(** ** Validator, the part that reads the clock *)

Section Validation.

Variable S : Type.
Variable env : Env.

Definition validateExpiration (expiresIn : Z) : M S unit :=
  if negb (Number_isInteger expiresIn) || (expiresIn <=? 0) then
    throw (ValidationError "expiresIn must be a positive integer timestamp")
  else
    let* ms := dateNow env in
    let now := ms / 1000 in
    if expiresIn <=? now then
      throw (ValidationError "expiresIn must be in the future")
    else
      let maxExpiration := now + 30 * 24 * 60 * 60 in
      if expiresIn >? maxExpiration then
        throw (ValidationError "expiresIn cannot be more than 30 days in the future")
      else ret tt.

Definition validateCreateRFQInput (input : CreateRFQInput) : M S unit :=
  lift (validateTokenInfo (in_baseToken input) "baseToken") ;;
  lift (validateTokenInfo (in_quoteToken input) "quoteToken") ;;
  lift (validateAmount (in_baseAmount input) "baseAmount") ;;
  lift (validateAmount (in_quoteAmount input) "quoteAmount") ;;
  validateExpiration (in_expiresIn input) ;;
  match in_minFillAmount input with
  | Some m => lift (validateAmount m "minFillAmount")
  | None => ret tt
  end ;;
  match in_counterpartyRestrictions input with
  | Some l => lift (validateRestrictions l 0)
  | None => ret tt
  end.

End Validation.

(** ** Retry executor (sdk/src/utils/retry.ts) *)

Record RetryConfig := mkRetryConfig {
  maxRetries : Z;
  initialDelay : Z;
  maxDelay : Z;
  backoffMultiplier : Z }.

Definition DEFAULT_RETRY_CONFIG : RetryConfig :=
  mkRetryConfig 3 1000 10000 2.

Definition isNonRetryableError (error : thrown) : bool :=
  match error with
  | JsError errorName message _ =>
      let errorMessage := Js.toLowerCase message in
      if String.eqb errorName "ValidationError"
         || String.eqb errorName "OwnershipError"
         || String.eqb errorName "SignatureError"
      then true
      else if Js.includes errorMessage "400" || Js.includes errorMessage "404"
      then true
      else false
  | JsValue _ => false
  end.

(** How the [for] loop of [withRetry] ends: [return await fn()] leaves the
    function with a value; [break] and a false loop condition fall through to
    the final [throw] with the last error seen. *)
Inductive LoopExit (T : Type) : Type :=
| Returned (v : T)
| Exhausted (lastError : option thrown).
Arguments Returned {T} v.
Arguments Exhausted {T} lastError.

Section Retry.

Variable S : Type.
Variable T : Type.
Variable fn : M S T.
Variable config : RetryConfig.

(** The loop from the state [(attempt, delay, lastError)].  [fuel] bounds the
    iterations; [withRetry] passes [maxRetries + 1], the number of values of
    [attempt] for which the loop condition holds, so that the loop condition
    is false whenever the fuel is spent. *)
Fixpoint retryLoop (fuel : nat) (attempt delay : Z) (lastError : option thrown)
  : World S -> LoopExit T * World S :=
  fun w =>
  match fuel with
  | O => (Exhausted lastError, w)
  | Datatypes.S fuel' =>
      if attempt <=? maxRetries config then
        match fn w with
        | (Ok v, w1) => (Returned v, w1)
        | (Throw error, w1) =>
            if attempt =? maxRetries config then (Exhausted (Some error), w1)
            else if isNonRetryableError error then (Exhausted (Some error), w1)
            else
              let (_, w2) := sleep delay w1 in
              retryLoop fuel' (attempt + 1)
                (Z.min (delay * backoffMultiplier config) (maxDelay config))
                (Some error) w2
        end
      else (Exhausted lastError, w)
  end.

Definition withRetryConfig : M S T :=
  fun w =>
  match retryLoop (Z.to_nat (maxRetries config + 1)) 0 (initialDelay config) None w with
  | (Returned v, w') => (Ok v, w')
  | (Exhausted lastError, w') =>
      (Throw (ArkivNetworkError
                ("Operation failed after " ++ Js.numberToString (maxRetries config + 1)
                 ++ " attempts") lastError), w')
  end.

End Retry.

(** [withRetry(fn)] with the default configuration, as the client calls it. *)
Definition withRetry {S T} (fn : M S T) : M S T :=
  withRetryConfig fn DEFAULT_RETRY_CONFIG.

(** ** Query and watch options (sdk/src/types/RFQ.ts) *)

Record TokenPair := mkTokenPair { base : TokenInfo; quote : TokenInfo }.

Record QueryFilters := mkQueryFilters {
  f_tokenPair : option TokenPair;
  f_chain : option Z;
  f_priceRange : option (Z * Z);
  f_creator : option string;
  f_expiration : option (Z * Z);      (* minTime, maxTime *)
  f_status : option RFQStatus }.

Inductive SortBy := CREATION_TIME | EXPIRATION | BEST_PRICE.

Record SortOptions := mkSortOptions { sortBy : SortBy; ascending : option bool }.

Record PaginationOptions := mkPaginationOptions {
  limit : option Z; cursor : option string }.

Record QueryResult := mkQueryResult {
  rfqs : list RFQ;
  qr_total : Z;
  hasMore : bool;
  qr_nextCursor : option string }.

(** The handlers of a watcher; [A] is what one invocation of a handler does. *)
Record WatchRFQsOptions (A : Type) := mkWatchRFQsOptions {
  onCreated : option (RFQ -> A);
  onUpdated : option (RFQ -> A);
  onCancelled : option (RFQ -> A);
  onFilled : option (RFQ -> A);
  pollingInterval : option Z;
  filters : option QueryFilters }.

(** The subscription handed to the store; a callback of the store yields the
    handler invocations it makes, in order. *)
Record WatchEntitiesOptions (A : Type) := mkWatchEntitiesOptions {
  we_entityType : string;
  we_onCreated : option (ArkivEntity -> list A);
  we_onUpdated : option (ArkivEntity -> list A);
  we_pollingInterval : Z;
  we_filters : ArkivFilters }.

Definition RFQStatus_toString (s : RFQStatus) : string :=
  match s with OPEN => "OPEN" | FILLED => "FILLED" | CANCELLED => "CANCELLED" end.

(** ** The client (sdk/src/client/ArkivRFQClient.ts) *)

Definition RFQ_ENTITY_TYPE : string := "RFQ".
Definition DEFAULT_POLLING_INTERVAL : Z := 2000.
Definition DEFAULT_PAGE_LIMIT : Z := 50.

Record ArkivRFQClient (S : Type) := mkArkivRFQClient {
  arkivClient : ArkivPublicClient S;
  signer : option Signer }.

Definition setSigner {S} (this : ArkivRFQClient S) (s : Signer) : ArkivRFQClient S :=
  mkArkivRFQClient (arkivClient this) (Some s).

(** [a || b] on an optional string: [undefined] and the empty string are falsy. *)
Definition stringOr (a : option string) (b : string) : string :=
  match a with
  | Some s => if Js.falsy s then b else s
  | None => b
  end.

(** [a || b] on an optional number: [undefined] and [0] are falsy. *)
Definition numberOr (a : option Z) (b : Z) : Z :=
  match a with
  | Some n => if n =? 0 then b else n
  | None => b
  end.

(** [{ ...existingRFQ, ...updates }] : a key of [updates] replaces the key of the
    same name. *)
Definition spread (existingRFQ : RFQ) (updates : UpdateRFQInput) : RFQ :=
  let pick {A} (u : option A) (e : A) : A := match u with Some v => v | None => e end in
  let pickOpt {A} (u : option A) (e : option A) : option A :=
    match u with Some v => Some v | None => e end in
  mkRFQ (id existingRFQ)
        (creator existingRFQ)
        (baseToken existingRFQ)
        (quoteToken existingRFQ)
        (pick (up_baseAmount updates) (baseAmount existingRFQ))
        (pick (up_quoteAmount updates) (quoteAmount existingRFQ))
        (pick (up_expiresIn updates) (expiresIn existingRFQ))
        (pick (up_status updates) (status existingRFQ))
        (createdAt existingRFQ)
        (updatedAt existingRFQ)
        (pickOpt (up_filledAmount updates) (filledAmount existingRFQ))
        (pickOpt (up_fills updates) (fills existingRFQ))
        (minFillAmount existingRFQ)
        (counterpartyRestrictions existingRFQ).

Definition setUpdatedAt (r : RFQ) (t : Z) : RFQ :=
  mkRFQ (id r) (creator r) (baseToken r) (quoteToken r) (baseAmount r)
        (quoteAmount r) (expiresIn r) (status r) (createdAt r) t
        (filledAmount r) (fills r) (minFillAmount r) (counterpartyRestrictions r).

(** [obj[key] = value] on a filter object. *)
Fixpoint assign (obj : ArkivFilters) (key : string) (value : FilterValue) : ArkivFilters :=
  match obj with
  | [] => [(key, value)]
  | (k, v) :: r => if String.eqb k key then (k, value) :: r else (k, v) :: assign r key value
  end.

Definition entityToRFQ (entity : ArkivEntity) : RFQ :=
  mkRFQ (id (data entity))
        (creator (data entity))
        (baseToken (data entity))
        (quoteToken (data entity))
        (baseAmount (data entity))
        (quoteAmount (data entity))
        (expiresIn (data entity))
        (status (data entity))
        (createdAt (data entity))
        (updatedAt (data entity))
        (filledAmount (data entity))
        (fills (data entity))
        (minFillAmount (data entity))
        (counterpartyRestrictions (data entity)).

Definition buildArkivFilters (filters : option QueryFilters) : ArkivFilters :=
  match filters with
  | None => []
  | Some filters =>
      let arkivFilters : ArkivFilters := [] in
      let arkivFilters :=
        match f_tokenPair filters with
        | Some tokenPair =>
            let o := assign arkivFilters "baseToken.address" (FString (address (base tokenPair))) in
            let o := assign o "baseToken.chainId" (FNumber (chainId (base tokenPair))) in
            let o := assign o "quoteToken.address" (FString (address (quote tokenPair))) in
            assign o "quoteToken.chainId" (FNumber (chainId (quote tokenPair)))
        | None => arkivFilters
        end in
      let arkivFilters :=
        match f_chain filters with
        | Some chain =>
            if chain =? 0 then arkivFilters
            else assign arkivFilters "$or"
                   (FOr [ [("baseToken.chainId", FNumber chain)];
                          [("quoteToken.chainId", FNumber chain)] ])
        | None => arkivFilters
        end in
      let arkivFilters :=
        match f_creator filters with
        | Some creator =>
            if Js.falsy creator then arkivFilters
            else assign arkivFilters "creator" (FString (Js.toLowerCase creator))
        | None => arkivFilters
        end in
      let arkivFilters :=
        match f_expiration filters with
        | Some (minTime, maxTime) => assign arkivFilters "expiresIn" (FRange minTime maxTime)
        | None => arkivFilters
        end in
      let arkivFilters :=
        match f_status filters with
        | Some status => assign arkivFilters "status" (FString (RFQStatus_toString status))
        | None => arkivFilters
        end in
      (* if (filters.priceRange) { nothing } *)
      arkivFilters
  end.

Definition buildArkivSort (sort : option SortOptions) : option ArkivSort :=
  match sort with
  | None => Some (mkArkivSort "createdAt" desc)
  | Some sort =>
      let field :=
        match sortBy sort with
        | CREATION_TIME => "createdAt"
        | EXPIRATION => "expiresIn"
        | BEST_PRICE => "createdAt"
        end in
      Some (mkArkivSort field
              (match ascending sort with Some true => asc | _ => desc end))
  end.

Definition filterByTokenPair (baseAddress : string) (baseChainId : Z)
    (quoteAddress : string) (quoteChainId : Z) : Result QueryFilters :=
  validateAddress baseAddress "baseAddress" >>>
  validateAddress quoteAddress "quoteAddress" >>>
  Ok (mkQueryFilters
        (Some (mkTokenPair (mkTokenInfo baseAddress baseChainId)
                           (mkTokenInfo quoteAddress quoteChainId)))
        None None None None None).

Definition filterByChain (chainId : Z) : QueryFilters :=
  mkQueryFilters None (Some chainId) None None None None.

Definition filterByPriceRange (min max : Z) : QueryFilters :=
  mkQueryFilters None None (Some (min, max)) None None None.

Definition filterByCreator (address : string) : Result QueryFilters :=
  validateAddress address "creator" >>>
  Ok (mkQueryFilters None None None (Some address) None None).

Definition filterByExpiration (minTime maxTime : Z) : QueryFilters :=
  mkQueryFilters None None None None (Some (minTime, maxTime)) None.

Section Client.

Variable S : Type.
Variable env : Env.
Variable this : ArkivRFQClient S.

Definition getSignerAddress : M S string :=
  match signer this with
  | None => throw (SignatureError "No signer configured. Call setSigner() first." None)
  | Some s =>
      match getAddress s with
      | Ok a => ret a
      | Throw error => throw (SignatureError "Failed to get signer address" (Some error))
      end
  end.

Definition signRFQData (data : RFQ) : M S string :=
  match signer this with
  | None => throw (SignatureError "No signer configured. Call setSigner() first." None)
  | Some s =>
      match signMessage s data with
      | Ok signature => ret signature
      | Throw error => throw (SignatureError "Failed to sign RFQ data" (Some error))
      end
  end.

Definition generateRFQId (creator : string) (timestamp : Z) : M S string :=
  let* random := mathRandom env in
  ret (Js.toLowerCase creator ++ "-" ++ Js.numberToString timestamp ++ "-" ++ random).

(** The record [createRFQ] assembles. *)
Definition rfqData (input : CreateRFQInput) (id creator : string) (now : Z) : RFQ :=
  mkRFQ id
        creator
        (in_baseToken input)
        (in_quoteToken input)
        (in_baseAmount input)
        (in_quoteAmount input)
        (in_expiresIn input)
        OPEN
        now
        now
        (Some (stringOr (in_minFillAmount input) "0"))
        (Some [])
        (in_minFillAmount input)
        (in_counterpartyRestrictions input).

(** The function [createRFQ] and [updateRFQ] hand to [withRetry]. *)
Definition writeAttempt (label : string) (id : string) (data : RFQ) (signature : string)
  : M S RFQ :=
  tryCatch
    (let options := mkWriteEntityOptions RFQ_ENTITY_TYPE id data (Some signature) in
     let* entity := callStore (CallWriteEntity options)
                              (writeEntity (arkivClient this) options) in
     ret (entityToRFQ entity))
    (fun error => throw (ArkivNetworkError label (Some error))).

Definition createRFQ (input : CreateRFQInput) : M S RFQ :=
  validateCreateRFQInput env input ;;
  let* creator := getSignerAddress in
  let* ms := dateNow env in
  let now := ms / 1000 in
  let* id := generateRFQId creator now in
  let rfqData := rfqData input id creator now in
  let* signature := signRFQData rfqData in
  withRetry (writeAttempt "Failed to create RFQ" id rfqData signature).

(** The function [getRFQ] hands to [withRetry]. *)
Definition getAttempt (id : string) : M S (option RFQ) :=
  tryCatch
    (let* entity := callStore (CallGetEntity RFQ_ENTITY_TYPE id)
                              (getEntity (arkivClient this) RFQ_ENTITY_TYPE id) in
     ret (match entity with Some entity => Some (entityToRFQ entity) | None => None end))
    (fun error => throw (ArkivNetworkError "Failed to get RFQ" (Some error))).

Definition getRFQ (id : string) : M S (option RFQ) :=
  lift (validateRFQId id) ;;
  withRetry (getAttempt id).

Definition updateRFQ (id : string) (updates : UpdateRFQInput) : M S RFQ :=
  lift (validateRFQId id) ;;
  let* existingRFQ := getRFQ id in
  match existingRFQ with
  | None => throw (RFQNotFoundError id)
  | Some existingRFQ =>
      let* signerAddress := getSignerAddress in
      if negb (String.eqb (Js.toLowerCase (creator existingRFQ)) (Js.toLowerCase signerAddress))
      then throw (OwnershipError "Only the RFQ creator can update this RFQ")
      else if negb (RFQStatus_eqb (status existingRFQ) OPEN)
      then throw (OwnershipError "Cannot update a non-open RFQ")
      else
        let* ms := dateNow env in
        let updatedData := setUpdatedAt (spread existingRFQ updates) (ms / 1000) in
        let* signature := signRFQData updatedData in
        withRetry (writeAttempt "Failed to update RFQ" id updatedData signature)
  end.

Definition cancelRFQ (id : string) : M S RFQ :=
  updateRFQ id (mkUpdateRFQInput None None None (Some CANCELLED) None None).

(** The function [deleteRFQ] hands to [withRetry]. *)
Definition deleteAttempt (id : string) : M S unit :=
  tryCatch
    (callStore (CallDeleteEntity RFQ_ENTITY_TYPE id)
               (deleteEntity (arkivClient this) RFQ_ENTITY_TYPE id))
    (fun error => throw (ArkivNetworkError "Failed to delete RFQ" (Some error))).

Definition deleteRFQ (id : string) : M S unit :=
  lift (validateRFQId id) ;;
  let* existingRFQ := getRFQ id in
  match existingRFQ with
  | None => throw (RFQNotFoundError id)
  | Some existingRFQ =>
      let* signerAddress := getSignerAddress in
      if negb (String.eqb (Js.toLowerCase (creator existingRFQ)) (Js.toLowerCase signerAddress))
      then throw (OwnershipError "Only the RFQ creator can delete this RFQ")
      else withRetry (deleteAttempt id)
  end.

(** The options [queryRFQs] passes to [queryEntities]. *)
Definition queryOptions (filters : option QueryFilters) (sort : option SortOptions)
    (pagination : option PaginationOptions) : QueryOptions :=
  let arkivFilters := buildArkivFilters filters in
  let arkivSort := buildArkivSort sort in
  mkQueryOptions RFQ_ENTITY_TYPE arkivFilters arkivSort
    (numberOr (match pagination with Some p => limit p | None => None end)
              DEFAULT_PAGE_LIMIT)
    (match pagination with Some p => cursor p | None => None end).

(** The function [queryRFQs] hands to [withRetry]. *)
Definition queryAttempt (filters : option QueryFilters) (sort : option SortOptions)
    (pagination : option PaginationOptions) : M S QueryResult :=
  tryCatch
    (let options := queryOptions filters sort pagination in
     let* response := callStore (CallQueryEntities options)
                                (queryEntities (arkivClient this) options) in
     let rfqs := map entityToRFQ (entities response) in
     ret (mkQueryResult rfqs (total response)
            (match nextCursor response with
             | Some c => negb (Js.falsy c)
             | None => false
             end)
            (nextCursor response)))
    (fun error => throw (ArkivNetworkError "Failed to query RFQs" (Some error))).

Definition queryRFQs (filters : option QueryFilters) (sort : option SortOptions)
    (pagination : option PaginationOptions) : M S QueryResult :=
  withRetry (queryAttempt filters sort pagination).

End Client.

(** [watchRFQs]: the subscription the client registers through
    [arkivClient.watchEntities]; the handle it returns is the store's own, and
    a failure of the store to register is rethrown as the [ArkivNetworkError]
    "Failed to start watching RFQs". *)
Definition watchRFQs {A} (options : WatchRFQsOptions A) : WatchEntitiesOptions A :=
  let arkivFilters := buildArkivFilters (filters options) in
  mkWatchEntitiesOptions
    RFQ_ENTITY_TYPE
    (match onCreated options with
     | Some created =>
         Some (fun entity =>
                 let rfq := entityToRFQ entity in
                 if RFQStatus_eqb (status rfq) OPEN then [created rfq] else [])
     | None => None
     end)
    (match onUpdated options with
     | Some _ =>
         Some (fun entity =>
                 let rfq := entityToRFQ entity in
                 match (if RFQStatus_eqb (status rfq) CANCELLED
                        then onCancelled options else None) with
                 | Some cancelled => [cancelled rfq]
                 | None =>
                     match (if RFQStatus_eqb (status rfq) FILLED
                            then onFilled options else None) with
                     | Some filled => [filled rfq]
                     | None =>
                         match onUpdated options with
                         | Some updated => [updated rfq]
                         | None => []
                         end
                     end
                 end)
     | None => None
     end)
    (numberOr (pollingInterval options) DEFAULT_POLLING_INTERVAL)
    arkivFilters.

(** ** The store of the tests (sdk/tests/mocks/ArkivClientMock.ts) *)

Module Mock.

(** A value read out of an entity's data by a dotted path. *)
Inductive JsVal : Type :=
| VString (s : string)
| VNumber (n : Z)
| VObject                  (* a nested object or an array *)
| VUndefined.

Definition optString (o : option string) : JsVal :=
  match o with Some s => VString s | None => VUndefined end.

(** [getNestedValue(obj, path)] on the data of an RFQ entity. *)
Definition getNestedValue (obj : RFQ) (path : string) : JsVal :=
  if String.eqb path "id" then VString (id obj)
  else if String.eqb path "creator" then VString (creator obj)
  else if String.eqb path "baseToken" then VObject
  else if String.eqb path "quoteToken" then VObject
  else if String.eqb path "baseToken.address" then VString (address (baseToken obj))
  else if String.eqb path "baseToken.chainId" then VNumber (chainId (baseToken obj))
  else if String.eqb path "quoteToken.address" then VString (address (quoteToken obj))
  else if String.eqb path "quoteToken.chainId" then VNumber (chainId (quoteToken obj))
  else if String.eqb path "baseAmount" then VString (baseAmount obj)
  else if String.eqb path "quoteAmount" then VString (quoteAmount obj)
  else if String.eqb path "expiresIn" then VNumber (expiresIn obj)
  else if String.eqb path "status" then VString (RFQStatus_toString (status obj))
  else if String.eqb path "createdAt" then VNumber (createdAt obj)
  else if String.eqb path "updatedAt" then VNumber (updatedAt obj)
  else if String.eqb path "filledAmount" then optString (filledAmount obj)
  else if String.eqb path "minFillAmount" then optString (minFillAmount obj)
  else if String.eqb path "fills" then
    match fills obj with Some _ => VObject | None => VUndefined end
  else if String.eqb path "counterpartyRestrictions" then
    match counterpartyRestrictions obj with Some _ => VObject | None => VUndefined end
  else VUndefined.

(** [entityValue !== value] is false: strict equality of a data value and a
    filter value. *)
Definition strictEq (entityValue : JsVal) (value : FilterValue) : bool :=
  match entityValue, value with
  | VString a, FString b => String.eqb a b
  | VNumber a, FNumber b => a =? b
  | _, _ => false
  end.

(** [entityValue < bound] and [entityValue > bound] against a number; an
    operand that is not a number compares false here (it is NaN for
    [undefined] and for objects; strings do not occur under a range filter of
    this client). *)
Definition jsLt (entityValue : JsVal) (bound : Z) : bool :=
  match entityValue with VNumber n => n <? bound | _ => false end.

Definition jsGt (entityValue : JsVal) (bound : Z) : bool :=
  match entityValue with VNumber n => n >? bound | _ => false end.

(** [matchesFilters(entity, filters)], by the entries of [filters]; a key
    [$or] holds the array of alternatives (under that key any other value has
    no [some] method: the client never builds one, and the entry does not
    match here). *)
Fixpoint matchesEntry (obj : RFQ) (key : string) (value : FilterValue) {struct value} : bool :=
  if String.eqb key "$or" then
    match value with
    | FOr orConditions =>
        existsb (fun condition =>
                   List.forallb (fun kv => let (k, v) := kv : string * FilterValue in
                                           matchesEntry obj k v) condition)
                orConditions
    | _ => false
    end
  else
    let entityValue := getNestedValue obj key in
    match value with
    | FRange gte lte => negb (jsLt entityValue gte) && negb (jsGt entityValue lte)
    | _ => strictEq entityValue value
    end.

Definition matchesFilters (entity : ArkivEntity) (filters : ArkivFilters) : bool :=
  List.forallb (fun kv => let (k, v) := kv : string * FilterValue in
                          matchesEntry (data entity) k v) filters.

(** The [Map] of entities, in insertion order. *)
Definition Entities := list (string * ArkivEntity).

Fixpoint mapGet (m : Entities) (key : string) : option ArkivEntity :=
  match m with
  | [] => None
  | (k, v) :: r => if String.eqb k key then Some v else mapGet r key
  end.

Fixpoint mapSet (m : Entities) (key : string) (value : ArkivEntity) : Entities :=
  match m with
  | [] => [(key, value)]
  | (k, v) :: r => if String.eqb k key then (k, value) :: r else (k, v) :: mapSet r key value
  end.

Fixpoint mapDelete (m : Entities) (key : string) : Entities :=
  match m with
  | [] => []
  | (k, v) :: r => if String.eqb k key then r else (k, v) :: mapDelete r key
  end.

Definition storeKey (entityType entityKey : string) : string :=
  entityType ++ ":" ++ entityKey.

(** [entities.slice(0, limit)] *)
Definition slice0 {A} (l : list A) (limit : Z) : list A :=
  if limit <? 0 then firstn (Z.to_nat (Z.of_nat (List.length l) + limit)) l
  else firstn (Z.to_nat limit) l.

Section ArkivClientMock.

(** [Date.now()] as the mock reads it for the [timestamp] of an entity, and
    [Array.prototype.sort] under the comparator of [queryEntities], which never
    answers 0: the order it leaves is the engine's. *)
Variable now : Z.
Variable arraySort : ArkivSort -> list ArkivEntity -> list ArkivEntity.

(** The watchers of the mock are in [triggerWatchers] below; they do not
    change what the store methods return. *)
Definition mock_writeEntity (options : WriteEntityOptions) (entities : Entities)
  : Result ArkivEntity * Entities :=
  let entity := mkArkivEntity (w_entityKey options) (w_data options) now in
  (Ok entity, mapSet entities (storeKey (w_entityType options) (w_entityKey options)) entity).

Definition mock_queryEntities (options : QueryOptions) (entities : Entities)
  : Result QueryResponse * Entities :=
  let found :=
    map snd (filter (fun kv => prefix (q_entityType options ++ ":") (fst kv)
                               && matchesFilters (snd kv) (q_filters options))
                    entities) in
  let found := match q_sort options with Some s => arraySort s found | None => found end in
  let limit := if q_limit options =? 0 then 50 else q_limit options in
  let paginatedEntities := slice0 found limit in
  let hasMore := Z.of_nat (List.length found) >? limit in
  (Ok (mkQueryResponse paginatedEntities (Z.of_nat (List.length found))
         (if hasMore then Some "mock-cursor" else None)),
   entities).

Definition mock_getEntity (entityType entityKey : string) (entities : Entities)
  : Result (option ArkivEntity) * Entities :=
  (Ok (mapGet entities (storeKey entityType entityKey)), entities).

Definition mock_deleteEntity (entityType entityKey : string) (entities : Entities)
  : Result unit * Entities :=
  (Ok tt, mapDelete entities (storeKey entityType entityKey)).

Definition ArkivClientMock : ArkivPublicClient Entities :=
  mkArkivPublicClient mock_writeEntity mock_queryEntities mock_getEntity mock_deleteEntity.

End ArkivClientMock.

Inductive EventType := created | updated.

(** [triggerWatchers(entityType, entity, eventType)] : the handler invocations
    the registered watchers make. *)
Definition triggerWatchers {A} (watchers : list (WatchEntitiesOptions A))
    (entityType : string) (entity : ArkivEntity) (eventType : EventType) : list A :=
  flat_map
    (fun options =>
       if String.eqb (we_entityType options) entityType then
         if matchesFilters entity (we_filters options) then
           match eventType, we_onCreated options, we_onUpdated options with
           | created, Some f, _ => f entity
           | updated, _, Some f => f entity
           | _, _, _ => []
           end
         else []
       else [])
    watchers.

(** [simulateEntityUpdate(entity, entityType)] *)
Definition simulateEntityUpdate {A} (watchers : list (WatchEntitiesOptions A))
    (entity : ArkivEntity) (entityType : string) : list A :=
  triggerWatchers watchers entityType entity updated.

End Mock.

(** ** Properties stated about the client *)

(** A result that is an error of the given [name]. *)
Definition failsWith {A} (name : string) (r : Result A) : Prop :=
  exists message originalError, r = Throw (JsError name message originalError).

(** The store methods a run has added to the log are reads of single entities. *)
Definition isGetEntity (c : StoreCall) : Prop :=
  match c with CallGetEntity _ _ => True | _ => False end.

Definition readsOnly {S} (w w' : World S) : Prop :=
  exists added, calls w' = (calls w ++ added)%list /\ Forall isGetEntity added.

(** A mutating call that fails with a [SignatureError] before any store call. *)
Definition failsUnsignedBeforeStore {S A} (m : M S A) (w : World S) : Prop :=
  failsWith "SignatureError" (fst (m w)) /\ calls (snd (m w)) = calls w.

(** A mutating call on the record [id] by a client without signer: it never
    succeeds, the only store calls it makes are reads of single entities, and
    once the read has found the record it fails with the [SignatureError] of
    the missing signer without any further store call. *)
Definition failsUnsignedAfterRead {S A} (this : ArkivRFQClient S) (id : string)
    (m : M S A) : Prop :=
  forall w,
    (forall v w', m w <> (Ok v, w'))
    /\ readsOnly w (snd (m w))
    /\ (forall existing w1,
          getRFQ this id w = (Ok (Some existing), w1) ->
          m w = (Throw (SignatureError "No signer configured. Call setSigner() first." None),
                 w1)).

(** A store that answers a successful write with the data it was given. *)
Definition writeEchoes {S} (cl : ArkivPublicClient S) : Prop :=
  forall options s entity s',
    writeEntity cl options s = (Ok entity, s') -> data entity = w_data options.

(** The function handed to [withRetry] is retried to exhaustion: whatever it
    throws is an [ArkivNetworkError] with the fixed message of [label] that the
    classifier lets through, and when it fails every time it is invoked
    [maxRetries + 1 = 4] times, each invocation making the store call [call]. *)
Definition retriedToExhaustion {S T} (fn : M S T) (label : string) (call : StoreCall) : Prop :=
  (forall w e w', fn w = (Throw e, w') ->
     exists cause,
       e = JsError "ArkivNetworkError" ("Network error: " ++ label) (Some cause)
       /\ isNonRetryableError e = false)
  /\ ((forall w, exists e w', fn w = (Throw e, w')) ->
      forall w, exists cause w',
        withRetry fn w =
          (Throw (ArkivNetworkError "Operation failed after 4 attempts"
                    (Some (ArkivNetworkError label (Some cause)))), w')
        /\ calls w' = (calls w ++ repeat call 4)%list
        /\ sleeps w' = (sleeps w ++ [1000; 2000; 4000])%list).

(** ** Concrete collaborators and worlds *)

Module Examples.

(** A clock that stands within one second, and a fixed random suffix. *)
Definition env : Env :=
  mkEnv (fun _ => 1700000000500) (fun _ => "k3x9q2m1zab").

Definition mock : ArkivPublicClient Mock.Entities :=
  Mock.ArkivClientMock 1700000000500 (fun _ l => l).

(** The signer of the tests, and a signer whose address has capitals. *)
Definition mockSigner : Signer :=
  mkSigner (Ok "0x1234567890123456789012345678901234567890")
           (fun _ => Ok "0x00").

Definition checksumSigner : Signer :=
  mkSigner (Ok "0xAbCdEf7890123456789012345678901234567890")
           (fun _ => Ok "0x00").

(** The creator of [rfq1] below, spelled with capital hexadecimal digits. *)
Definition capitalsSigner : Signer :=
  mkSigner (Ok "0X1234567890123456789012345678901234567890")
           (fun _ => Ok "0x00").

(** A signer whose wallet refuses every signature. *)
Definition refusingSigner : Signer :=
  mkSigner (Ok "0x1234567890123456789012345678901234567890")
           (fun _ => Throw (JsError "Error" "user rejected signing" None)).

Definition unsigned : ArkivRFQClient Mock.Entities := mkArkivRFQClient mock None.

Definition refusingClient : ArkivRFQClient Mock.Entities :=
  mkArkivRFQClient mock (Some refusingSigner).

Definition capitalsClient : ArkivRFQClient Mock.Entities :=
  mkArkivRFQClient mock (Some capitalsSigner).

Definition client : ArkivRFQClient Mock.Entities := setSigner unsigned mockSigner.

Definition checksumClient : ArkivRFQClient Mock.Entities := setSigner unsigned checksumSigner.

Definition tokenA : TokenInfo := mkTokenInfo "0x1111111111111111111111111111111111111111" 1.
Definition tokenB : TokenInfo := mkTokenInfo "0x2222222222222222222222222222222222222222" 1.

Definition input : CreateRFQInput :=
  mkCreateRFQInput tokenA tokenB "1000000000000000000" "2000000000" 1700003600 None None.

Definition inputWithMinFill : CreateRFQInput :=
  mkCreateRFQInput tokenA tokenB "1000000000000000000" "2000000000" 1700003600
    (Some "500") None.

(** The input of the test with a malformed token address. *)
Definition invalidInput : CreateRFQInput :=
  mkCreateRFQInput (mkTokenInfo "invalid-address" 1) tokenB
    "1000000000000000000" "2000000000" 1700003600 None None.

Definition noUpdates : UpdateRFQInput := mkUpdateRFQInput None None None None None None.

Definition newBaseAmount : UpdateRFQInput :=
  mkUpdateRFQInput (Some "1500000000000000000") None None None None None.

(** An update to an amount the amount validator would refuse. *)
Definition zeroBaseAmount : UpdateRFQInput :=
  mkUpdateRFQInput (Some "0") None None None None None.

Definition rfq1 (st : RFQStatus) : RFQ :=
  mkRFQ "rfq-1" "0x1234567890123456789012345678901234567890" tokenA tokenB
        "1000000000000000000" "2000000000" 1700003600 st 1700000000 1700000000
        (Some "0") (Some []) None None.

Definition emptyWorld : World Mock.Entities := mkWorld [] [] [] 0 0.

(** A store that holds the one record [rfq-1] in the given status. *)
Definition worldWith (st : RFQStatus) : World Mock.Entities :=
  mkWorld [("RFQ:rfq-1", mkArkivEntity "rfq-1" (rfq1 st) 1700000000000)] [] [] 0 0.

(** An operation that fails with [error] on its first [failures] invocations and
    resolves to [v] afterwards; the store state counts its invocations. *)
Definition flaky {T} (failures : nat) (error : thrown) (v : T) : M nat T :=
  fun w =>
    (if (store w <? failures)%nat then Throw error else Ok v,
     mkWorld (Datatypes.S (store w)) (calls w) (sleeps w) (clockReads w) (randomReads w)).

(** An operation that fails with [error] every time. *)
Definition failing {T} (error : thrown) : M nat T :=
  fun w =>
    (Throw error,
     mkWorld (Datatypes.S (store w)) (calls w) (sleeps w) (clockReads w) (randomReads w)).

(** A store every method of which answers with an HTTP 404. *)
Definition http404 : thrown := JsError "Error" "Request failed with status 404" None.

Definition failingStore : ArkivPublicClient nat :=
  mkArkivPublicClient
    (fun _ n => (Throw http404, Datatypes.S n))
    (fun _ n => (Throw http404, Datatypes.S n))
    (fun _ _ n => (Throw http404, Datatypes.S n))
    (fun _ _ n => (Throw http404, Datatypes.S n)).

Definition failingClient : ArkivRFQClient nat := mkArkivRFQClient failingStore (Some mockSigner).

Definition world0 : World nat := mkWorld 0%nat [] [] 0 0.

(** What a handler of a watcher does: it records its name and the record. *)
Inductive Fired := FiredCreated (r : RFQ) | FiredUpdated (r : RFQ)
                 | FiredCancelled (r : RFQ) | FiredFilled (r : RFQ).

Definition cancelledEntity : ArkivEntity :=
  mkArkivEntity "rfq-1" (rfq1 CANCELLED) 1700000000000.

End Examples.

(** ** Well-formed inputs, spelled out *)

(** [0x] followed by forty hexadecimal digits. *)
Definition validAddress (a : string) : Prop :=
  exists digits, a = "0x" ++ digits
                 /\ String.length digits = 40%nat
                 /\ Js.forallb Js.isHexDigit digits = true.

Definition validTokenInfo (t : TokenInfo) : Prop :=
  validAddress (address t) /\ 0 < chainId t.

(** A non-empty string of decimal digits other than the literal 0. *)
Definition validAmountString (s : string) : Prop :=
  s <> EmptyString /\ Js.forallb Js.isDigit s = true /\ s <> "0".

(** An expiry within the thirty days that follow the second [now]. *)
Definition validExpiration (now expiresIn : Z) : Prop :=
  0 < expiresIn /\ now < expiresIn /\ expiresIn <= now + 2592000.

Definition validCreateRFQInput (now : Z) (input : CreateRFQInput) : Prop :=
  validTokenInfo (in_baseToken input)
  /\ validTokenInfo (in_quoteToken input)
  /\ validAmountString (in_baseAmount input)
  /\ validAmountString (in_quoteAmount input)
  /\ validExpiration now (in_expiresIn input)
  /\ (forall m, in_minFillAmount input = Some m -> validAmountString m)
  /\ (forall l, in_counterpartyRestrictions input = Some l -> Forall validAddress l).

(** What the filters of a query ask of a record: each filter that is present
    (and, for [chain] and [creator], truthy) must hold. *)
Definition satisfiesFilters (d : RFQ) (f : QueryFilters) : Prop :=
  (forall tp, f_tokenPair f = Some tp ->
      address (baseToken d) = address (base tp)
      /\ chainId (baseToken d) = chainId (base tp)
      /\ address (quoteToken d) = address (quote tp)
      /\ chainId (quoteToken d) = chainId (quote tp))
  /\ (forall c, f_chain f = Some c -> c <> 0 ->
        chainId (baseToken d) = c \/ chainId (quoteToken d) = c)
  /\ (forall a, f_creator f = Some a -> a <> EmptyString ->
        creator d = Js.toLowerCase a)
  /\ (forall lo hi, f_expiration f = Some (lo, hi) -> lo <= expiresIn d <= hi)
  /\ (forall st, f_status f = Some st -> status d = st).

(** An error of the kind the validators throw. *)
Definition isValidationError (e : thrown) : Prop :=
  errorName e = Some "ValidationError".

(** The waits of [withRetry] between attempts: the first is [initialDelay],
    each next one the previous times [backoffMultiplier], capped by
    [maxDelay]. *)
Fixpoint delaySchedule (config : RetryConfig) (delay : Z) (n : nat) : list Z :=
  match n with
  | O => []
  | Datatypes.S n' =>
      delay :: delaySchedule config
                 (Z.min (delay * backoffMultiplier config) (maxDelay config)) n'
  end.

(** * Verification *)

(** ** Strings and the amount validator *)

Lemma lowerChar_idempotent (c : ascii) : Js.lowerChar (Js.lowerChar c) = Js.lowerChar c.
Proof.
  destruct c as [[] [] [] [] [] [] [] []]; reflexivity.
Qed.

Lemma toLowerCase_idempotent (s : string) :
  Js.toLowerCase (Js.toLowerCase s) = Js.toLowerCase s.
Proof.
  induction s as [|c r IH]; simpl.
  - reflexivity.
  - now rewrite lowerChar_idempotent, IH.
Qed.

(** [validateAmount] accepts exactly the non-empty strings of decimal digits
    other than the literal ["0"]. *)
Lemma validateAmount_accepts_iff (amount fieldName : string) :
  validateAmount amount fieldName = Ok tt
  <-> amount <> EmptyString
      /\ Js.forallb Js.isDigit amount = true
      /\ amount <> "0".
Proof.
  unfold validateAmount, Js.matchesDigits.
  destruct amount as [|c r].
  - simpl. split; [discriminate | intros [H _]; now elim H].
  - cbn [Js.falsy negb andb].
    destruct (Js.forallb Js.isDigit (String c r)) eqn:Hd; cbn [negb].
    + destruct (String.eqb_spec (String c r) "0") as [E|E].
      * split; [discriminate | intros (_ & _ & H); now elim H].
      * split; [intros _; repeat split; [discriminate | assumption] | reflexivity].
    + split; [discriminate | intros (_ & H & _); discriminate].
Qed.

Lemma validateAmount_ok_stringOr (m fieldName d : string) :
  validateAmount m fieldName = Ok tt -> stringOr (Some m) d = m /\ m <> "0".
Proof.
  intros H. apply validateAmount_accepts_iff in H. destruct H as (Hne & _ & Hz).
  split; [|assumption].
  destruct m; [now elim Hne | reflexivity].
Qed.

(** ** The monad *)

Lemma bind_ok_inv S A B (m : M S A) (k : A -> M S B) w b w' :
  bind m k w = (Ok b, w') ->
  exists a w1, m w = (Ok a, w1) /\ k a w1 = (Ok b, w').
Proof.
  unfold bind. destruct (m w) as [[a|e] w1]; intros H.
  - now exists a, w1.
  - discriminate.
Qed.

Lemma bind_ok S A B (m : M S A) (k : A -> M S B) w a w1 :
  m w = (Ok a, w1) -> bind m k w = k a w1.
Proof. unfold bind. now intros ->. Qed.

Lemma bind_throw S A B (m : M S A) (k : A -> M S B) w e w1 :
  m w = (Throw e, w1) -> bind m k w = (Throw e, w1).
Proof. unfold bind. now intros ->. Qed.

Lemma lift_ok_inv S A (r : Result A) (w : World S) a w' :
  lift r w = (Ok a, w') -> r = Ok a /\ w' = w.
Proof. unfold lift. intros H. inversion H. now split. Qed.

(** ** The retry executor *)

Section RetryFacts.

Variable S : Type.
Variable T : Type.
Variable fn : M S T.
Variable config : RetryConfig.

(** One iteration of the loop, by what [fn] does and where the loop stands. *)
Lemma retryLoop_returns fuel attempt delay lastError w v w1 :
  attempt <= maxRetries config ->
  fn w = (Ok v, w1) ->
  retryLoop fn config (Datatypes.S fuel) attempt delay lastError w = (Returned v, w1).
Proof.
  intros Hle Hfn. simpl.
  apply Z.leb_le in Hle. now rewrite Hle, Hfn.
Qed.

Lemma retryLoop_last_attempt fuel delay lastError w error w1 :
  fn w = (Throw error, w1) ->
  retryLoop fn config (Datatypes.S fuel) (maxRetries config) delay lastError w
  = (Exhausted (Some error), w1).
Proof.
  intros Hfn. simpl. now rewrite Z.leb_refl, Hfn, Z.eqb_refl.
Qed.

Lemma retryLoop_aborts fuel attempt delay lastError w error w1 :
  attempt <= maxRetries config ->
  fn w = (Throw error, w1) ->
  isNonRetryableError error = true ->
  retryLoop fn config (Datatypes.S fuel) attempt delay lastError w
  = (Exhausted (Some error), w1).
Proof.
  intros Hle Hfn Hn. simpl.
  apply Z.leb_le in Hle. rewrite Hle, Hfn, Hn.
  now destruct (attempt =? maxRetries config).
Qed.

Lemma retryLoop_retries fuel attempt delay lastError w error w1 :
  attempt < maxRetries config ->
  fn w = (Throw error, w1) ->
  isNonRetryableError error = false ->
  retryLoop fn config (Datatypes.S fuel) attempt delay lastError w
  = retryLoop fn config fuel (attempt + 1)
      (Z.min (delay * backoffMultiplier config) (maxDelay config))
      (Some error) (snd (sleep delay w1)).
Proof.
  intros Hlt Hfn Hn. simpl.
  assert (Hle : (attempt <=? maxRetries config) = true) by (apply Z.leb_le; lia).
  assert (Hne : (attempt =? maxRetries config) = false) by (apply Z.eqb_neq; lia).
  now rewrite Hle, Hfn, Hne, Hn.
Qed.

(** More fuel than [maxRetries + 1 - attempt] changes nothing: the loop
    condition ends the loop before the fuel does. *)
Lemma retryLoop_fuel_stable (extra : nat) :
  forall fuel attempt delay lastError w,
    (Z.to_nat (maxRetries config + 1 - attempt) <= fuel)%nat ->
    retryLoop fn config (fuel + extra) attempt delay lastError w
    = retryLoop fn config fuel attempt delay lastError w.
Proof.
  induction fuel as [|fuel IH]; intros attempt delay lastError w Hf.
  - assert (Hgt : (attempt <=? maxRetries config) = false) by (apply Z.leb_gt; lia).
    destruct extra; simpl; [reflexivity | now rewrite Hgt].
  - simpl.
    destruct (attempt <=? maxRetries config) eqn:Hle; [|reflexivity].
    destruct (fn w) as [[v|error] w1]; [reflexivity|].
    destruct (attempt =? maxRetries config); [reflexivity|].
    destruct (isNonRetryableError error); [reflexivity|].
    apply IH. lia.
Qed.

(** [withRetry] never cuts the loop short: any larger fuel gives the same run. *)
Lemma withRetryConfig_fuel_sufficient (extra : nat) w :
  retryLoop fn config (Z.to_nat (maxRetries config + 1) + extra) 0
    (initialDelay config) None w
  = retryLoop fn config (Z.to_nat (maxRetries config + 1)) 0
      (initialDelay config) None w.
Proof.
  apply retryLoop_fuel_stable. rewrite Z.sub_0_r. apply Nat.le_refl.
Qed.

(** A value the loop returns is a value [fn] resolved to. *)
Lemma retryLoop_returned_inv :
  forall fuel attempt delay lastError w v w',
    retryLoop fn config fuel attempt delay lastError w = (Returned v, w') ->
    exists w0, fn w0 = (Ok v, w').
Proof.
  induction fuel as [|fuel IH]; intros attempt delay lastError w v w' H; simpl in H.
  - discriminate.
  - destruct (attempt <=? maxRetries config); [|discriminate].
    destruct (fn w) as [[v0|error] w1] eqn:Hfn.
    + inversion H; subst. now exists w.
    + destruct (attempt =? maxRetries config); [discriminate|].
      destruct (isNonRetryableError error); [discriminate|].
      eapply IH; eassumption.
Qed.

Lemma withRetryConfig_ok_inv w v w' :
  withRetryConfig fn config w = (Ok v, w') -> exists w0, fn w0 = (Ok v, w').
Proof.
  unfold withRetryConfig.
  destruct (retryLoop fn config _ 0 (initialDelay config) None w) as [[v0|l] w1] eqn:Hl;
    intros H; inversion H; subst.
  eapply retryLoop_returned_inv; eassumption.
Qed.

(** A relation between worlds that [fn] and [sleep] respect is respected by
    the whole retried call. *)
Variable R : World S -> World S -> Prop.
Hypothesis R_refl : forall w, R w w.
Hypothesis R_trans : forall a b c, R a b -> R b c -> R a c.
Hypothesis R_fn : forall w, R w (snd (fn w)).
Hypothesis R_sleep : forall ms w, R w (snd (sleep ms w)).

Lemma retryLoop_respects :
  forall fuel attempt delay lastError w,
    R w (snd (retryLoop fn config fuel attempt delay lastError w)).
Proof.
  induction fuel as [|fuel IH]; intros attempt delay lastError w; simpl.
  - apply R_refl.
  - destruct (attempt <=? maxRetries config); [|apply R_refl].
    pose proof (R_fn w) as Hfn.
    destruct (fn w) as [[v|error] w1]; simpl in Hfn; [exact Hfn|].
    destruct (attempt =? maxRetries config); [exact Hfn|].
    destruct (isNonRetryableError error); [exact Hfn|].
    eapply R_trans; [exact Hfn|].
    eapply R_trans; [apply (R_sleep delay w1)|].
    apply IH.
Qed.

Lemma withRetryConfig_respects w : R w (snd (withRetryConfig fn config w)).
Proof.
  unfold withRetryConfig.
  pose proof (retryLoop_respects (Z.to_nat (maxRetries config + 1)) 0
                (initialDelay config) None w) as H.
  destruct (retryLoop fn config _ 0 (initialDelay config) None w) as [[v|l] w1];
    exact H.
Qed.

End RetryFacts.

(** The retried call never succeeds where [fn] never does. *)
Lemma withRetry_never_ok S T (fn : M S T) :
  (forall w v w', fn w <> (Ok v, w')) ->
  forall w v w', withRetry fn w <> (Ok v, w').
Proof.
  intros Hfn w v w' H. apply withRetryConfig_ok_inv in H.
  destruct H as [w0 H]. exact (Hfn _ _ _ H).
Qed.

(** With the default configuration, a function whose every failure is
    retryable and that fails every time is invoked four times, with waits of
    1000, 2000 and 4000 ms in between. *)
Lemma withRetry_exhausts S T (fn : M S T) (call : StoreCall) :
  (forall w, exists e w',
      fn w = (Throw e, w') /\ isNonRetryableError e = false
      /\ calls w' = (calls w ++ [call])%list /\ sleeps w' = sleeps w) ->
  forall w, exists e w',
    withRetry fn w
    = (Throw (ArkivNetworkError "Operation failed after 4 attempts" (Some e)), w')
    /\ (exists w0 w0', fn w0 = (Throw e, w0'))
    /\ calls w' = (calls w ++ repeat call 4)%list
    /\ sleeps w' = (sleeps w ++ [1000; 2000; 4000])%list.
Proof.
  intros Hfn w.
  unfold withRetry, withRetryConfig.
  change (Z.to_nat (maxRetries DEFAULT_RETRY_CONFIG + 1)) with 4%nat.
  destruct (Hfn w) as (e1 & w1 & H1 & N1 & C1 & S1).
  rewrite retryLoop_retries with (error := e1) (w1 := w1); [|reflexivity|exact H1|exact N1].
  destruct (Hfn (snd (sleep (initialDelay DEFAULT_RETRY_CONFIG) w1)))
    as (e2 & w2 & H2 & N2 & C2 & S2).
  rewrite retryLoop_retries with (error := e2) (w1 := w2); [|reflexivity|exact H2|exact N2].
  match goal with |- context [sleep ?d w2] =>
    destruct (Hfn (snd (sleep d w2))) as (e3 & w3 & H3 & N3 & C3 & S3) end.
  rewrite retryLoop_retries with (error := e3) (w1 := w3); [|reflexivity|exact H3|exact N3].
  match goal with |- context [sleep ?d w3] =>
    destruct (Hfn (snd (sleep d w3))) as (e4 & w4 & H4 & N4 & C4 & S4) end.
  change (0 + 1 + 1 + 1) with (maxRetries DEFAULT_RETRY_CONFIG).
  rewrite retryLoop_last_attempt with (error := e4) (w1 := w4); [|exact H4].
  exists e4, w4. cbn in *.
  split; [reflexivity|]. split; [eauto|].
  rewrite C4, C3, C2, C1, S4, S3, S2, S1.
  repeat rewrite <- app_assoc. now split.
Qed.

(** An error named [ValidationError] is never retried. *)
Lemma validation_is_non_retryable (error : thrown) :
  errorName error = Some "ValidationError" -> isNonRetryableError error = true.
Proof.
  destruct error as [n m o|v]; simpl; [|discriminate].
  intros H. inversion H. reflexivity.
Qed.

(** C4 (the code at the failing input): [validateAmount] lets the two-digit
    string 00 through, for every field name, although the integer it denotes
    is zero; the message the validator has for the literal 0 is "must be
    greater than zero". *)
Theorem validateAmount_accepts_double_zero :
  forall fieldName : string,
    validateAmount "00" fieldName = Ok tt /\ amountValue "00" = 0.
Proof.
  intros fieldName. split; reflexivity.
Qed.

(** C5: with [maxRetries = 3], an operation that fails twice with a retryable
    error and then succeeds makes the retried call succeed with the
    operation's value after exactly three invocations; an operation that
    always fails with an error named [ValidationError] is invoked exactly once,
    nothing is waited for, and the call fails with the wrapped error. *)
Theorem withRetry_retries_then_succeeds_and_aborts_on_validation :
  (forall (T : Type) (error : thrown) (v : T) (config : RetryConfig) (w : World nat),
      maxRetries config = 3 ->
      isNonRetryableError error = false ->
      store w = 0%nat ->
      fst (withRetryConfig (Examples.flaky 2 error v) config w) = Ok v
      /\ store (snd (withRetryConfig (Examples.flaky 2 error v) config w)) = 3%nat)
  /\
  (forall (T : Type) (error : thrown) (config : RetryConfig) (w : World nat),
      0 <= maxRetries config ->
      errorName error = Some "ValidationError" ->
      store w = 0%nat ->
      fst (withRetryConfig (Examples.failing (T := T) error) config w)
      = Throw (ArkivNetworkError
                 ("Operation failed after " ++ Js.numberToString (maxRetries config + 1)
                  ++ " attempts") (Some error))
      /\ store (snd (withRetryConfig (Examples.failing (T := T) error) config w)) = 1%nat
      /\ sleeps (snd (withRetryConfig (Examples.failing (T := T) error) config w)) = sleeps w).
Proof.
  split.
  - intros T error v config w Hmax Hretry Hw.
    destruct w as [st cs sl cr rr]. simpl in Hw. subst st.
    unfold withRetryConfig. rewrite Hmax.
    change (Z.to_nat (3 + 1)) with 4%nat.
    erewrite retryLoop_retries; [|lia|reflexivity|exact Hretry].
    erewrite retryLoop_retries; [|lia|reflexivity|exact Hretry].
    erewrite retryLoop_returns; [|lia|reflexivity].
    split; reflexivity.
  - intros T error config w Hmax Hname Hw.
    destruct w as [st cs sl cr rr]. simpl in Hw. subst st.
    assert (Hfuel : Z.to_nat (maxRetries config + 1)
                    = Datatypes.S (Z.to_nat (maxRetries config)))
      by (rewrite Z.add_1_r; now apply Z2Nat.inj_succ).
    unfold withRetryConfig. rewrite Hfuel.
    erewrite retryLoop_aborts;
      [|assumption|reflexivity|now apply validation_is_non_retryable].
    repeat split; reflexivity.
Qed.

Lemma withRetry_retries_then_succeeds_and_aborts_on_validation_witness :
  (fst (withRetry (Examples.flaky 2 (JsError "Error" "connection reset" None) "done")
          Examples.world0) = Ok "done"
   /\ store (snd (withRetry (Examples.flaky 2 (JsError "Error" "connection reset" None) "done")
                    Examples.world0)) = 3%nat)
  /\ store (snd (withRetry (Examples.failing (T := unit) (ValidationError "bad input"))
                   Examples.world0)) = 1%nat.
Proof.
  destruct withRetry_retries_then_succeeds_and_aborts_on_validation as [Hflaky Hfail].
  split.
  - apply (Hflaky string (JsError "Error" "connection reset" None) "done"
             DEFAULT_RETRY_CONFIG Examples.world0); reflexivity.
  - apply (Hfail unit (ValidationError "bad input") DEFAULT_RETRY_CONFIG Examples.world0);
      [discriminate | reflexivity | reflexivity].
Defined.

(** ** The change feed *)

(** With [onUpdated] registered, an update is classified by the status of the
    mapped record: a cancelled record goes to [onCancelled] when there is one
    and to [onUpdated] otherwise. *)
Lemma watchRFQs_dispatch_with_onUpdated A (options : WatchRFQsOptions A)
    (u : RFQ -> A) (entity : ArkivEntity) :
  onUpdated options = Some u ->
  status (data entity) = CANCELLED ->
  exists f, we_onUpdated (watchRFQs options) = Some f
            /\ f entity = match onCancelled options with
                          | Some c => [c (entityToRFQ entity)]
                          | None => [u (entityToRFQ entity)]
                          end.
Proof.
  intros Hu Hst. unfold watchRFQs. simpl. rewrite Hu.
  eexists. split; [reflexivity|]. simpl. rewrite Hst. simpl.
  destruct (onCancelled options); reflexivity.
Qed.

(** C2 (the code at the failing input): a watcher that registers [onCancelled]
    and no [onUpdated] hands the store no update callback at all, so an update
    notification for a record of any status, cancelled ones included, invokes
    no handler. *)
Theorem watchRFQs_onCancelled_without_onUpdated_never_fires :
  forall (A : Type) (onCancelled : RFQ -> A) (pollingInterval : option Z)
         (filters : option QueryFilters) (entity : ArkivEntity),
    we_onUpdated (watchRFQs (mkWatchRFQsOptions None None (Some onCancelled) None
                               pollingInterval filters)) = None
    /\ Mock.simulateEntityUpdate
         [watchRFQs (mkWatchRFQsOptions None None (Some onCancelled) None
                       pollingInterval filters)]
         entity RFQ_ENTITY_TYPE = [].
Proof.
  intros A h interval filters entity. split; [reflexivity|].
  unfold Mock.simulateEntityUpdate, Mock.triggerWatchers. simpl.
  destruct (Mock.matchesFilters entity (buildArkivFilters filters)); reflexivity.
Qed.

(** ** Store failures inside the lifecycle operations *)

Lemma isNonRetryableError_ignores_cause (n m : string) (o o' : option thrown) :
  isNonRetryableError (JsError n m o) = isNonRetryableError (JsError n m o').
Proof. reflexivity. Qed.

Lemma retriedToExhaustion_intro S T (fn : M S T) (label : string) (call : StoreCall) :
  isNonRetryableError (ArkivNetworkError label None) = false ->
  (forall w e w', fn w = (Throw e, w') ->
     exists cause, e = ArkivNetworkError label (Some cause)) ->
  (forall w, calls (snd (fn w)) = (calls w ++ [call])%list
             /\ sleeps (snd (fn w)) = sleeps w) ->
  retriedToExhaustion fn label call.
Proof.
  intros Hclass Hshape Heffect. split.
  - intros w e w' Hfn. destruct (Hshape _ _ _ Hfn) as [cause ->].
    exists cause. split; [reflexivity|].
    unfold ArkivNetworkError in *.
    now rewrite (isNonRetryableError_ignores_cause _ _ (Some cause) None).
  - intros Hfails w.
    assert (Hall : forall x, exists e x',
               fn x = (Throw e, x') /\ isNonRetryableError e = false
               /\ calls x' = (calls x ++ [call])%list /\ sleeps x' = sleeps x).
    { intros x. destruct (Hfails x) as (e & x' & Hx).
      exists e, x'. split; [exact Hx|].
      destruct (Hshape _ _ _ Hx) as [cause ->].
      destruct (Heffect x) as [Hc Hs]. rewrite Hx in Hc, Hs. simpl in Hc, Hs.
      split; [|now split].
      unfold ArkivNetworkError in *.
      now rewrite (isNonRetryableError_ignores_cause _ _ (Some cause) None). }
    destruct (@withRetry_exhausts S T fn call Hall w) as (e & w' & Hr & (w0 & w0' & He) & Hc & Hs).
    destruct (Hshape _ _ _ He) as [cause ->].
    exists cause, w'. repeat split; assumption.
Qed.

Section Attempts.

Variable S : Type.
Variable this : ArkivRFQClient S.

Lemma writeAttempt_throws label id data signature w e w' :
  writeAttempt this label id data signature w = (Throw e, w') ->
  exists cause, e = ArkivNetworkError label (Some cause).
Proof.
  unfold writeAttempt, tryCatch, bind, callStore, ret, throw.
  destruct (writeEntity _ _ _) as [[entity|cause] s']; intros H; inversion H.
  now exists cause.
Qed.

Lemma writeAttempt_effect label id data signature w :
  calls (snd (writeAttempt this label id data signature w))
  = (calls w ++ [CallWriteEntity (mkWriteEntityOptions RFQ_ENTITY_TYPE id data (Some signature))])%list
  /\ sleeps (snd (writeAttempt this label id data signature w)) = sleeps w
  /\ clockReads (snd (writeAttempt this label id data signature w)) = clockReads w.
Proof.
  unfold writeAttempt, tryCatch, bind, callStore, ret, throw.
  destruct (writeEntity _ _ _) as [[entity|cause] s']; simpl; repeat split.
Qed.

Lemma getAttempt_throws id w e w' :
  getAttempt this id w = (Throw e, w') ->
  exists cause, e = ArkivNetworkError "Failed to get RFQ" (Some cause).
Proof.
  unfold getAttempt, tryCatch, bind, callStore, ret, throw.
  destruct (getEntity _ _ _ _) as [[entity|cause] s']; intros H; inversion H.
  now exists cause.
Qed.

Lemma getAttempt_effect id w :
  calls (snd (getAttempt this id w)) = (calls w ++ [CallGetEntity RFQ_ENTITY_TYPE id])%list
  /\ sleeps (snd (getAttempt this id w)) = sleeps w
  /\ clockReads (snd (getAttempt this id w)) = clockReads w.
Proof.
  unfold getAttempt, tryCatch, bind, callStore, ret, throw.
  destruct (getEntity _ _ _ _) as [[entity|cause] s']; simpl; repeat split.
Qed.

Lemma deleteAttempt_throws id w e w' :
  deleteAttempt this id w = (Throw e, w') ->
  exists cause, e = ArkivNetworkError "Failed to delete RFQ" (Some cause).
Proof.
  unfold deleteAttempt, tryCatch, callStore, throw.
  destruct (deleteEntity _ _ _ _) as [[u|cause] s']; intros H; inversion H.
  now exists cause.
Qed.

Lemma deleteAttempt_effect id w :
  calls (snd (deleteAttempt this id w)) = (calls w ++ [CallDeleteEntity RFQ_ENTITY_TYPE id])%list
  /\ sleeps (snd (deleteAttempt this id w)) = sleeps w.
Proof.
  unfold deleteAttempt, tryCatch, callStore, throw.
  destruct (deleteEntity _ _ _ _) as [[u|cause] s']; simpl; repeat split.
Qed.

Lemma queryAttempt_throws filters sort pagination w e w' :
  queryAttempt this filters sort pagination w = (Throw e, w') ->
  exists cause, e = ArkivNetworkError "Failed to query RFQs" (Some cause).
Proof.
  unfold queryAttempt, tryCatch, bind, callStore, ret, throw.
  destruct (queryEntities _ _ _) as [[response|cause] s']; intros H; inversion H.
  now exists cause.
Qed.

Lemma queryAttempt_effect filters sort pagination w :
  calls (snd (queryAttempt this filters sort pagination w))
  = (calls w ++ [CallQueryEntities (queryOptions filters sort pagination)])%list
  /\ sleeps (snd (queryAttempt this filters sort pagination w)) = sleeps w.
Proof.
  unfold queryAttempt, tryCatch, bind, callStore, ret, throw.
  destruct (queryEntities _ _ _) as [[response|cause] s']; simpl; repeat split.
Qed.

End Attempts.

(** C8: in create, read, update, delete and query, whatever the store call
    throws (a message with 400 or 404 included) reaches the retry classifier
    as an [ArkivNetworkError] whose message is the fixed text of the operation
    and whose cause is kept aside in [originalError]; the classifier lets it
    through, so a store call that fails every time is made four times before
    the operation gives up. *)
Theorem store_failures_are_retried_to_exhaustion :
  forall (S : Type) (this : ArkivRFQClient S),
    (forall id data signature,
        retriedToExhaustion
          (writeAttempt this "Failed to create RFQ" id data signature)
          "Failed to create RFQ"
          (CallWriteEntity (mkWriteEntityOptions RFQ_ENTITY_TYPE id data (Some signature))))
    /\ (forall id,
        retriedToExhaustion (getAttempt this id) "Failed to get RFQ"
          (CallGetEntity RFQ_ENTITY_TYPE id))
    /\ (forall id data signature,
        retriedToExhaustion
          (writeAttempt this "Failed to update RFQ" id data signature)
          "Failed to update RFQ"
          (CallWriteEntity (mkWriteEntityOptions RFQ_ENTITY_TYPE id data (Some signature))))
    /\ (forall id,
        retriedToExhaustion (deleteAttempt this id) "Failed to delete RFQ"
          (CallDeleteEntity RFQ_ENTITY_TYPE id))
    /\ (forall filters sort pagination,
        retriedToExhaustion (queryAttempt this filters sort pagination)
          "Failed to query RFQs"
          (CallQueryEntities (queryOptions filters sort pagination))).
Proof.
  intros S this.
  split; [|split; [|split; [|split]]].
  - intros key record signature.
    apply retriedToExhaustion_intro; [reflexivity | apply writeAttempt_throws |].
    intros w.
    destruct (writeAttempt_effect this "Failed to create RFQ" key record signature w)
      as (Hc & Hs & _). now split.
  - intros key.
    apply retriedToExhaustion_intro; [reflexivity | apply getAttempt_throws |].
    intros w. destruct (getAttempt_effect this key w) as (Hc & Hs & _). now split.
  - intros key record signature.
    apply retriedToExhaustion_intro; [reflexivity | apply writeAttempt_throws |].
    intros w.
    destruct (writeAttempt_effect this "Failed to update RFQ" key record signature w)
      as (Hc & Hs & _). now split.
  - intros key.
    apply retriedToExhaustion_intro;
      [reflexivity | apply deleteAttempt_throws | apply deleteAttempt_effect].
  - intros filters sort pagination.
    apply retriedToExhaustion_intro;
      [reflexivity | apply queryAttempt_throws | apply queryAttempt_effect].
Qed.

Lemma store_failures_are_retried_to_exhaustion_witness :
  exists cause w',
    withRetry (getAttempt Examples.failingClient "rfq-1") Examples.world0
    = (Throw (ArkivNetworkError "Operation failed after 4 attempts"
                (Some (ArkivNetworkError "Failed to get RFQ" (Some cause)))), w')
    /\ calls w' = (calls Examples.world0 ++ repeat (CallGetEntity RFQ_ENTITY_TYPE "rfq-1") 4)%list
    /\ sleeps w' = (sleeps Examples.world0 ++ [1000; 2000; 4000])%list.
Proof.
  destruct (store_failures_are_retried_to_exhaustion Examples.failingClient)
    as (_ & Hget & _).
  apply (proj2 (Hget "rfq-1")).
  intros w. eexists. eexists. reflexivity.
Defined.

(** ** Reading a record *)

Section ReadFacts.

Variable S : Type.
Variable this : ArkivRFQClient S.

Lemma readsOnly_refl (w : World S) : readsOnly w w.
Proof. exists []. split; [now rewrite app_nil_r | constructor]. Qed.

Lemma readsOnly_trans (a b c : World S) : readsOnly a b -> readsOnly b c -> readsOnly a c.
Proof.
  intros (l1 & H1 & F1) (l2 & H2 & F2). exists (l1 ++ l2)%list. split.
  - now rewrite H2, H1, app_assoc.
  - apply Forall_app. now split.
Qed.

(** [getRFQ] makes no store call but [getEntity], and does not read the clock. *)
Lemma getRFQ_reads_only id w :
  readsOnly w (snd (getRFQ this id w))
  /\ clockReads (snd (getRFQ this id w)) = clockReads w.
Proof.
  unfold getRFQ, bind, lift.
  destruct (validateRFQId id) as [[]|e]; simpl.
  2: { split; [apply readsOnly_refl | reflexivity]. }
  apply (withRetryConfig_respects (getAttempt this id) DEFAULT_RETRY_CONFIG
           (fun a b => readsOnly a b /\ clockReads b = clockReads a)).
  - intros a. split; [apply readsOnly_refl | reflexivity].
  - intros a b c [Hab Cab] [Hbc Cbc]. split.
    + eapply readsOnly_trans; eassumption.
    + congruence.
  - intros a. destruct (getAttempt_effect this id a) as (Hc & _ & Hk). split.
    + eexists. split; [exact Hc|]. repeat constructor.
    + exact Hk.
  - intros ms a. simpl. split; [|reflexivity].
    exists []. split; [simpl; now rewrite app_nil_r | constructor].
Qed.

Lemma getRFQ_ok_valid id w r w1 :
  getRFQ this id w = (Ok r, w1) -> validateRFQId id = Ok tt.
Proof.
  unfold getRFQ, bind, lift.
  destruct (validateRFQId id) as [[]|e]; [reflexivity | discriminate].
Qed.

Lemma getSignerAddress_ok_inv w a w' :
  getSignerAddress this w = (Ok a, w') ->
  exists s, signer this = Some s /\ getAddress s = Ok a /\ w' = w.
Proof.
  unfold getSignerAddress.
  destruct (signer this) as [s|]; [|discriminate].
  destruct (getAddress s) as [a0|e] eqn:Ha; unfold ret, throw; intros H; inversion H; subst.
  now exists s.
Qed.

Lemma signRFQData_ok_inv record w sig w' :
  signRFQData this record w = (Ok sig, w') ->
  exists s, signer this = Some s /\ signMessage s record = Ok sig /\ w' = w.
Proof.
  unfold signRFQData.
  destruct (signer this) as [s|]; [|discriminate].
  destruct (signMessage s record) as [a0|e] eqn:Ha; unfold ret, throw;
    intros H; inversion H; subst.
  now exists s.
Qed.

(** A retried write that succeeds returns the record mapped from the entity the
    store answered the last [writeEntity] with. *)
Lemma withRetry_writeAttempt_ok label key record sig w r w' :
  withRetry (writeAttempt this label key record sig) w = (Ok r, w') ->
  let options := mkWriteEntityOptions RFQ_ENTITY_TYPE key record (Some sig) in
  exists entity s s',
    writeEntity (arkivClient this) options s = (Ok entity, s')
    /\ r = entityToRFQ entity
    /\ In (CallWriteEntity options) (calls w').
Proof.
  intros H options. apply withRetryConfig_ok_inv in H. destruct H as [w0 H].
  pose proof (writeAttempt_effect this label key record sig w0) as (Hc & _).
  rewrite H in Hc. simpl in Hc.
  unfold writeAttempt, tryCatch, bind, callStore, ret, throw in H.
  fold options in H.
  destruct (writeEntity (arkivClient this) options (store w0)) as [[entity|cause] s'] eqn:Hw;
    inversion H; subst.
  exists entity, (store w0), s'. repeat split.
  - exact Hw.
  - rewrite Hc. apply in_or_app. right. now left.
Qed.

End ReadFacts.

(** ** The lifecycle operations, step by step *)

Section LifecycleFacts.

Variable S : Type.
Variable env : Env.
Variable this : ArkivRFQClient S.

Tactic Notation "step" hyp(H) "as" ident(a) ident(w) ident(Ha) :=
  apply bind_ok_inv in H; destruct H as (a & w & Ha & H).

(** The validators make no store call. *)
Lemma validateExpiration_calls expiresIn (w : World S) :
  calls (snd (validateExpiration env expiresIn w)) = calls w.
Proof.
  unfold validateExpiration, bind, dateNow, throw, ret. simpl.
  destruct (expiresIn <=? 0); [reflexivity|]. simpl.
  destruct (expiresIn <=? _); [reflexivity|].
  destruct (expiresIn >? _); reflexivity.
Qed.

Lemma validateCreateRFQInput_calls input (w : World S) :
  calls (snd (validateCreateRFQInput env input w)) = calls w.
Proof.
  unfold validateCreateRFQInput, bind, lift.
  destruct (validateTokenInfo (in_baseToken input) _); [|reflexivity].
  destruct (validateTokenInfo (in_quoteToken input) _); [|reflexivity].
  destruct (validateAmount (in_baseAmount input) _); [|reflexivity].
  destruct (validateAmount (in_quoteAmount input) _); [|reflexivity].
  pose proof (validateExpiration_calls (in_expiresIn input) w) as He.
  destruct (validateExpiration env (in_expiresIn input) w) as [[u|e] w1];
    simpl in He; [|exact He].
  destruct (in_minFillAmount input) as [m|]; unfold ret.
  - destruct (validateAmount m _); [|exact He].
    destruct (in_counterpartyRestrictions input) as [l|]; [|exact He].
    destruct (validateRestrictions l 0); exact He.
  - destruct (in_counterpartyRestrictions input) as [l|]; [|exact He].
    destruct (validateRestrictions l 0); exact He.
Qed.

(** An input that passes validation has a [minFillAmount], if any, that the
    amount validator accepts. *)
Lemma validateCreateRFQInput_ok_minFill input (w w0 : World S) m :
  validateCreateRFQInput env input w = (Ok tt, w0) ->
  in_minFillAmount input = Some m ->
  validateAmount m "minFillAmount" = Ok tt.
Proof.
  unfold validateCreateRFQInput. intros H Hm.
  step H as u1 x1 H1. step H as u2 x2 H2. step H as u3 x3 H3.
  step H as u4 x4 H4. step H as u5 x5 H5.
  rewrite Hm in H. step H as u6 x6 H6.
  apply lift_ok_inv in H6. destruct H6 as [Hv _].
  now destruct u6.
Qed.

(** What a successful [createRFQ] has done. *)
Lemma createRFQ_ok_inv input w r w' :
  createRFQ env this input w = (Ok r, w') ->
  exists w0 creator random sig w2,
    validateCreateRFQInput env input w = (Ok tt, w0)
    /\ (exists s, signer this = Some s /\ getAddress s = Ok creator)
    /\ let now := Date_now env (clockReads w0) / 1000 in
       let key := Js.toLowerCase creator ++ "-" ++ Js.numberToString now ++ "-" ++ random in
       withRetry (writeAttempt this "Failed to create RFQ" key
                    (rfqData input key creator now) sig) w2 = (Ok r, w').
Proof.
  unfold createRFQ. intros H.
  step H as u w0 Hvalid. destruct u.
  step H as creator x1 Hsigner.
  apply getSignerAddress_ok_inv in Hsigner. destruct Hsigner as (s & Hs & Ha & ->).
  step H as ms x2 Hnow. unfold dateNow in Hnow. inversion Hnow; subst ms x2. clear Hnow.
  step H as key x3 Hid.
  unfold generateRFQId, bind, mathRandom, ret in Hid. simpl in Hid.
  inversion Hid; subst key x3. clear Hid.
  step H as sig x4 Hsig.
  apply signRFQData_ok_inv in Hsig. destruct Hsig as (s' & _ & _ & ->).
  eexists w0, creator, _, sig, _. split; [exact Hvalid|]. split; [now exists s|].
  exact H.
Qed.

(** [updateRFQ] once the record has been read. *)
Lemma updateRFQ_after_read id updates w existingRFQ w1 :
  getRFQ this id w = (Ok (Some existingRFQ), w1) ->
  updateRFQ env this id updates w
  = (let* signerAddress := getSignerAddress this in
     if negb (String.eqb (Js.toLowerCase (creator existingRFQ))
                         (Js.toLowerCase signerAddress))
     then throw (OwnershipError "Only the RFQ creator can update this RFQ")
     else if negb (RFQStatus_eqb (status existingRFQ) OPEN)
     then throw (OwnershipError "Cannot update a non-open RFQ")
     else
       let* ms := dateNow env in
       let updatedData := setUpdatedAt (spread existingRFQ updates) (ms / 1000) in
       let* signature := signRFQData this updatedData in
       withRetry (writeAttempt this "Failed to update RFQ" id updatedData signature)) w1.
Proof.
  intros Hget. pose proof (getRFQ_ok_valid _ _ _ Hget) as Hv.
  unfold updateRFQ.
  rewrite bind_ok with (a := tt) (w1 := w); [|unfold lift; now rewrite Hv].
  now rewrite bind_ok with (a := Some existingRFQ) (w1 := w1).
Qed.

Lemma deleteRFQ_after_read id w existingRFQ w1 :
  getRFQ this id w = (Ok (Some existingRFQ), w1) ->
  deleteRFQ this id w
  = (let* signerAddress := getSignerAddress this in
     if negb (String.eqb (Js.toLowerCase (creator existingRFQ))
                         (Js.toLowerCase signerAddress))
     then throw (OwnershipError "Only the RFQ creator can delete this RFQ")
     else withRetry (deleteAttempt this id)) w1.
Proof.
  intros Hget. pose proof (getRFQ_ok_valid _ _ _ Hget) as Hv.
  unfold deleteRFQ.
  rewrite bind_ok with (a := tt) (w1 := w); [|unfold lift; now rewrite Hv].
  now rewrite bind_ok with (a := Some existingRFQ) (w1 := w1).
Qed.

(** What a successful [updateRFQ] has done. *)
Lemma updateRFQ_ok_inv id updates w r w' :
  updateRFQ env this id updates w = (Ok r, w') ->
  exists existingRFQ w1 sig w2,
    getRFQ this id w = (Ok (Some existingRFQ), w1)
    /\ status existingRFQ = OPEN
    /\ withRetry (writeAttempt this "Failed to update RFQ" id
                    (setUpdatedAt (spread existingRFQ updates)
                                  (Date_now env (clockReads w1) / 1000)) sig) w2
       = (Ok r, w').
Proof.
  intros H. pose proof H as H0. unfold updateRFQ in H.
  step H as u x0 Hvalid. step H as found w1 Hget.
  destruct found as [existingRFQ|]; [|discriminate].
  apply lift_ok_inv in Hvalid. destruct Hvalid as [_ ->].
  clear H.
  rewrite updateRFQ_after_read with (existingRFQ := existingRFQ) (w1 := w1) in H0
    by exact Hget.
  step H0 as addr x1 Hsigner.
  apply getSignerAddress_ok_inv in Hsigner. destruct Hsigner as (s & _ & _ & ->).
  destruct (negb (String.eqb _ _)); [discriminate|].
  destruct (status existingRFQ) eqn:Hst; simpl in H0; try discriminate.
  step H0 as ms x2 Hnow. unfold dateNow in Hnow. inversion Hnow; subst ms x2. clear Hnow.
  step H0 as sig x3 Hsig.
  apply signRFQData_ok_inv in Hsig. destruct Hsig as (s' & _ & _ & ->).
  eexists existingRFQ, w1, sig, _.
  split; [exact Hget|]. split; [exact Hst | exact H0].
Qed.

End LifecycleFacts.

(** The store of the tests answers a write with the data it was given. *)
Lemma mock_writeEchoes now arraySort : writeEchoes (Mock.ArkivClientMock now arraySort).
Proof.
  intros options s entity s' H. simpl in H. unfold Mock.mock_writeEntity in H.
  inversion H. reflexivity.
Qed.

(** ** Mutations without a signer *)

Section Unsigned.

Variable S : Type.
Variable env : Env.
Variable this : ArkivRFQClient S.
Hypothesis unsigned : signer this = None.

Lemma getSignerAddress_unsigned (w : World S) :
  getSignerAddress this w
  = (Throw (SignatureError "No signer configured. Call setSigner() first." None), w).
Proof. unfold getSignerAddress. now rewrite unsigned. Qed.

Lemma createRFQ_unsigned input w w0 :
  validateCreateRFQInput env input w = (Ok tt, w0) ->
  failsUnsignedBeforeStore (createRFQ env this input) w.
Proof.
  intros Hv.
  assert (Hc : createRFQ env this input w
               = (Throw (SignatureError "No signer configured. Call setSigner() first." None),
                  w0)).
  { unfold createRFQ. rewrite bind_ok with (a := tt) (w1 := w0) by exact Hv.
    apply bind_throw, getSignerAddress_unsigned. }
  unfold failsUnsignedBeforeStore. rewrite Hc. simpl. split.
  - eexists. eexists. reflexivity.
  - pose proof (validateCreateRFQInput_calls env input w) as H.
    now rewrite Hv in H.
Qed.

Lemma updateRFQ_unsigned id updates :
  failsUnsignedAfterRead this id (updateRFQ env this id updates).
Proof.
  intros w. unfold updateRFQ, bind, lift.
  destruct (validateRFQId id) as [[]|e] eqn:Hv.
  - pose proof (getRFQ_reads_only this id w) as [Hr _].
    destruct (getRFQ this id w) as [[[existing|]|e] w1] eqn:Hg; simpl in Hr;
      try rewrite getSignerAddress_unsigned;
      (split; [discriminate|]); (split; [exact Hr|]);
      intros existing' w1' Heq; inversion Heq; subst; reflexivity.
  - split; [discriminate|]. split; [apply readsOnly_refl|].
    intros existing w1 Hg. apply getRFQ_ok_valid in Hg. congruence.
Qed.

Lemma deleteRFQ_unsigned id :
  failsUnsignedAfterRead this id (deleteRFQ this id).
Proof.
  intros w. unfold deleteRFQ, bind, lift.
  destruct (validateRFQId id) as [[]|e] eqn:Hv.
  - pose proof (getRFQ_reads_only this id w) as [Hr _].
    destruct (getRFQ this id w) as [[[existing|]|e] w1] eqn:Hg; simpl in Hr;
      try rewrite getSignerAddress_unsigned;
      (split; [discriminate|]); (split; [exact Hr|]);
      intros existing' w1' Heq; inversion Heq; subst; reflexivity.
  - split; [discriminate|]. split; [apply readsOnly_refl|].
    intros existing w1 Hg. apply getRFQ_ok_valid in Hg. congruence.
Qed.

End Unsigned.

(** C1, as the claim states it, fails: on a store that holds the record, an
    update by a client without signer does end in a [SignatureError], but only
    after [getEntity] has been called. *)
Lemma updateRFQ_unsigned_reads_the_store_first :
  ~ failsUnsignedBeforeStore
      (updateRFQ Examples.env Examples.unsigned "rfq-1" Examples.noUpdates)
      (Examples.worldWith OPEN).
Proof.
  intros [_ H]. vm_compute in H. discriminate H.
Qed.

(** C1 (amended): without a signer, [createRFQ] on an input that passes
    validation fails with a [SignatureError] before any store call;
    [updateRFQ], [cancelRFQ] and [deleteRFQ] never succeed, call no store
    method other than the [getEntity] of their initial read, and once that
    read has found the record they fail with the [SignatureError] of the
    missing signer, with no further store call. *)
Theorem unsigned_mutations_fail_before_any_write :
  forall (S : Type) (env : Env) (this : ArkivRFQClient S),
    signer this = None ->
    (forall input w w0,
        validateCreateRFQInput env input w = (Ok tt, w0) ->
        failsUnsignedBeforeStore (createRFQ env this input) w)
    /\ (forall key updates,
          failsUnsignedAfterRead this key (updateRFQ env this key updates))
    /\ (forall key, failsUnsignedAfterRead this key (cancelRFQ env this key))
    /\ (forall key, failsUnsignedAfterRead this key (deleteRFQ this key)).
Proof.
  intros S env this unsigned. split; [|split; [|split]].
  - intros input w w0. now apply createRFQ_unsigned.
  - intros key updates. now apply updateRFQ_unsigned.
  - intros key. unfold cancelRFQ. now apply updateRFQ_unsigned.
  - intros key. now apply deleteRFQ_unsigned.
Qed.

Lemma unsigned_mutations_fail_before_any_write_witness :
  failsUnsignedBeforeStore
    (createRFQ Examples.env Examples.unsigned Examples.input) Examples.emptyWorld
  /\ fst (deleteRFQ Examples.unsigned "rfq-1" (Examples.worldWith OPEN))
     = Throw (SignatureError "No signer configured. Call setSigner() first." None).
Proof.
  destruct (@unsigned_mutations_fail_before_any_write _ Examples.env Examples.unsigned
              eq_refl) as (Hcreate & _ & _ & Hdelete).
  split.
  - eapply (Hcreate Examples.input Examples.emptyWorld). vm_compute. reflexivity.
  - destruct (Hdelete "rfq-1" (Examples.worldWith OPEN)) as (_ & _ & Hfound).
    erewrite Hfound; [reflexivity|]. vm_compute. reflexivity.
Defined.

(** ** Updating a record that is not open *)

(** C3: when the read of [updateRFQ] finds a record whose status is not
    [OPEN], the update fails with an [OwnershipError] whatever the address of
    the caller's signer: "Cannot update a non-open RFQ" when it equals the
    stored creator up to case, "Only the RFQ creator can update this RFQ" when
    it does not; no store call follows the read. *)
Theorem updateRFQ_non_open_fails_with_OwnershipError :
  forall (S : Type) (env : Env) (this : ArkivRFQClient S) (s : Signer)
         (signerAddress id : string) (updates : UpdateRFQInput)
         (w : World S) (existingRFQ : RFQ) (w1 : World S),
    signer this = Some s ->
    getAddress s = Ok signerAddress ->
    getRFQ this id w = (Ok (Some existingRFQ), w1) ->
    status existingRFQ <> OPEN ->
    updateRFQ env this id updates w
    = (Throw (OwnershipError
                (if String.eqb (Js.toLowerCase (creator existingRFQ))
                               (Js.toLowerCase signerAddress)
                 then "Cannot update a non-open RFQ"
                 else "Only the RFQ creator can update this RFQ")), w1)
    /\ failsWith "OwnershipError" (fst (updateRFQ env this id updates w)).
Proof.
  intros S env this s signerAddress key updates w existingRFQ w1 Hs Ha Hget Hst.
  assert (Hu : updateRFQ env this key updates w
    = (Throw (OwnershipError
                (if String.eqb (Js.toLowerCase (creator existingRFQ))
                               (Js.toLowerCase signerAddress)
                 then "Cannot update a non-open RFQ"
                 else "Only the RFQ creator can update this RFQ")), w1)).
  { rewrite updateRFQ_after_read with (existingRFQ := existingRFQ) (w1 := w1)
      by exact Hget.
    rewrite bind_ok with (a := signerAddress) (w1 := w1);
      [|unfold getSignerAddress; now rewrite Hs, Ha].
    destruct (String.eqb _ _); simpl; [|reflexivity].
    destruct (status existingRFQ); simpl; [now elim Hst | reflexivity | reflexivity]. }
  split; [exact Hu|].
  rewrite Hu. simpl. eexists. eexists. reflexivity.
Qed.

Lemma updateRFQ_non_open_fails_with_OwnershipError_witness :
  failsWith "OwnershipError"
    (fst (updateRFQ Examples.env Examples.client "rfq-1" Examples.newBaseAmount
            (Examples.worldWith CANCELLED)))
  /\ failsWith "OwnershipError"
       (fst (updateRFQ Examples.env Examples.checksumClient "rfq-1" Examples.newBaseAmount
               (Examples.worldWith FILLED))).
Proof.
  split.
  - eapply (@updateRFQ_non_open_fails_with_OwnershipError _ Examples.env Examples.client
              Examples.mockSigner _ "rfq-1" Examples.newBaseAmount
              (Examples.worldWith CANCELLED));
      [reflexivity | reflexivity | vm_compute; reflexivity | discriminate].
  - eapply (@updateRFQ_non_open_fails_with_OwnershipError _ Examples.env
              Examples.checksumClient Examples.checksumSigner _ "rfq-1"
              Examples.newBaseAmount (Examples.worldWith FILLED));
      [reflexivity | reflexivity | vm_compute; reflexivity | discriminate].
Defined.

(** ** What a successful update and a successful creation leave *)

(** The merged record of [updateRFQ] keeps the identity and the tokens of the
    record it was merged over, whatever the update. *)
Lemma spread_frame (existingRFQ : RFQ) (updates : UpdateRFQInput) (t : Z) :
  let merged := setUpdatedAt (spread existingRFQ updates) t in
  id merged = id existingRFQ
  /\ creator merged = creator existingRFQ
  /\ baseToken merged = baseToken existingRFQ
  /\ quoteToken merged = quoteToken existingRFQ.
Proof. repeat split. Qed.

Section Successes.

Variable S : Type.
Variable env : Env.
Variable this : ArkivRFQClient S.
Hypothesis echo : writeEchoes (arkivClient this).

(** A successful update returns, and has written, the merged record. *)
Lemma updateRFQ_ok_record id updates w r w' :
  updateRFQ env this id updates w = (Ok r, w') ->
  exists existingRFQ w1,
    getRFQ this id w = (Ok (Some existingRFQ), w1)
    /\ status existingRFQ = OPEN
    /\ r = setUpdatedAt (spread existingRFQ updates) (Date_now env (clockReads w) / 1000)
    /\ exists sig, In (CallWriteEntity (mkWriteEntityOptions RFQ_ENTITY_TYPE id r (Some sig)))
                      (calls w').
Proof.
  intros H. apply updateRFQ_ok_inv in H.
  destruct H as (existingRFQ & w1 & sig & w2 & Hget & Hst & Hw).
  apply withRetry_writeAttempt_ok in Hw.
  destruct Hw as (entity & s & s' & Hwrite & Hr & Hin).
  apply echo in Hwrite. simpl in Hwrite.
  pose proof (getRFQ_reads_only this id w) as [_ Hclock].
  rewrite Hget in Hclock. simpl in Hclock. rewrite Hclock in *.
  assert (Hrec : r = setUpdatedAt (spread existingRFQ updates)
                       (Date_now env (clockReads w) / 1000)).
  { rewrite Hr. unfold entityToRFQ. rewrite Hwrite. reflexivity. }
  exists existingRFQ, w1. repeat split; try assumption.
  exists sig. rewrite Hrec. exact Hin.
Qed.

(** A successful creation returns, and has written, the assembled record. *)
Lemma createRFQ_ok_record input w r w' :
  createRFQ env this input w = (Ok r, w') ->
  exists w0 s signerAddress key now,
    validateCreateRFQInput env input w = (Ok tt, w0)
    /\ signer this = Some s /\ getAddress s = Ok signerAddress
    /\ r = rfqData input key signerAddress now
    /\ exists sig, In (CallWriteEntity (mkWriteEntityOptions RFQ_ENTITY_TYPE key r (Some sig)))
                      (calls w').
Proof.
  intros H. apply createRFQ_ok_inv in H.
  destruct H as (w0 & signerAddress & random & sig & w2 & Hv & (s & Hs & Ha) & Hw).
  cbv zeta in Hw. apply withRetry_writeAttempt_ok in Hw.
  destruct Hw as (entity & st & st' & Hwrite & Hr & Hin).
  apply echo in Hwrite. simpl in Hwrite.
  match type of Hwrite with data entity = rfqData _ ?k _ ?n =>
    assert (Hrec : r = rfqData input k signerAddress n)
      by (rewrite Hr; unfold entityToRFQ; rewrite Hwrite; reflexivity);
    exists w0, s, signerAddress, k, n
  end.
  repeat split; try assumption.
  exists sig. rewrite Hrec. exact Hin.
Qed.

End Successes.

(** C6, as the claim states it, fails: a record created and cancelled within
    the same second comes back cancelled with the [updatedAt] it already had. *)
Lemma cancelRFQ_within_the_same_second_keeps_updatedAt :
  exists created w0 cancelled w1,
    createRFQ Examples.env Examples.client Examples.input Examples.emptyWorld
    = (Ok created, w0)
    /\ cancelRFQ Examples.env Examples.client (id created) w0 = (Ok cancelled, w1)
    /\ status cancelled = CANCELLED
    /\ ~ updatedAt created < updatedAt cancelled.
Proof.
  eexists. eexists. eexists. eexists.
  split; [vm_compute; reflexivity|].
  split; [vm_compute; reflexivity|].
  split; [reflexivity|].
  vm_compute. discriminate.
Qed.

(** C6 (amended): [cancelRFQ id] is [updateRFQ id {status: CANCELLED}]; on a
    store that answers a write with the data written, the record it returns
    has status [CANCELLED] and, as [updatedAt], the clock in whole seconds at
    the call: not earlier than the [updatedAt] of the record read whenever
    the clock has not fallen behind it, and strictly later exactly when that
    second is later. *)
Theorem cancelRFQ_is_update_to_CANCELLED :
  forall (S : Type) (env : Env) (this : ArkivRFQClient S) (id : string) (w : World S),
    cancelRFQ env this id w
    = updateRFQ env this id (mkUpdateRFQInput None None None (Some CANCELLED) None None) w
    /\ (writeEchoes (arkivClient this) ->
        forall r w', cancelRFQ env this id w = (Ok r, w') ->
          status r = CANCELLED
          /\ updatedAt r = Date_now env (clockReads w) / 1000
          /\ exists existingRFQ w1,
               getRFQ this id w = (Ok (Some existingRFQ), w1)
               /\ (updatedAt existingRFQ <= Date_now env (clockReads w) / 1000 ->
                   updatedAt existingRFQ <= updatedAt r)
               /\ (updatedAt existingRFQ < updatedAt r
                   <-> updatedAt existingRFQ < Date_now env (clockReads w) / 1000)).
Proof.
  intros S env this key w. split; [reflexivity|].
  intros echo r w' H. unfold cancelRFQ in H.
  apply updateRFQ_ok_record in H; [|exact echo].
  destruct H as (existingRFQ & w1 & Hget & _ & Hr & _).
  assert (Hu : updatedAt r = Date_now env (clockReads w) / 1000) by (now rewrite Hr).
  split; [now rewrite Hr|]. split; [exact Hu|].
  exists existingRFQ, w1. split; [exact Hget|].
  rewrite Hu. split; [tauto | reflexivity].
Qed.

Lemma cancelRFQ_is_update_to_CANCELLED_witness :
  exists r w',
    cancelRFQ Examples.env Examples.client "rfq-1" (Examples.worldWith OPEN) = (Ok r, w')
    /\ status r = CANCELLED
    /\ updatedAt r = 1700000000.
Proof.
  eexists. eexists. split; [vm_compute; reflexivity|].
  destruct (cancelRFQ_is_update_to_CANCELLED Examples.env Examples.client "rfq-1"
              (Examples.worldWith OPEN)) as [_ H].
  edestruct H as (Hst & Hu & _).
  - apply mock_writeEchoes.
  - vm_compute. reflexivity.
  - split; [exact Hst | exact Hu].
Defined.

(** C7: on a store that answers a write with the data written, the record a
    successful [updateRFQ] returns, which is the record it has written, has the
    [id], [creator], [baseToken] and [quoteToken] of the record it read,
    whatever the update. *)
Theorem updateRFQ_preserves_identity_and_tokens :
  forall (S : Type) (env : Env) (this : ArkivRFQClient S) (key : string)
         (updates : UpdateRFQInput) (w : World S) (r : RFQ) (w' : World S),
    writeEchoes (arkivClient this) ->
    updateRFQ env this key updates w = (Ok r, w') ->
    exists existingRFQ w1 signature,
      getRFQ this key w = (Ok (Some existingRFQ), w1)
      /\ In (CallWriteEntity (mkWriteEntityOptions RFQ_ENTITY_TYPE key r (Some signature)))
            (calls w')
      /\ id r = id existingRFQ
      /\ creator r = creator existingRFQ
      /\ baseToken r = baseToken existingRFQ
      /\ quoteToken r = quoteToken existingRFQ.
Proof.
  intros S env this key updates w r w' echo H.
  apply updateRFQ_ok_record in H; [|exact echo].
  destruct H as (existingRFQ & w1 & Hget & _ & Hr & sig & Hin).
  exists existingRFQ, w1, sig. split; [exact Hget|]. split; [exact Hin|].
  rewrite Hr. apply spread_frame.
Qed.

Lemma updateRFQ_preserves_identity_and_tokens_witness :
  exists r w',
    updateRFQ Examples.env Examples.client "rfq-1" Examples.newBaseAmount
      (Examples.worldWith OPEN) = (Ok r, w')
    /\ baseAmount r = "1500000000000000000"
    /\ exists existingRFQ w1 signature,
      getRFQ Examples.client "rfq-1" (Examples.worldWith OPEN) = (Ok (Some existingRFQ), w1)
      /\ In (CallWriteEntity (mkWriteEntityOptions RFQ_ENTITY_TYPE "rfq-1" r (Some signature)))
            (calls w')
      /\ id r = id existingRFQ
      /\ creator r = creator existingRFQ
      /\ baseToken r = baseToken existingRFQ
      /\ quoteToken r = quoteToken existingRFQ.
Proof.
  eexists. eexists. split; [vm_compute; reflexivity|]. split; [reflexivity|].
  apply (@updateRFQ_preserves_identity_and_tokens _ Examples.env Examples.client "rfq-1"
           Examples.newBaseAmount (Examples.worldWith OPEN)).
  - apply mock_writeEchoes.
  - vm_compute. reflexivity.
Defined.

(** C10: on a store that answers a write with the data written, the record a
    successful [createRFQ] returns, which is the record it has written, has an
    empty list of fills and a [filledAmount] equal to the [minFillAmount] of
    the input when there is one (a string other than the literal 0, since it
    passed the amount validator) and to the literal 0 otherwise. *)
Theorem createRFQ_seeds_filledAmount_with_minFillAmount :
  forall (S : Type) (env : Env) (this : ArkivRFQClient S) (input : CreateRFQInput)
         (w : World S) (r : RFQ) (w' : World S),
    writeEchoes (arkivClient this) ->
    createRFQ env this input w = (Ok r, w') ->
    (exists key signature,
        In (CallWriteEntity (mkWriteEntityOptions RFQ_ENTITY_TYPE key r (Some signature)))
           (calls w'))
    /\ fills r = Some []
    /\ match in_minFillAmount input with
       | Some m => filledAmount r = Some m /\ m <> "0"
       | None => filledAmount r = Some "0"
       end.
Proof.
  intros S env this input w r w' echo H.
  apply createRFQ_ok_record in H; [|exact echo].
  destruct H as (w0 & s & signerAddress & key & now & Hv & _ & _ & Hr & sig & Hin).
  split; [now exists key, sig|].
  rewrite Hr. simpl. split; [reflexivity|].
  destruct (in_minFillAmount input) as [m|] eqn:Hm; [|reflexivity].
  assert (Hok : validateAmount m "minFillAmount" = Ok tt)
    by (eapply validateCreateRFQInput_ok_minFill; eassumption).
  destruct (@validateAmount_ok_stringOr m "minFillAmount" "0" Hok) as [Heq Hnz].
  split; [now rewrite Heq | exact Hnz].
Qed.

Lemma createRFQ_seeds_filledAmount_with_minFillAmount_witness :
  exists r w',
    createRFQ Examples.env Examples.client Examples.inputWithMinFill Examples.emptyWorld
    = (Ok r, w')
    /\ fills r = Some []
    /\ filledAmount r = Some "500".
Proof.
  eexists. eexists. split; [vm_compute; reflexivity|].
  edestruct (@createRFQ_seeds_filledAmount_with_minFillAmount _ Examples.env Examples.client
               Examples.inputWithMinFill Examples.emptyWorld) as (_ & Hfills & Hfilled & _).
  - apply mock_writeEchoes.
  - vm_compute. reflexivity.
  - split; [exact Hfills | exact Hfilled].
Defined.

(** ** The creator filter *)

Lemma buildArkivFilters_creator (address : string) :
  Js.falsy address = false ->
  buildArkivFilters (Some (mkQueryFilters None None None (Some address) None None))
  = [("creator", FString (Js.toLowerCase address))].
Proof.
  intros H. unfold buildArkivFilters. simpl. now rewrite H.
Qed.

(** C9: a creator filter becomes the equality of the field [creator] with the
    lower-cased address of the filter, while the record [createRFQ] writes
    holds the signer's address as the signer returned it; under the strict
    equality of the store of the tests, the filter therefore matches the
    written record exactly when the signer's address is the lower-cased filter
    address, which needs an address without capital letters. *)
Theorem creator_filter_matches_only_lowercase_signer_address :
  forall (S : Type) (env : Env) (this : ArkivRFQClient S) (input : CreateRFQInput)
         (w : World S) (r : RFQ) (w' : World S),
    createRFQ env this input w = (Ok r, w') ->
    exists s signerAddress options,
      signer this = Some s
      /\ getAddress s = Ok signerAddress
      /\ In (CallWriteEntity options) (calls w')
      /\ creator (w_data options) = signerAddress
      /\ forall address : string,
           Js.falsy address = false ->
           let arkivFilters :=
             buildArkivFilters (Some (mkQueryFilters None None None (Some address) None None)) in
           arkivFilters = [("creator", FString (Js.toLowerCase address))]
           /\ forall key ts,
                (Mock.matchesFilters (mkArkivEntity key (w_data options) ts) arkivFilters = true
                 <-> signerAddress = Js.toLowerCase address)
                /\ (Mock.matchesFilters (mkArkivEntity key (w_data options) ts) arkivFilters = true
                    -> Js.toLowerCase signerAddress = signerAddress).
Proof.
  intros S env this input w r w' H.
  apply createRFQ_ok_inv in H.
  destruct H as (w0 & signerAddress & random & sig & w2 & _ & (s & Hs & Ha) & Hw).
  cbv zeta in Hw. apply withRetry_writeAttempt_ok in Hw.
  destruct Hw as (_ & _ & _ & _ & _ & Hin).
  eexists s, signerAddress, _. split; [exact Hs|]. split; [exact Ha|].
  split; [exact Hin|]. split; [reflexivity|].
  intros address Hne arkivFilters. subst arkivFilters.
  rewrite (buildArkivFilters_creator _ Hne). split; [reflexivity|].
  intros key ts.
  assert (Hm : Mock.matchesFilters
                 (mkArkivEntity key
                    (w_data (mkWriteEntityOptions RFQ_ENTITY_TYPE
                               (Js.toLowerCase signerAddress ++ "-" ++
                                Js.numberToString (Date_now env (clockReads w0) / 1000)
                                ++ "-" ++ random)
                               (rfqData input
                                  (Js.toLowerCase signerAddress ++ "-" ++
                                   Js.numberToString (Date_now env (clockReads w0) / 1000)
                                   ++ "-" ++ random)
                                  signerAddress (Date_now env (clockReads w0) / 1000))
                               (Some sig))) ts)
                 [("creator", FString (Js.toLowerCase address))]
               = String.eqb signerAddress (Js.toLowerCase address)).
  { unfold Mock.matchesFilters. simpl. now rewrite andb_true_r. }
  rewrite Hm. split.
  - apply String.eqb_eq.
  - intros Heq. apply String.eqb_eq in Heq. rewrite Heq.
    apply toLowerCase_idempotent.
Qed.

Lemma creator_filter_matches_only_lowercase_signer_address_witness :
  exists r w' options,
    createRFQ Examples.env Examples.checksumClient Examples.input Examples.emptyWorld
    = (Ok r, w')
    /\ In (CallWriteEntity options) (calls w')
    /\ creator (w_data options) = "0xAbCdEf7890123456789012345678901234567890"
    /\ Mock.matchesFilters (mkArkivEntity (w_entityKey options) (w_data options) 0)
         (buildArkivFilters
            (Some (mkQueryFilters None None None
                     (Some "0xAbCdEf7890123456789012345678901234567890") None None)))
       <> true.
Proof.
  destruct (createRFQ Examples.env Examples.checksumClient Examples.input
              Examples.emptyWorld) as [[r|e] w'] eqn:Hrun;
    [|vm_compute in Hrun; discriminate Hrun].
  destruct (@creator_filter_matches_only_lowercase_signer_address _ Examples.env
              Examples.checksumClient Examples.input Examples.emptyWorld r w' Hrun)
    as (s & a & options & Hs & Ha & Hin & Hc & Hf).
  exists r, w', options.
  assert (Ea : a = "0xAbCdEf7890123456789012345678901234567890")
    by (inversion Hs; subst s; inversion Ha; reflexivity).
  split; [reflexivity|]. split; [exact Hin|]. split; [now rewrite Hc|].
  destruct (Hf "0xAbCdEf7890123456789012345678901234567890" eq_refl) as [_ Hmatch].
  destruct (Hmatch (w_entityKey options) 0) as [_ Hlow].
  intros Hyes. apply Hlow in Hyes. rewrite Ea in Hyes. vm_compute in Hyes. discriminate Hyes.
Defined.

(** * Further properties of the validators, the retry executor and the client *)

(** ** Validators *)

Lemma validateAddress_ok_iff_matches (a fieldName : string) :
  validateAddress a fieldName = Ok tt <-> Js.matchesAddress a = true.
Proof.
  unfold validateAddress. destruct a as [|c r].
  - simpl. split; discriminate.
  - cbn [Js.falsy].
    destruct (Js.matchesAddress (String c r)); cbn [negb]; split; intros H;
      first [reflexivity | discriminate H].
Qed.

Lemma matchesAddress_iff (a : string) :
  Js.matchesAddress a = true <-> validAddress a.
Proof.
  unfold validAddress. split.
  - destruct a as [|c1 [|c2 r]]; simpl; try discriminate.
    + destruct c1 as [[] [] [] [] [] [] [] []]; simpl; discriminate.
    + destruct c1 as [[] [] [] [] [] [] [] []]; simpl; try discriminate.
      destruct c2 as [[] [] [] [] [] [] [] []]; simpl; try discriminate.
      intros H. apply andb_true_iff in H. destruct H as [Hl Hh].
      exists r. repeat split; [now apply Nat.eqb_eq | exact Hh].
  - intros (r & -> & Hl & Hh). simpl. rewrite Hl, Hh. reflexivity.
Qed.

(** X1: [validateAddress] accepts exactly the strings made of [0x] and forty
    hexadecimal digits, whatever the field name; the empty string is refused
    as missing, any other string as not a valid Ethereum address. *)
Theorem validateAddress_accepts_exactly_hex_addresses :
  forall a fieldName : string,
    (validateAddress a fieldName = Ok tt <-> validAddress a)
    /\ (validateAddress EmptyString fieldName
        = Throw (ValidationError (fieldName ++ " is required and must be a string")))
    /\ (a <> EmptyString -> ~ validAddress a ->
        validateAddress a fieldName
        = Throw (ValidationError (fieldName ++ " must be a valid Ethereum address"))).
Proof.
  intros a fieldName. split; [|split].
  - rewrite validateAddress_ok_iff_matches. apply matchesAddress_iff.
  - reflexivity.
  - intros Hne Hbad. unfold validateAddress.
    destruct a as [|c r]; [now elim Hne|]. cbn [Js.falsy].
    destruct (Js.matchesAddress (String c r)) eqn:Hm; [|reflexivity].
    elim Hbad. now apply matchesAddress_iff.
Qed.

Lemma validateAddress_accepts_exactly_hex_addresses_witness :
  validateAddress "invalid-address" "baseToken.address"
  = Throw (ValidationError "baseToken.address must be a valid Ethereum address").
Proof.
  apply (proj2 (proj2 (validateAddress_accepts_exactly_hex_addresses
                         "invalid-address" "baseToken.address"))).
  - discriminate.
  - intros (r & H & _). discriminate H.
Defined.

Lemma validateTokenInfo_ok_iff (t : TokenInfo) (fieldName : string) :
  validateTokenInfo t fieldName = Ok tt <-> validTokenInfo t.
Proof.
  unfold validateTokenInfo, validTokenInfo, andThen.
  rewrite <- matchesAddress_iff, <- (validateAddress_ok_iff_matches _ (fieldName ++ ".address")).
  destruct (validateAddress (address t) (fieldName ++ ".address")) as [[]|e]; simpl.
  - destruct (chainId t <=? 0) eqn:Hc.
    + apply Z.leb_le in Hc. split; [discriminate | intros [_ H]; lia].
    + apply Z.leb_gt in Hc. split; [now split | reflexivity].
  - split; [discriminate | intros [H _]; discriminate].
Qed.

Lemma validateRestrictions_ok_iff (l : list string) :
  forall index, validateRestrictions l index = Ok tt <-> Forall validAddress l.
Proof.
  induction l as [|a r IH]; intros index; simpl.
  - split; [constructor | reflexivity].
  - unfold andThen.
    destruct (validateAddress a _) as [[]|e] eqn:Ha.
    + apply validateAddress_ok_iff_matches, matchesAddress_iff in Ha.
      rewrite IH. split.
      * intros H. now constructor.
      * intros H. now inversion H.
    + split; [discriminate|]. intros H. inversion H as [|x y Hx Hy]; subst.
      apply matchesAddress_iff in Hx.
      match type of Ha with validateAddress _ ?f = _ =>
        apply (validateAddress_ok_iff_matches a f) in Hx end.
      rewrite Hx in Ha. discriminate Ha.
Qed.

Section ExpirationFacts.

Variable S : Type.
Variable env : Env.

Lemma validateExpiration_ok_iff expiresIn (w : World S) :
  fst (validateExpiration env expiresIn w) = Ok tt
  <-> validExpiration (Date_now env (clockReads w) / 1000) expiresIn.
Proof.
  unfold validateExpiration, validExpiration, bind, dateNow, throw, ret. simpl.
  destruct (expiresIn <=? 0) eqn:H0; simpl.
  - apply Z.leb_le in H0. split; [discriminate | intros (H & _); lia].
  - apply Z.leb_gt in H0.
    destruct (expiresIn <=? Date_now env (clockReads w) / 1000) eqn:H1; simpl.
    + apply Z.leb_le in H1. split; [discriminate | intros (_ & H & _); lia].
    + apply Z.leb_gt in H1.
      destruct (expiresIn >? _) eqn:H2; simpl.
      * apply Z.gtb_lt in H2. split; [discriminate | intros (_ & _ & H); lia].
      * rewrite Z.gtb_ltb in H2. apply Z.ltb_ge in H2. split; [intros _; lia | reflexivity].
Qed.

Lemma validateExpiration_world expiresIn (w : World S) :
  snd (validateExpiration env expiresIn w)
  = mkWorld (store w) (calls w) (sleeps w)
      (if expiresIn <=? 0 then clockReads w else Datatypes.S (clockReads w))
      (randomReads w).
Proof.
  unfold validateExpiration, bind, dateNow, throw, ret. simpl.
  destruct (expiresIn <=? 0); simpl; [now destruct w|].
  destruct (expiresIn <=? _); simpl; [reflexivity|].
  destruct (expiresIn >? _); reflexivity.
Qed.

End ExpirationFacts.

(** X2: [validateExpiration] accepts exactly the positive timestamps that lie
    after the current second and at most thirty days (2592000 s) after it, the
    last second included; it reads the clock once, except for a timestamp that
    is not positive, which it refuses without reading it; it touches nothing
    else. *)
Theorem validateExpiration_accepts_the_thirty_day_window :
  forall (S : Type) (env : Env) (expiresIn : Z) (w : World S),
    (fst (validateExpiration env expiresIn w) = Ok tt
     <-> validExpiration (Date_now env (clockReads w) / 1000) expiresIn)
    /\ snd (validateExpiration env expiresIn w)
       = mkWorld (store w) (calls w) (sleeps w)
           (if expiresIn <=? 0 then clockReads w else Datatypes.S (clockReads w))
           (randomReads w).
Proof.
  intros S env expiresIn w. split.
  - apply validateExpiration_ok_iff.
  - apply validateExpiration_world.
Qed.

Lemma validateAddress_throws a f e :
  validateAddress a f = Throw e -> isValidationError e.
Proof.
  unfold validateAddress.
  destruct (Js.falsy a); [intros H; inversion H; reflexivity|].
  destruct (negb (Js.matchesAddress a)); intros H; inversion H; reflexivity.
Qed.

Lemma validateTokenInfo_throws t f e :
  validateTokenInfo t f = Throw e -> isValidationError e.
Proof.
  unfold validateTokenInfo, andThen.
  destruct (validateAddress (address t) (f ++ ".address")) as [[]|e0] eqn:Ha.
  - destruct (negb (Number_isInteger (chainId t)) || (chainId t <=? 0));
      intros H; inversion H; reflexivity.
  - intros H. inversion H; subst. eapply validateAddress_throws; eassumption.
Qed.

Lemma validateAmount_throws a f e :
  validateAmount a f = Throw e -> isValidationError e.
Proof.
  unfold validateAmount.
  destruct (Js.falsy a); [intros H; inversion H; reflexivity|].
  destruct (negb (Js.matchesDigits a)); [intros H; inversion H; reflexivity|].
  destruct (String.eqb a "0"); intros H; inversion H; reflexivity.
Qed.

Lemma validateRFQId_throws k e :
  validateRFQId k = Throw e -> isValidationError e.
Proof.
  unfold validateRFQId.
  destruct (Js.falsy k); [intros H; inversion H; reflexivity|].
  destruct (Js.trimIsEmpty k); intros H; inversion H; reflexivity.
Qed.

Lemma validateRestrictions_throws l :
  forall index e, validateRestrictions l index = Throw e -> isValidationError e.
Proof.
  induction l as [|a r IH]; intros index e; simpl; [discriminate|].
  unfold andThen.
  destruct (validateAddress a _) as [[]|e0] eqn:Ha.
  - apply IH.
  - intros H. inversion H; subst. eapply validateAddress_throws; eassumption.
Qed.

Lemma validateAmount_ok_iff (s f : string) :
  validateAmount s f = Ok tt <-> validAmountString s.
Proof. apply validateAmount_accepts_iff. Qed.

Section CreateInputFacts.

Variable S : Type.
Variable env : Env.

Lemma validateExpiration_throws expiresIn (w : World S) e :
  fst (validateExpiration env expiresIn w) = Throw e -> isValidationError e.
Proof.
  unfold validateExpiration, bind, dateNow, throw, ret. simpl.
  destruct (expiresIn <=? 0); simpl; [intros H; inversion H; reflexivity|].
  destruct (expiresIn <=? _); simpl; [intros H; inversion H; reflexivity|].
  destruct (expiresIn >? _); simpl; intros H; inversion H; reflexivity.
Qed.

(** What [validateCreateRFQInput] does to the world: at most one reading of
    the clock. *)
Lemma validateCreateRFQInput_world input (w : World S) :
  let w' := snd (validateCreateRFQInput env input w) in
  store w' = store w /\ calls w' = calls w /\ sleeps w' = sleeps w
  /\ randomReads w' = randomReads w
  /\ (clockReads w <= clockReads w' <= Datatypes.S (clockReads w))%nat.
Proof.
  assert (Hexp : forall x : World S,
             x = snd (validateExpiration env (in_expiresIn input) w) ->
             store x = store w /\ calls x = calls w /\ sleeps x = sleeps w
             /\ randomReads x = randomReads w
             /\ (clockReads w <= clockReads x <= Datatypes.S (clockReads w))%nat).
  { intros x ->. rewrite validateExpiration_world. simpl.
    destruct (in_expiresIn input <=? 0); repeat split; lia. }
  assert (Hid : store w = store w /\ calls w = calls w /\ sleeps w = sleeps w
                /\ randomReads w = randomReads w
                /\ (clockReads w <= clockReads w <= Datatypes.S (clockReads w))%nat)
    by (repeat split; lia).
  unfold validateCreateRFQInput, bind, lift.
  destruct (validateTokenInfo (in_baseToken input) _); [|exact Hid].
  destruct (validateTokenInfo (in_quoteToken input) _); [|exact Hid].
  destruct (validateAmount (in_baseAmount input) _); [|exact Hid].
  destruct (validateAmount (in_quoteAmount input) _); [|exact Hid].
  specialize (Hexp _ eq_refl).
  destruct (validateExpiration env (in_expiresIn input) w) as [[u|e] w1];
    simpl in Hexp; [|exact Hexp].
  destruct (in_minFillAmount input) as [m|]; unfold ret.
  - destruct (validateAmount m _); [|exact Hexp].
    destruct (in_counterpartyRestrictions input) as [l|]; [|exact Hexp].
    destruct (validateRestrictions l 0); exact Hexp.
  - destruct (in_counterpartyRestrictions input) as [l|]; [|exact Hexp].
    destruct (validateRestrictions l 0); exact Hexp.
Qed.

Lemma validateCreateRFQInput_throws input (w : World S) e :
  fst (validateCreateRFQInput env input w) = Throw e -> isValidationError e.
Proof.
  unfold validateCreateRFQInput, bind, lift.
  destruct (validateTokenInfo (in_baseToken input) _) eqn:H1;
    [|simpl; intros H; inversion H; subst; eapply validateTokenInfo_throws; eassumption].
  destruct (validateTokenInfo (in_quoteToken input) _) eqn:H2;
    [|simpl; intros H; inversion H; subst; eapply validateTokenInfo_throws; eassumption].
  destruct (validateAmount (in_baseAmount input) _) eqn:H3;
    [|simpl; intros H; inversion H; subst; eapply validateAmount_throws; eassumption].
  destruct (validateAmount (in_quoteAmount input) _) eqn:H4;
    [|simpl; intros H; inversion H; subst; eapply validateAmount_throws; eassumption].
  pose proof (@validateExpiration_throws (in_expiresIn input) w) as He.
  destruct (validateExpiration env (in_expiresIn input) w) as [[u|e0] w1];
    simpl in He; [|simpl; intros H; inversion H; subst; now apply He].
  destruct (in_minFillAmount input) as [m|]; unfold ret.
  - destruct (validateAmount m _) eqn:H5;
      [|simpl; intros H; inversion H; subst; eapply validateAmount_throws; eassumption].
    destruct (in_counterpartyRestrictions input) as [l|]; [|discriminate].
    destruct (validateRestrictions l 0) eqn:H6; [discriminate|].
    simpl. intros H; inversion H; subst. eapply validateRestrictions_throws; eassumption.
  - destruct (in_counterpartyRestrictions input) as [l|]; [|discriminate].
    destruct (validateRestrictions l 0) eqn:H6; [discriminate|].
    simpl. intros H; inversion H; subst. eapply validateRestrictions_throws; eassumption.
Qed.

Lemma validateCreateRFQInput_ok_iff input (w : World S) :
  fst (validateCreateRFQInput env input w) = Ok tt
  <-> validCreateRFQInput (Date_now env (clockReads w) / 1000) input.
Proof.
  unfold validateCreateRFQInput, validCreateRFQInput, bind, lift.
  rewrite <- (validateTokenInfo_ok_iff (in_baseToken input) "baseToken").
  rewrite <- (validateTokenInfo_ok_iff (in_quoteToken input) "quoteToken").
  rewrite <- (validateAmount_ok_iff (in_baseAmount input) "baseAmount").
  rewrite <- (validateAmount_ok_iff (in_quoteAmount input) "quoteAmount").
  rewrite <- (validateExpiration_ok_iff env (in_expiresIn input) w).
  destruct (validateTokenInfo (in_baseToken input) "baseToken") as [[]|e1];
    [|simpl; split; [discriminate | intros (H & _); discriminate H]].
  destruct (validateTokenInfo (in_quoteToken input) "quoteToken") as [[]|e2];
    [|simpl; split; [discriminate | intros (_ & H & _); discriminate H]].
  destruct (validateAmount (in_baseAmount input) "baseAmount") as [[]|e3];
    [|simpl; split; [discriminate | intros (_ & _ & H & _); discriminate H]].
  destruct (validateAmount (in_quoteAmount input) "quoteAmount") as [[]|e4];
    [|simpl; split; [discriminate | intros (_ & _ & _ & H & _); discriminate H]].
  destruct (validateExpiration env (in_expiresIn input) w) as [[[]|e5] w1];
    [|simpl; split; [discriminate | intros (_ & _ & _ & _ & H & _); discriminate H]].
  cbn [fst].
  assert (Hrest :
    forall r : Result unit,
      r = match in_counterpartyRestrictions input with
          | Some l => validateRestrictions l 0
          | None => Ok tt
          end ->
      (r = Ok tt <-> forall l, in_counterpartyRestrictions input = Some l ->
                               Forall validAddress l)).
  { intros r ->. destruct (in_counterpartyRestrictions input) as [l|].
    - rewrite validateRestrictions_ok_iff. split.
      + intros H l' Hl. now inversion Hl; subst.
      + intros H. now apply H.
    - split; [discriminate | reflexivity]. }
  destruct (in_minFillAmount input) as [m|]; unfold ret.
  - pose proof (validateAmount_ok_iff m "minFillAmount") as Hm.
    destruct (validateAmount m "minFillAmount") as [[]|e6].
    + specialize (Hrest _ eq_refl).
      destruct (in_counterpartyRestrictions input) as [l|].
      * destruct (validateRestrictions l 0) as [[]|e7]; simpl; split.
        -- intros _. do 5 (split; [reflexivity|]). split.
           ++ intros m' Hm'. inversion Hm'; subst. now apply Hm.
           ++ now apply Hrest.
        -- reflexivity.
        -- discriminate.
        -- intros (_ & _ & _ & _ & _ & _ & H). apply Hrest in H. discriminate H.
      * simpl. split; [|reflexivity]. intros _. do 5 (split; [reflexivity|]). split.
        -- intros m' Hm'. inversion Hm'; subst. now apply Hm.
        -- discriminate.
    + simpl. split; [discriminate|].
      intros (_ & _ & _ & _ & _ & H & _).
      specialize (H m eq_refl). apply Hm in H. discriminate H.
  - specialize (Hrest _ eq_refl).
    destruct (in_counterpartyRestrictions input) as [l|].
    + destruct (validateRestrictions l 0) as [[]|e7]; simpl; split.
      * intros _. do 5 (split; [reflexivity|]). split; [discriminate | now apply Hrest].
      * reflexivity.
      * discriminate.
      * intros (_ & _ & _ & _ & _ & _ & H). apply Hrest in H. discriminate H.
    + simpl. split; [|reflexivity]. intros _. do 5 (split; [reflexivity|]).
      split; discriminate.
Qed.

End CreateInputFacts.

(** X3: [validateCreateRFQInput] accepts exactly the inputs whose two tokens
    have a well-formed address and a positive chain id, whose two amounts are
    digit strings other than 0, whose expiry lies in the thirty-day window
    after the current second, whose [minFillAmount], when given, is such an
    amount and whose [counterpartyRestrictions], when given, are all
    well-formed addresses; whatever it refuses it refuses with a
    [ValidationError]; it leaves the store, the call log and the waits alone. *)
Theorem validateCreateRFQInput_accepts_exactly_valid_inputs :
  forall (S : Type) (env : Env) (input : CreateRFQInput) (w : World S),
    (fst (validateCreateRFQInput env input w) = Ok tt
     <-> validCreateRFQInput (Date_now env (clockReads w) / 1000) input)
    /\ (forall e, fst (validateCreateRFQInput env input w) = Throw e ->
                  errorName e = Some "ValidationError")
    /\ store (snd (validateCreateRFQInput env input w)) = store w
    /\ calls (snd (validateCreateRFQInput env input w)) = calls w
    /\ sleeps (snd (validateCreateRFQInput env input w)) = sleeps w.
Proof.
  intros S env input w. split; [apply validateCreateRFQInput_ok_iff|].
  split; [intros e; apply validateCreateRFQInput_throws|].
  destruct (validateCreateRFQInput_world env input w) as (Hs & Hc & Hsl & _).
  repeat split; assumption.
Qed.

Lemma validateCreateRFQInput_accepts_exactly_valid_inputs_witness :
  fst (validateCreateRFQInput Examples.env Examples.inputWithMinFill Examples.emptyWorld)
  = Ok tt
  /\ validCreateRFQInput 1700000000 Examples.inputWithMinFill.
Proof.
  destruct (validateCreateRFQInput_accepts_exactly_valid_inputs Examples.env
              Examples.inputWithMinFill Examples.emptyWorld) as (Hiff & _).
  assert (Hok : fst (validateCreateRFQInput Examples.env Examples.inputWithMinFill
                       Examples.emptyWorld) = Ok tt) by (vm_compute; reflexivity).
  split; [exact Hok|]. apply Hiff in Hok. exact Hok.
Defined.

(** X4: an input that [validateCreateRFQInput] refuses makes [createRFQ] fail
    with that very [ValidationError], whether or not a signer is configured,
    without any store call and with the store left as it was. *)
Theorem createRFQ_invalid_input_fails_before_store :
  forall (S : Type) (env : Env) (this : ArkivRFQClient S) (input : CreateRFQInput)
         (w : World S) (e : thrown),
    fst (validateCreateRFQInput env input w) = Throw e ->
    fst (createRFQ env this input w) = Throw e
    /\ errorName e = Some "ValidationError"
    /\ calls (snd (createRFQ env this input w)) = calls w
    /\ store (snd (createRFQ env this input w)) = store w.
Proof.
  intros S env this input w e H.
  pose proof (validateCreateRFQInput_throws env input w H) as Hname.
  destruct (validateCreateRFQInput_world env input w) as (Hs & Hc & _).
  destruct (validateCreateRFQInput env input w) as [[u|e0] w1] eqn:Hv; simpl in *;
    [discriminate|].
  inversion H; subst e0.
  assert (Hrun : createRFQ env this input w = (Throw e, w1))
    by (unfold createRFQ; now apply bind_throw).
  rewrite Hrun. simpl. repeat split; assumption.
Qed.

Lemma createRFQ_invalid_input_fails_before_store_witness :
  exists e,
    fst (createRFQ Examples.env Examples.unsigned Examples.invalidInput Examples.emptyWorld)
    = Throw e
    /\ errorName e = Some "ValidationError"
    /\ calls (snd (createRFQ Examples.env Examples.unsigned Examples.invalidInput
                     Examples.emptyWorld)) = [].
Proof.
  eexists.
  edestruct (@createRFQ_invalid_input_fails_before_store _ Examples.env Examples.unsigned
               Examples.invalidInput Examples.emptyWorld) as (Hf & Hn & Hc & _).
  - vm_compute. reflexivity.
  - split; [exact Hf|]. split; [exact Hn | exact Hc].
Defined.

(** ** The retry executor: attempts and waits *)

Section RetryBounds.

Variable S : Type.
Variable T : Type.
Variable fn : M S T.
Variable config : RetryConfig.
Variable call : StoreCall.

(** Every invocation of [fn] makes the one store call [call] and waits for
    nothing. *)
Hypothesis fn_effect :
  forall x, calls (snd (fn x)) = (calls x ++ [call])%list
            /\ sleeps (snd (fn x)) = sleeps x.

Lemma retryLoop_attempts_and_waits :
  forall fuel attempt delay lastError w,
    attempt <= maxRetries config ->
    fuel = Z.to_nat (maxRetries config + 1 - attempt) ->
    exists n,
      (n <= Z.to_nat (maxRetries config - attempt))%nat
      /\ calls (snd (retryLoop fn config fuel attempt delay lastError w))
         = (calls w ++ repeat call (Datatypes.S n))%list
      /\ sleeps (snd (retryLoop fn config fuel attempt delay lastError w))
         = (sleeps w ++ delaySchedule config delay n)%list.
Proof.
  induction fuel as [|fuel IH]; intros attempt delay lastError w Hle Hfuel; [lia|].
  simpl. assert (Hc : (attempt <=? maxRetries config) = true) by (now apply Z.leb_le).
  rewrite Hc. destruct (fn_effect w) as [Hcalls Hsleeps].
  destruct (fn w) as [[v|error] w1]; simpl in Hcalls, Hsleeps.
  - exists 0%nat. simpl. rewrite Hcalls, Hsleeps, app_nil_r. repeat split; lia.
  - destruct (attempt =? maxRetries config) eqn:Hlast.
    + exists 0%nat. simpl. rewrite Hcalls, Hsleeps, app_nil_r. repeat split; lia.
    + destruct (isNonRetryableError error).
      * exists 0%nat. simpl. rewrite Hcalls, Hsleeps, app_nil_r. repeat split; lia.
      * apply Z.eqb_neq in Hlast.
        destruct (IH (attempt + 1)
                    (Z.min (delay * backoffMultiplier config) (maxDelay config))
                    (Some error)
                    (mkWorld (store w1) (calls w1) (sleeps w1 ++ [delay])
                       (clockReads w1) (randomReads w1)))
          as (n & Hn & Hcs & Hsl); [lia | lia |].
        exists (Datatypes.S n). split; [lia|].
        cbn [sleep]. rewrite Hcs, Hsl. cbn [calls sleeps].
        rewrite Hcalls, Hsleeps. split.
        -- rewrite <- app_assoc. reflexivity.
        -- rewrite <- app_assoc. reflexivity.
Qed.

End RetryBounds.

Lemma delaySchedule_capped (config : RetryConfig) :
  forall n delay,
    Forall (fun d => d <= maxDelay config) (tl (delaySchedule config delay n)).
Proof.
  induction n as [|n IH]; intros delay; simpl; [constructor|].
  destruct n as [|n]; simpl; [constructor|].
  constructor; [apply Z.le_min_r|]. apply (IH _).
Qed.

(** X5: a retried function that makes one store call per invocation and does
    not wait is invoked at least once and at most [maxRetries + 1] times (for
    [maxRetries >= 0]), and between two invocations [withRetry] waits
    [initialDelay], then each time the previous wait times [backoffMultiplier]
    capped by [maxDelay]: one wait less than there are invocations, every
    wait but the first at most [maxDelay] (the first is [initialDelay] as it
    is, even above [maxDelay]). *)
Theorem withRetry_attempts_are_bounded_and_backed_off :
  forall (S T : Type) (fn : M S T) (config : RetryConfig) (call : StoreCall)
         (w : World S),
    (forall x, calls (snd (fn x)) = (calls x ++ [call])%list
               /\ sleeps (snd (fn x)) = sleeps x) ->
    0 <= maxRetries config ->
    exists n,
      (n <= Z.to_nat (maxRetries config))%nat
      /\ calls (snd (withRetryConfig fn config w))
         = (calls w ++ repeat call (Datatypes.S n))%list
      /\ sleeps (snd (withRetryConfig fn config w))
         = (sleeps w ++ delaySchedule config (initialDelay config) n)%list
      /\ Forall (fun d => d <= maxDelay config)
           (tl (delaySchedule config (initialDelay config) n)).
Proof.
  intros S T fn config call w Heffect Hmax.
  destruct (@retryLoop_attempts_and_waits S T fn config call Heffect
              (Z.to_nat (maxRetries config + 1)) 0 (initialDelay config) None w)
    as (n & Hn & Hc & Hs); [lia | f_equal; lia |].
  exists n. rewrite Z.sub_0_r in Hn. split; [exact Hn|].
  unfold withRetryConfig.
  destruct (retryLoop fn config _ 0 (initialDelay config) None w) as [[v|l] w1];
    simpl in *; repeat split; try assumption; apply delaySchedule_capped.
Qed.

Lemma withRetry_attempts_are_bounded_and_backed_off_witness :
  exists n,
    (n <= 3)%nat
    /\ calls (snd (withRetry (getAttempt Examples.failingClient "rfq-1") Examples.world0))
       = repeat (CallGetEntity RFQ_ENTITY_TYPE "rfq-1") (Datatypes.S n)
    /\ sleeps (snd (withRetry (getAttempt Examples.failingClient "rfq-1") Examples.world0))
       = delaySchedule DEFAULT_RETRY_CONFIG 1000 n.
Proof.
  destruct (@withRetry_attempts_are_bounded_and_backed_off _ _
              (getAttempt Examples.failingClient "rfq-1") DEFAULT_RETRY_CONFIG
              (CallGetEntity RFQ_ENTITY_TYPE "rfq-1") Examples.world0)
    as (n & Hn & Hc & Hs & _).
  - intros x. destruct (getAttempt_effect Examples.failingClient "rfq-1" x) as (Hc & Hs & _).
    now split.
  - discriminate.
  - exists n. split; [exact Hn|]. split; [exact Hc | exact Hs].
Defined.

(** X6: with a negative [maxRetries] the function is never invoked: the call
    fails at once with the [ArkivNetworkError] "Operation failed after
    (maxRetries + 1) attempts", which records no cause, and the world is
    untouched. *)
Theorem withRetry_negative_maxRetries_never_invokes :
  forall (S T : Type) (fn : M S T) (config : RetryConfig) (w : World S),
    maxRetries config < 0 ->
    withRetryConfig fn config w
    = (Throw (ArkivNetworkError
                ("Operation failed after " ++ Js.numberToString (maxRetries config + 1)
                 ++ " attempts") None), w).
Proof.
  intros S T fn config w Hneg. unfold withRetryConfig.
  destruct (Z.to_nat (maxRetries config + 1)) as [|fuel]; simpl; [reflexivity|].
  assert (H : (0 <=? maxRetries config) = false) by (apply Z.leb_gt; exact Hneg).
  now rewrite H.
Qed.

Lemma withRetry_negative_maxRetries_never_invokes_witness :
  withRetryConfig (Examples.failing (T := unit) Examples.http404)
    (mkRetryConfig (-1) 1000 10000 2) Examples.world0
  = (Throw (ArkivNetworkError "Operation failed after 0 attempts" None), Examples.world0).
Proof.
  apply (@withRetry_negative_maxRetries_never_invokes _ unit
           (Examples.failing Examples.http404) (mkRetryConfig (-1) 1000 10000 2)
           Examples.world0).
  reflexivity.
Defined.

(** X7: the first invocation decides alone in two cases (for
    [maxRetries >= 0]): when it resolves, the retried call resolves to the same
    value in the same world; when it throws an error the classifier does not
    retry, the retried call throws the wrapping [ArkivNetworkError], whose
    message still counts [maxRetries + 1] attempts, in the world the one
    invocation left: nothing is waited for and nothing is invoked again. *)
Theorem withRetry_first_attempt_decides :
  forall (S T : Type) (fn : M S T) (config : RetryConfig) (w w1 : World S),
    0 <= maxRetries config ->
    (forall v, fn w = (Ok v, w1) -> withRetryConfig fn config w = (Ok v, w1))
    /\ (forall e, fn w = (Throw e, w1) -> isNonRetryableError e = true ->
          withRetryConfig fn config w
          = (Throw (ArkivNetworkError
                      ("Operation failed after "
                       ++ Js.numberToString (maxRetries config + 1) ++ " attempts")
                      (Some e)), w1)).
Proof.
  intros S T fn config w w1 Hmax.
  assert (Hfuel : Z.to_nat (maxRetries config + 1)
                  = Datatypes.S (Z.to_nat (maxRetries config)))
    by (rewrite Z.add_1_r; now apply Z2Nat.inj_succ).
  split.
  - intros v Hfn. unfold withRetryConfig. rewrite Hfuel.
    erewrite retryLoop_returns; [reflexivity | exact Hmax | exact Hfn].
  - intros e Hfn Hn. unfold withRetryConfig. rewrite Hfuel.
    erewrite retryLoop_aborts; [reflexivity | exact Hmax | exact Hfn | exact Hn].
Qed.

Lemma withRetry_first_attempt_decides_witness :
  withRetry (Examples.failing (T := unit) Examples.http404) Examples.world0
  = (Throw (ArkivNetworkError "Operation failed after 4 attempts" (Some Examples.http404)),
     mkWorld 1%nat [] [] 0 0).
Proof.
  apply (proj2 (@withRetry_first_attempt_decides _ unit
                  (Examples.failing Examples.http404) DEFAULT_RETRY_CONFIG
                  Examples.world0 (mkWorld 1%nat [] [] 0 0) ltac:(discriminate)));
    reflexivity.
Defined.

(** ** The client: identifiers, reads, ownership *)

Lemma withRetry_resolves_at_once S T (fn : M S T) (w w1 : World S) (v : T) :
  fn w = (Ok v, w1) -> withRetry fn w = (Ok v, w1).
Proof.
  intros Hfn. unfold withRetry, withRetryConfig.
  change (Z.to_nat (maxRetries DEFAULT_RETRY_CONFIG + 1)) with 4%nat.
  erewrite retryLoop_returns; [reflexivity | discriminate | exact Hfn].
Qed.

Lemma validateRFQId_ok_iff (k : string) :
  validateRFQId k = Ok tt <-> Js.forallb Js.isSpace k = false.
Proof.
  unfold validateRFQId, Js.trimIsEmpty. destruct k as [|c r].
  - simpl. split; discriminate.
  - cbn [Js.falsy]. destruct (Js.forallb Js.isSpace (String c r)); split;
      intros H; first [reflexivity | discriminate H].
Qed.

Section ClientEdges.

Variable S : Type.
Variable env : Env.
Variable this : ArkivRFQClient S.

Lemma getRFQ_invalid_id k e (w : World S) :
  validateRFQId k = Throw e -> getRFQ this k w = (Throw e, w).
Proof. intros H. unfold getRFQ, bind, lift. now rewrite H. Qed.

Lemma updateRFQ_invalid_id k updates e (w : World S) :
  validateRFQId k = Throw e -> updateRFQ env this k updates w = (Throw e, w).
Proof. intros H. unfold updateRFQ, bind, lift. now rewrite H. Qed.

Lemma deleteRFQ_invalid_id k e (w : World S) :
  validateRFQId k = Throw e -> deleteRFQ this k w = (Throw e, w).
Proof. intros H. unfold deleteRFQ, bind, lift. now rewrite H. Qed.

Lemma getRFQ_first_answer k (w : World S) found s' :
  validateRFQId k = Ok tt ->
  getEntity (arkivClient this) RFQ_ENTITY_TYPE k (store w) = (Ok found, s') ->
  getRFQ this k w
  = (Ok (match found with
         | Some entity => Some (entityToRFQ entity)
         | None => None
         end),
     mkWorld s' (calls w ++ [CallGetEntity RFQ_ENTITY_TYPE k]) (sleeps w)
       (clockReads w) (randomReads w)).
Proof.
  intros Hv Hget. unfold getRFQ.
  rewrite bind_ok with (a := tt) (w1 := w) by (unfold lift; now rewrite Hv).
  apply withRetry_resolves_at_once.
  unfold getAttempt, tryCatch, bind, callStore, ret. now rewrite Hget.
Qed.

Lemma updateRFQ_not_found k updates (w w1 : World S) :
  getRFQ this k w = (Ok None, w1) ->
  updateRFQ env this k updates w = (Throw (RFQNotFoundError k), w1).
Proof.
  intros Hget. pose proof (getRFQ_ok_valid _ _ _ Hget) as Hv.
  unfold updateRFQ.
  rewrite bind_ok with (a := tt) (w1 := w) by (unfold lift; now rewrite Hv).
  now rewrite bind_ok with (a := @None RFQ) (w1 := w1).
Qed.

Lemma deleteRFQ_not_found k (w w1 : World S) :
  getRFQ this k w = (Ok None, w1) ->
  deleteRFQ this k w = (Throw (RFQNotFoundError k), w1).
Proof.
  intros Hget. pose proof (getRFQ_ok_valid _ _ _ Hget) as Hv.
  unfold deleteRFQ.
  rewrite bind_ok with (a := tt) (w1 := w) by (unfold lift; now rewrite Hv).
  now rewrite bind_ok with (a := @None RFQ) (w1 := w1).
Qed.

Lemma getSignerAddress_ok s a (w : World S) :
  signer this = Some s -> getAddress s = Ok a ->
  getSignerAddress this w = (Ok a, w).
Proof. intros Hs Ha. unfold getSignerAddress. now rewrite Hs, Ha. Qed.

Lemma updateRFQ_not_owner k updates (w w1 : World S) existingRFQ s a :
  signer this = Some s -> getAddress s = Ok a ->
  getRFQ this k w = (Ok (Some existingRFQ), w1) ->
  Js.toLowerCase (creator existingRFQ) <> Js.toLowerCase a ->
  updateRFQ env this k updates w
  = (Throw (OwnershipError "Only the RFQ creator can update this RFQ"), w1).
Proof.
  intros Hs Ha Hget Hne.
  rewrite updateRFQ_after_read with (existingRFQ := existingRFQ) (w1 := w1) by exact Hget.
  rewrite bind_ok with (a := a) (w1 := w1) by (now apply getSignerAddress_ok with (s := s)).
  apply String.eqb_neq in Hne. now rewrite Hne.
Qed.

Lemma deleteRFQ_not_owner k (w w1 : World S) existingRFQ s a :
  signer this = Some s -> getAddress s = Ok a ->
  getRFQ this k w = (Ok (Some existingRFQ), w1) ->
  Js.toLowerCase (creator existingRFQ) <> Js.toLowerCase a ->
  deleteRFQ this k w
  = (Throw (OwnershipError "Only the RFQ creator can delete this RFQ"), w1).
Proof.
  intros Hs Ha Hget Hne.
  rewrite deleteRFQ_after_read with (existingRFQ := existingRFQ) (w1 := w1) by exact Hget.
  rewrite bind_ok with (a := a) (w1 := w1) by (now apply getSignerAddress_ok with (s := s)).
  apply String.eqb_neq in Hne. now rewrite Hne.
Qed.

Lemma deleteRFQ_by_owner k (w w1 : World S) existingRFQ s a :
  signer this = Some s -> getAddress s = Ok a ->
  getRFQ this k w = (Ok (Some existingRFQ), w1) ->
  Js.toLowerCase (creator existingRFQ) = Js.toLowerCase a ->
  deleteRFQ this k w = withRetry (deleteAttempt this k) w1.
Proof.
  intros Hs Ha Hget Heq.
  rewrite deleteRFQ_after_read with (existingRFQ := existingRFQ) (w1 := w1) by exact Hget.
  rewrite bind_ok with (a := a) (w1 := w1) by (now apply getSignerAddress_ok with (s := s)).
  apply String.eqb_eq in Heq. now rewrite Heq.
Qed.

End ClientEdges.

(** X8: an identifier is accepted exactly when it has a character that is not
    white space; with any other identifier (the empty one included) [getRFQ],
    [updateRFQ], [cancelRFQ] and [deleteRFQ] throw the [ValidationError] of
    [validateRFQId] and leave the world, the store and the call log with it,
    as it was. *)
Theorem invalid_id_is_refused_before_any_store_call :
  forall (S : Type) (env : Env) (this : ArkivRFQClient S) (key : string)
         (updates : UpdateRFQInput) (w : World S),
    (validateRFQId key = Ok tt <-> Js.forallb Js.isSpace key = false)
    /\ (forall e, validateRFQId key = Throw e ->
          errorName e = Some "ValidationError"
          /\ getRFQ this key w = (Throw e, w)
          /\ updateRFQ env this key updates w = (Throw e, w)
          /\ cancelRFQ env this key w = (Throw e, w)
          /\ deleteRFQ this key w = (Throw e, w)).
Proof.
  intros S env this key updates w. split; [apply validateRFQId_ok_iff|].
  intros e H. split; [now apply validateRFQId_throws in H|].
  split; [now apply getRFQ_invalid_id|].
  split; [now apply updateRFQ_invalid_id|].
  split; [unfold cancelRFQ; now apply updateRFQ_invalid_id|].
  now apply deleteRFQ_invalid_id.
Qed.

Lemma invalid_id_is_refused_before_any_store_call_witness :
  deleteRFQ Examples.client "   " (Examples.worldWith OPEN)
  = (Throw (ValidationError "RFQ ID cannot be empty"), Examples.worldWith OPEN).
Proof.
  destruct (invalid_id_is_refused_before_any_store_call Examples.env Examples.client
              "   " Examples.noUpdates (Examples.worldWith OPEN)) as [_ H].
  destruct (H (ValidationError "RFQ ID cannot be empty") eq_refl) as (_ & _ & _ & _ & Hd).
  exact Hd.
Defined.

(** X9: when the identifier is valid and the store answers the first
    [getEntity], [getRFQ] makes that one call, waits for nothing and returns
    the mapped record, or "absent" (not an error) when the store has none. *)
Theorem getRFQ_returns_the_first_answer :
  forall (S : Type) (this : ArkivRFQClient S) (key : string) (w : World S)
         (found : option ArkivEntity) (s' : S),
    validateRFQId key = Ok tt ->
    getEntity (arkivClient this) RFQ_ENTITY_TYPE key (store w) = (Ok found, s') ->
    getRFQ this key w
    = (Ok (match found with
           | Some entity => Some (entityToRFQ entity)
           | None => None
           end),
       mkWorld s' (calls w ++ [CallGetEntity RFQ_ENTITY_TYPE key]) (sleeps w)
         (clockReads w) (randomReads w)).
Proof.
  intros S this key w found s' Hv Hget. now apply getRFQ_first_answer.
Qed.

Lemma getRFQ_returns_the_first_answer_witness :
  getRFQ Examples.client "rfq-2" (Examples.worldWith OPEN)
  = (Ok None,
     mkWorld (store (Examples.worldWith OPEN)) [CallGetEntity RFQ_ENTITY_TYPE "rfq-2"]
       [] 0 0).
Proof.
  apply (@getRFQ_returns_the_first_answer _ Examples.client "rfq-2"
           (Examples.worldWith OPEN) None (store (Examples.worldWith OPEN)));
    reflexivity.
Defined.

(** X10: when the read finds no record, [updateRFQ], [cancelRFQ] and
    [deleteRFQ] fail with the [RFQNotFoundError] of the identifier, with or
    without a signer, and make no store call after the read. *)
Theorem mutations_of_a_missing_record_fail_with_RFQNotFoundError :
  forall (S : Type) (env : Env) (this : ArkivRFQClient S) (key : string)
         (updates : UpdateRFQInput) (w w1 : World S),
    getRFQ this key w = (Ok None, w1) ->
    updateRFQ env this key updates w = (Throw (RFQNotFoundError key), w1)
    /\ cancelRFQ env this key w = (Throw (RFQNotFoundError key), w1)
    /\ deleteRFQ this key w = (Throw (RFQNotFoundError key), w1).
Proof.
  intros S env this key updates w w1 H.
  split; [now apply updateRFQ_not_found|].
  split; [unfold cancelRFQ; now apply updateRFQ_not_found|].
  now apply deleteRFQ_not_found.
Qed.

Lemma mutations_of_a_missing_record_fail_with_RFQNotFoundError_witness :
  fst (cancelRFQ Examples.env Examples.unsigned "rfq-2" (Examples.worldWith OPEN))
  = Throw (JsError "RFQNotFoundError" "RFQ not found with id: rfq-2" None).
Proof.
  edestruct (@mutations_of_a_missing_record_fail_with_RFQNotFoundError _ Examples.env
               Examples.unsigned "rfq-2" Examples.noUpdates (Examples.worldWith OPEN))
    as (_ & Hc & _).
  - vm_compute. reflexivity.
  - rewrite Hc. reflexivity.
Defined.

(** X11: when the address of the caller's signer differs from the creator of
    the record read, letter case aside, [updateRFQ], [cancelRFQ] and
    [deleteRFQ] fail with an [OwnershipError], whatever the status of the
    record, and make no store call after the read. *)
Theorem mutations_by_another_address_fail_with_OwnershipError :
  forall (S : Type) (env : Env) (this : ArkivRFQClient S) (s : Signer)
         (signerAddress key : string) (updates : UpdateRFQInput)
         (w w1 : World S) (existingRFQ : RFQ),
    signer this = Some s ->
    getAddress s = Ok signerAddress ->
    getRFQ this key w = (Ok (Some existingRFQ), w1) ->
    Js.toLowerCase (creator existingRFQ) <> Js.toLowerCase signerAddress ->
    updateRFQ env this key updates w
    = (Throw (OwnershipError "Only the RFQ creator can update this RFQ"), w1)
    /\ cancelRFQ env this key w
       = (Throw (OwnershipError "Only the RFQ creator can update this RFQ"), w1)
    /\ deleteRFQ this key w
       = (Throw (OwnershipError "Only the RFQ creator can delete this RFQ"), w1).
Proof.
  intros S env this s a key updates w w1 existingRFQ Hs Ha Hget Hne.
  split; [now apply updateRFQ_not_owner with (existingRFQ := existingRFQ) (s := s) (a := a)|].
  split.
  - unfold cancelRFQ.
    now apply updateRFQ_not_owner with (existingRFQ := existingRFQ) (s := s) (a := a).
  - now apply deleteRFQ_not_owner with (existingRFQ := existingRFQ) (s := s) (a := a).
Qed.

Lemma mutations_by_another_address_fail_with_OwnershipError_witness :
  fst (deleteRFQ Examples.checksumClient "rfq-1" (Examples.worldWith OPEN))
  = Throw (OwnershipError "Only the RFQ creator can delete this RFQ").
Proof.
  edestruct (@mutations_by_another_address_fail_with_OwnershipError _ Examples.env
               Examples.checksumClient Examples.checksumSigner
               "0xAbCdEf7890123456789012345678901234567890" "rfq-1"
               Examples.noUpdates (Examples.worldWith OPEN)) as (_ & _ & Hd).
  - reflexivity.
  - reflexivity.
  - vm_compute. reflexivity.
  - vm_compute. discriminate.
  - rewrite Hd. reflexivity.
Defined.

(** X12: [deleteRFQ] does not look at the status: when the signer's address
    equals the creator of the record read, letter case aside, it goes on to
    the retried [deleteEntity] whether the record is open, filled or
    cancelled, and when the store answers the first [deleteEntity] it
    succeeds after that one call. *)
Theorem deleteRFQ_by_the_creator_ignores_the_status :
  forall (S : Type) (this : ArkivRFQClient S) (s : Signer)
         (signerAddress key : string) (w w1 : World S) (existingRFQ : RFQ) (s' : S),
    signer this = Some s ->
    getAddress s = Ok signerAddress ->
    getRFQ this key w = (Ok (Some existingRFQ), w1) ->
    Js.toLowerCase (creator existingRFQ) = Js.toLowerCase signerAddress ->
    deleteRFQ this key w = withRetry (deleteAttempt this key) w1
    /\ (deleteEntity (arkivClient this) RFQ_ENTITY_TYPE key (store w1) = (Ok tt, s') ->
        deleteRFQ this key w
        = (Ok tt, mkWorld s' (calls w1 ++ [CallDeleteEntity RFQ_ENTITY_TYPE key])
                    (sleeps w1) (clockReads w1) (randomReads w1))).
Proof.
  intros S this s a key w w1 existingRFQ s' Hs Ha Hget Heq.
  assert (H : deleteRFQ this key w = withRetry (deleteAttempt this key) w1)
    by (now apply deleteRFQ_by_owner with (existingRFQ := existingRFQ) (s := s) (a := a)).
  split; [exact H|].
  intros Hdel. rewrite H. apply withRetry_resolves_at_once.
  unfold deleteAttempt, tryCatch, callStore. now rewrite Hdel.
Qed.

Lemma deleteRFQ_by_the_creator_ignores_the_status_witness :
  fst (deleteRFQ Examples.capitalsClient "rfq-1" (Examples.worldWith FILLED)) = Ok tt
  /\ store (snd (deleteRFQ Examples.capitalsClient "rfq-1" (Examples.worldWith FILLED))) = [].
Proof.
  edestruct (@deleteRFQ_by_the_creator_ignores_the_status _ Examples.capitalsClient
               Examples.capitalsSigner "0X1234567890123456789012345678901234567890"
               "rfq-1" (Examples.worldWith FILLED))
    as (_ & Hd).
  - reflexivity.
  - reflexivity.
  - vm_compute. reflexivity.
  - vm_compute. reflexivity.
  - rewrite Hd; [split; reflexivity|]. vm_compute. reflexivity.
Defined.

(** ** The records written and returned *)

Lemma entityToRFQ_is_data (entity : ArkivEntity) : entityToRFQ entity = data entity.
Proof. unfold entityToRFQ. now destruct (data entity). Qed.

Section WriteFacts.

Variable S : Type.
Variable env : Env.
Variable this : ArkivRFQClient S.

(** Validation that passes has read the clock exactly once and changed
    nothing else. *)
Lemma validateCreateRFQInput_ok_world input (w w0 : World S) :
  validateCreateRFQInput env input w = (Ok tt, w0) ->
  w0 = mkWorld (store w) (calls w) (sleeps w) (Datatypes.S (clockReads w)) (randomReads w).
Proof.
  unfold validateCreateRFQInput, bind, lift.
  destruct (validateTokenInfo (in_baseToken input) _); [|discriminate].
  destruct (validateTokenInfo (in_quoteToken input) _); [|discriminate].
  destruct (validateAmount (in_baseAmount input) _); [|discriminate].
  destruct (validateAmount (in_quoteAmount input) _); [|discriminate].
  pose proof (validateExpiration_world env (in_expiresIn input) w) as Hw.
  pose proof (validateExpiration_ok_iff env (in_expiresIn input) w) as Hok.
  destruct (validateExpiration env (in_expiresIn input) w) as [[u|e] w1];
    simpl in Hw, Hok; [|discriminate].
  assert (Hpos : (in_expiresIn input <=? 0) = false).
  { destruct u. destruct (proj1 Hok eq_refl) as (Hp & _). now apply Z.leb_gt. }
  rewrite Hpos in Hw. subst w1.
  destruct (in_minFillAmount input) as [m|]; unfold ret.
  - destruct (validateAmount m _); [|discriminate].
    destruct (in_counterpartyRestrictions input) as [l|].
    + destruct (validateRestrictions l 0); intros H; inversion H; reflexivity.
    + intros H; inversion H; reflexivity.
  - destruct (in_counterpartyRestrictions input) as [l|].
    + destruct (validateRestrictions l 0); intros H; inversion H; reflexivity.
    + intros H; inversion H; reflexivity.
Qed.

(** A successful [createRFQ], with everything it has computed on the way. *)
Lemma createRFQ_ok_full input (w : World S) r w' :
  createRFQ env this input w = (Ok r, w') ->
  exists s a sig,
    signer this = Some s /\ getAddress s = Ok a
    /\ fst (validateCreateRFQInput env input w) = Ok tt
    /\ let now := Date_now env (Datatypes.S (clockReads w)) / 1000 in
       let key := Js.toLowerCase a ++ "-" ++ Js.numberToString now ++ "-"
                  ++ Math_random env (randomReads w) in
       signMessage s (rfqData input key a now) = Ok sig
       /\ withRetry (writeAttempt this "Failed to create RFQ" key
                       (rfqData input key a now) sig)
            (mkWorld (store w) (calls w) (sleeps w)
               (Datatypes.S (Datatypes.S (clockReads w)))
               (Datatypes.S (randomReads w)))
          = (Ok r, w').
Proof.
  unfold createRFQ. intros H.
  apply bind_ok_inv in H. destruct H as (u & w0 & Hvalid & H). destruct u.
  pose proof (validateCreateRFQInput_ok_world _ _ Hvalid) as Hw0. subst w0.
  apply bind_ok_inv in H. destruct H as (a & x1 & Hsigner & H).
  apply getSignerAddress_ok_inv in Hsigner. destruct Hsigner as (s & Hs & Ha & ->).
  apply bind_ok_inv in H. destruct H as (ms & x2 & Hnow & H).
  unfold dateNow in Hnow. inversion Hnow; subst ms x2. clear Hnow.
  apply bind_ok_inv in H. destruct H as (key & x3 & Hid & H).
  unfold generateRFQId, bind, mathRandom, ret in Hid. simpl in Hid.
  inversion Hid; subst key x3. clear Hid.
  apply bind_ok_inv in H. destruct H as (sig & x4 & Hsig & H).
  apply signRFQData_ok_inv in Hsig. destruct Hsig as (s' & Hs' & Hsign & ->).
  assert (s' = s) by congruence. subst s'.
  exists s, a, sig. split; [exact Hs|]. split; [exact Ha|].
  split; [now rewrite Hvalid|]. simpl in *. split; [exact Hsign | exact H].
Qed.

(** A successful [updateRFQ], with everything it has computed on the way. *)
Lemma updateRFQ_ok_full k updates (w : World S) r w' :
  updateRFQ env this k updates w = (Ok r, w') ->
  exists existingRFQ w1 s a sig,
    getRFQ this k w = (Ok (Some existingRFQ), w1)
    /\ signer this = Some s /\ getAddress s = Ok a
    /\ Js.toLowerCase (creator existingRFQ) = Js.toLowerCase a
    /\ status existingRFQ = OPEN
    /\ let merged := setUpdatedAt (spread existingRFQ updates)
                       (Date_now env (clockReads w1) / 1000) in
       signMessage s merged = Ok sig
       /\ withRetry (writeAttempt this "Failed to update RFQ" k merged sig)
            (mkWorld (store w1) (calls w1) (sleeps w1)
               (Datatypes.S (clockReads w1)) (randomReads w1))
          = (Ok r, w').
Proof.
  intros H. pose proof H as H0. unfold updateRFQ in H.
  apply bind_ok_inv in H. destruct H as (u & x0 & Hvalid & H).
  apply lift_ok_inv in Hvalid. destruct Hvalid as [_ ->].
  apply bind_ok_inv in H. destruct H as (found & w1 & Hget & H).
  destruct found as [existingRFQ|]; [|discriminate].
  clear H.
  rewrite updateRFQ_after_read with (existingRFQ := existingRFQ) (w1 := w1) in H0
    by exact Hget.
  apply bind_ok_inv in H0. destruct H0 as (a & x1 & Hsigner & H0).
  apply getSignerAddress_ok_inv in Hsigner. destruct Hsigner as (s & Hs & Ha & ->).
  destruct (String.eqb _ _) eqn:Hown; simpl in H0; [|discriminate].
  apply String.eqb_eq in Hown.
  destruct (status existingRFQ) eqn:Hst; simpl in H0; try discriminate.
  apply bind_ok_inv in H0. destruct H0 as (ms & x2 & Hnow & H0).
  unfold dateNow in Hnow. inversion Hnow; subst ms x2. clear Hnow.
  apply bind_ok_inv in H0. destruct H0 as (sig & x3 & Hsig & H0).
  apply signRFQData_ok_inv in Hsig. destruct Hsig as (s' & Hs' & Hsign & ->).
  assert (s' = s) by congruence. subst s'.
  exists existingRFQ, w1, s, a, sig.
  split; [exact Hget|]. split; [exact Hs|]. split; [exact Ha|].
  split; [exact Hown|]. split; [exact Hst|]. simpl. split; [exact Hsign | exact H0].
Qed.

End WriteFacts.

(** X13: on a store that answers a write with the data written, the record a
    successful [createRFQ] returns is the record it assembled: status [OPEN],
    the signer's address as [creator], [createdAt] and [updatedAt] both the
    second of the clock reading that follows the one of the validation, the
    [id] made of the lower-cased address, that second and the random suffix,
    and the tokens, amounts, expiry, [minFillAmount] and
    [counterpartyRestrictions] of the input. *)
Theorem createRFQ_returns_the_assembled_open_record :
  forall (S : Type) (env : Env) (this : ArkivRFQClient S) (input : CreateRFQInput)
         (w : World S) (r : RFQ) (w' : World S),
    writeEchoes (arkivClient this) ->
    createRFQ env this input w = (Ok r, w') ->
    exists s signerAddress,
      signer this = Some s /\ getAddress s = Ok signerAddress
      /\ let now := Date_now env (Datatypes.S (clockReads w)) / 1000 in
         r = rfqData input
               (Js.toLowerCase signerAddress ++ "-" ++ Js.numberToString now ++ "-"
                ++ Math_random env (randomReads w))
               signerAddress now
         /\ status r = OPEN
         /\ createdAt r = now /\ updatedAt r = now
         /\ creator r = signerAddress.
Proof.
  intros S env this input w r w' echo H.
  apply createRFQ_ok_full in H.
  destruct H as (s & a & sig & Hs & Ha & _ & _ & Hw).
  apply withRetry_writeAttempt_ok in Hw.
  destruct Hw as (entity & st & st' & Hwrite & Hr & _).
  apply echo in Hwrite. simpl in Hwrite.
  rewrite entityToRFQ_is_data, Hwrite in Hr.
  exists s, a. split; [exact Hs|]. split; [exact Ha|].
  simpl. rewrite Hr. repeat split.
Qed.

Lemma createRFQ_returns_the_assembled_open_record_witness :
  exists r w',
    createRFQ Examples.env Examples.checksumClient Examples.input Examples.emptyWorld
    = (Ok r, w')
    /\ id r = "0xabcdef7890123456789012345678901234567890-1700000000-k3x9q2m1zab"
    /\ creator r = "0xAbCdEf7890123456789012345678901234567890"
    /\ status r = OPEN.
Proof.
  destruct (createRFQ Examples.env Examples.checksumClient Examples.input
              Examples.emptyWorld) as [[r|e] w'] eqn:Hrun;
    [|vm_compute in Hrun; discriminate Hrun].
  destruct (@createRFQ_returns_the_assembled_open_record _ Examples.env
              Examples.checksumClient Examples.input Examples.emptyWorld r w'
              (@mock_writeEchoes _ _) Hrun)
    as (s & a & Hs & Ha & Hr & Hst & _ & _ & Hc).
  assert (Ea : a = "0xAbCdEf7890123456789012345678901234567890")
    by (inversion Hs; subst s; inversion Ha; reflexivity).
  exists r, w'. split; [reflexivity|].
  split; [rewrite Hr, Ea; reflexivity|].
  split; [now rewrite Hc | exact Hst].
Defined.

(** X14: every write of [createRFQ] and of [updateRFQ] carries the signature
    the configured signer gave for the very record passed in that write,
    under the key of the record ([createRFQ]) or the identifier of the call
    ([updateRFQ]). *)
Theorem writes_carry_the_signature_of_the_record_written :
  forall (S : Type) (env : Env) (this : ArkivRFQClient S) (w : World S)
         (r : RFQ) (w' : World S),
    (forall input,
        createRFQ env this input w = (Ok r, w') ->
        exists s options signature,
          signer this = Some s
          /\ In (CallWriteEntity options) (calls w')
          /\ w_entityKey options = id (w_data options)
          /\ w_signature options = Some signature
          /\ signMessage s (w_data options) = Ok signature)
    /\ (forall key updates,
        updateRFQ env this key updates w = (Ok r, w') ->
        exists s options signature,
          signer this = Some s
          /\ In (CallWriteEntity options) (calls w')
          /\ w_entityKey options = key
          /\ w_signature options = Some signature
          /\ signMessage s (w_data options) = Ok signature).
Proof.
  intros S env this w r w'. split.
  - intros input H. apply createRFQ_ok_full in H.
    destruct H as (s & a & sig & Hs & _ & _ & Hsign & Hw).
    apply withRetry_writeAttempt_ok in Hw. destruct Hw as (_ & _ & _ & _ & _ & Hin).
    eexists s, _, sig. split; [exact Hs|]. split; [exact Hin|].
    simpl. repeat split. exact Hsign.
  - intros key updates H. apply updateRFQ_ok_full in H.
    destruct H as (existingRFQ & w1 & s & a & sig & _ & Hs & _ & _ & _ & Hsign & Hw).
    apply withRetry_writeAttempt_ok in Hw. destruct Hw as (_ & _ & _ & _ & _ & Hin).
    eexists s, _, sig. split; [exact Hs|]. split; [exact Hin|].
    simpl. repeat split. exact Hsign.
Qed.

Lemma writes_carry_the_signature_of_the_record_written_witness :
  exists r w' options,
    updateRFQ Examples.env Examples.client "rfq-1" Examples.newBaseAmount
      (Examples.worldWith OPEN) = (Ok r, w')
    /\ In (CallWriteEntity options) (calls w')
    /\ w_entityKey options = "rfq-1"
    /\ w_signature options = Some "0x00".
Proof.
  destruct (updateRFQ Examples.env Examples.client "rfq-1" Examples.newBaseAmount
              (Examples.worldWith OPEN)) as [[r|e] w'] eqn:Hrun;
    [|vm_compute in Hrun; discriminate Hrun].
  destruct (proj2 (@writes_carry_the_signature_of_the_record_written _ Examples.env
                     Examples.client (Examples.worldWith OPEN) r w')
              "rfq-1" Examples.newBaseAmount Hrun)
    as (s & options & sig & Hs & Hin & Hk & Hsig & Hsign).
  exists r, w', options. split; [reflexivity|]. split; [exact Hin|].
  split; [exact Hk|].
  inversion Hs; subst s. simpl in Hsign. rewrite Hsig. inversion Hsign. reflexivity.
Defined.

(** X15: on a store that answers a write with the data written, the record a
    successful [updateRFQ] returns has, for each of [baseAmount],
    [quoteAmount], [expiresIn], [status], [filledAmount] and [fills], the
    value of the update when the update has the key (taken as it is: the
    update is not validated) and the value of the record read otherwise;
    [createdAt], [minFillAmount] and [counterpartyRestrictions] are those of
    the record read, which was [OPEN], and [updatedAt] is the current second. *)
Theorem updateRFQ_merges_the_update_over_the_record_read :
  forall (S : Type) (env : Env) (this : ArkivRFQClient S) (key : string)
         (updates : UpdateRFQInput) (w : World S) (r : RFQ) (w' : World S),
    writeEchoes (arkivClient this) ->
    updateRFQ env this key updates w = (Ok r, w') ->
    exists existingRFQ w1,
      getRFQ this key w = (Ok (Some existingRFQ), w1)
      /\ status existingRFQ = OPEN
      /\ baseAmount r = match up_baseAmount updates with
                        | Some v => v | None => baseAmount existingRFQ end
      /\ quoteAmount r = match up_quoteAmount updates with
                         | Some v => v | None => quoteAmount existingRFQ end
      /\ expiresIn r = match up_expiresIn updates with
                       | Some v => v | None => expiresIn existingRFQ end
      /\ status r = match up_status updates with
                    | Some v => v | None => OPEN end
      /\ filledAmount r = match up_filledAmount updates with
                          | Some v => Some v | None => filledAmount existingRFQ end
      /\ fills r = match up_fills updates with
                   | Some v => Some v | None => fills existingRFQ end
      /\ createdAt r = createdAt existingRFQ
      /\ minFillAmount r = minFillAmount existingRFQ
      /\ counterpartyRestrictions r = counterpartyRestrictions existingRFQ
      /\ updatedAt r = Date_now env (clockReads w) / 1000.
Proof.
  intros S env this key updates w r w' echo H.
  apply updateRFQ_ok_record in H; [|exact echo].
  destruct H as (existingRFQ & w1 & Hget & Hst & Hr & _).
  exists existingRFQ, w1. split; [exact Hget|]. split; [exact Hst|].
  rewrite Hr. simpl. rewrite Hst. repeat split.
Qed.

Lemma updateRFQ_merges_the_update_over_the_record_read_witness :
  exists r w',
    updateRFQ Examples.env Examples.client "rfq-1" Examples.zeroBaseAmount
      (Examples.worldWith OPEN) = (Ok r, w')
    /\ baseAmount r = "0"
    /\ quoteAmount r = "2000000000".
Proof.
  destruct (updateRFQ Examples.env Examples.client "rfq-1" Examples.zeroBaseAmount
              (Examples.worldWith OPEN)) as [[r|e] w'] eqn:Hrun;
    [|vm_compute in Hrun; discriminate Hrun].
  destruct (@updateRFQ_merges_the_update_over_the_record_read _ Examples.env
              Examples.client "rfq-1" Examples.zeroBaseAmount (Examples.worldWith OPEN)
              r w' (@mock_writeEchoes _ _) Hrun)
    as (existingRFQ & w1 & Hget & _ & Hb & Hq & _).
  exists r, w'. split; [reflexivity|]. split; [exact Hb|].
  rewrite Hq. vm_compute in Hget. inversion Hget. reflexivity.
Defined.

(** ** The client on the store of the tests *)

Lemma mapGet_mapSet_same (m : Mock.Entities) k v :
  Mock.mapGet (Mock.mapSet m k v) k = Some v.
Proof.
  induction m as [|[k0 v0] r IH]; simpl.
  - now rewrite String.eqb_refl.
  - destruct (String.eqb k0 k) eqn:E; simpl; rewrite E; [reflexivity | exact IH].
Qed.

Lemma mapGet_mapSet_other (m : Mock.Entities) k k' v :
  k' <> k -> Mock.mapGet (Mock.mapSet m k v) k' = Mock.mapGet m k'.
Proof.
  intros Hne. induction m as [|[k0 v0] r IH]; simpl.
  - assert (E : String.eqb k k' = false) by (apply String.eqb_neq; congruence).
    now rewrite E.
  - destruct (String.eqb k0 k) eqn:E; simpl.
    + apply String.eqb_eq in E. subst k0.
      assert (E' : String.eqb k k' = false) by (apply String.eqb_neq; congruence).
      now rewrite E'.
    + destruct (String.eqb k0 k'); [reflexivity | exact IH].
Qed.

Lemma mapGet_absent (m : Mock.Entities) k :
  ~ In k (map fst m) -> Mock.mapGet m k = None.
Proof.
  induction m as [|[k0 v0] r IH]; simpl; [reflexivity|].
  intros H. destruct (String.eqb_spec k0 k) as [E|E].
  - elim H. now left.
  - apply IH. intros Hin. apply H. now right.
Qed.

Lemma mapDelete_keys_subset (m : Mock.Entities) k x :
  In x (map fst (Mock.mapDelete m k)) -> In x (map fst m).
Proof.
  induction m as [|[k0 v0] r IH]; simpl; [tauto|].
  destruct (String.eqb k0 k); simpl; [now right|].
  intros [H|H]; [now left | right; now apply IH].
Qed.

(** In a map (a list without repeated keys) a deleted key is gone. *)
Lemma mapGet_mapDelete_same (m : Mock.Entities) k :
  NoDup (map fst m) -> Mock.mapGet (Mock.mapDelete m k) k = None.
Proof.
  induction m as [|[k0 v0] r IH]; simpl; [reflexivity|].
  intros Hnd. inversion Hnd as [|x l Hnotin Hnd']; subst.
  destruct (String.eqb_spec k0 k) as [E|E].
  - subst k0. now apply mapGet_absent.
  - simpl. destruct (String.eqb_spec k0 k) as [E'|_]; [contradiction|]. now apply IH.
Qed.

Lemma forallb_isSpace_with_dash (a b : string) :
  Js.forallb Js.isSpace (a ++ String "-"%char b) = false.
Proof.
  induction a as [|c r IH]; simpl; [reflexivity|].
  rewrite IH. apply andb_false_r.
Qed.

Section OnTheMock.

Variable env : Env.
Variable now : Z.
Variable arraySort : ArkivSort -> list ArkivEntity -> list ArkivEntity.
Variable sg : option Signer.

Local Abbreviation cl := (mkArkivRFQClient (Mock.ArkivClientMock now arraySort) sg).

(** On this store a read answers at once with what the map holds. *)
Lemma mock_getRFQ k (w : World Mock.Entities) :
  validateRFQId k = Ok tt ->
  getRFQ cl k w
  = (Ok (match Mock.mapGet (store w) (Mock.storeKey RFQ_ENTITY_TYPE k) with
         | Some entity => Some (data entity)
         | None => None
         end),
     mkWorld (store w) (calls w ++ [CallGetEntity RFQ_ENTITY_TYPE k]) (sleeps w)
       (clockReads w) (randomReads w)).
Proof.
  intros Hv.
  rewrite (@getRFQ_first_answer _ cl k w
             (Mock.mapGet (store w) (Mock.storeKey RFQ_ENTITY_TYPE k)) (store w) Hv eq_refl).
  destruct (Mock.mapGet _ _); [now rewrite entityToRFQ_is_data | reflexivity].
Qed.

(** On this store a write succeeds at once and returns the record written. *)
Lemma mock_write label k record sig (w : World Mock.Entities) :
  withRetry (writeAttempt cl label k record sig) w
  = (Ok record,
     mkWorld (Mock.mapSet (store w) (Mock.storeKey RFQ_ENTITY_TYPE k)
                (mkArkivEntity k record now))
       (calls w ++ [CallWriteEntity
                      (mkWriteEntityOptions RFQ_ENTITY_TYPE k record (Some sig))])
       (sleeps w) (clockReads w) (randomReads w)).
Proof.
  apply withRetry_resolves_at_once.
  unfold writeAttempt, tryCatch, bind, callStore, ret. simpl.
  now rewrite entityToRFQ_is_data.
Qed.

(** On this store a delete succeeds at once. *)
Lemma mock_delete k (w : World Mock.Entities) :
  withRetry (deleteAttempt cl k) w
  = (Ok tt,
     mkWorld (Mock.mapDelete (store w) (Mock.storeKey RFQ_ENTITY_TYPE k))
       (calls w ++ [CallDeleteEntity RFQ_ENTITY_TYPE k])
       (sleeps w) (clockReads w) (randomReads w)).
Proof.
  apply withRetry_resolves_at_once. reflexivity.
Qed.

Lemma mock_create_then_get input (w : World Mock.Entities) r w' :
  createRFQ env cl input w = (Ok r, w') ->
  fst (getRFQ cl (id r) w') = Ok (Some r)
  /\ store (snd (getRFQ cl (id r) w')) = store w'.
Proof.
  intros H. apply createRFQ_ok_full in H.
  destruct H as (s & a & sig & _ & _ & _ & _ & Hw). cbv zeta in Hw.
  rewrite mock_write in Hw. inversion Hw as [[Hr Hw']]. clear Hw.
  rewrite mock_getRFQ.
  - simpl. rewrite mapGet_mapSet_same. simpl. split; reflexivity.
  - apply validateRFQId_ok_iff. cbn [id rfqData]. apply forallb_isSpace_with_dash.
Qed.

Lemma mock_update_then_update k updates updates' (w : World Mock.Entities) r w' :
  updateRFQ env cl k updates w = (Ok r, w') ->
  status r <> OPEN ->
  fst (updateRFQ env cl k updates' w')
  = Throw (OwnershipError "Cannot update a non-open RFQ")
  /\ store (snd (updateRFQ env cl k updates' w')) = store w'.
Proof.
  intros H Hst. apply updateRFQ_ok_full in H.
  destruct H as (existingRFQ & w1 & s & a & sig & Hget & Hs & Ha & Hown & _ & _ & Hw).
  cbv zeta in Hw. rewrite mock_write in Hw. inversion Hw as [[Hr Hw']]. clear Hw.
  pose proof (getRFQ_ok_valid _ _ _ Hget) as Hv.
  match goal with |- context [updateRFQ env cl k updates' ?x] => set (wx := x) end.
  assert (Hread : getRFQ cl k wx
                  = (Ok (Some r),
                     mkWorld (store wx) (calls wx ++ [CallGetEntity RFQ_ENTITY_TYPE k])
                       (sleeps wx) (clockReads wx) (randomReads wx))).
  { rewrite mock_getRFQ by exact Hv. subst wx. cbn [store].
    rewrite mapGet_mapSet_same. cbn [data]. now rewrite Hr. }
  rewrite updateRFQ_after_read with (existingRFQ := r) (w1 := snd (getRFQ cl k wx))
    by (rewrite Hread; reflexivity).
  rewrite Hread. cbn [snd].
  rewrite bind_ok with (a := a)
    (w1 := mkWorld (store wx) (calls wx ++ [CallGetEntity RFQ_ENTITY_TYPE k])
             (sleeps wx) (clockReads wx) (randomReads wx))
    by (now apply getSignerAddress_ok with (s := s)).
  assert (Hc : creator r = creator existingRFQ) by (now rewrite <- Hr).
  rewrite Hc. apply String.eqb_eq in Hown. rewrite Hown. cbn [negb].
  destruct (status r); [now elim Hst | split; reflexivity | split; reflexivity].
Qed.

Lemma mock_delete_then_get k (w : World Mock.Entities) w' :
  NoDup (map fst (store w)) ->
  deleteRFQ cl k w = (Ok tt, w') ->
  fst (getRFQ cl k w') = Ok None.
Proof.
  intros Hnd H. pose proof H as H0. unfold deleteRFQ in H.
  apply bind_ok_inv in H. destruct H as (u & x0 & Hvalid & H).
  apply lift_ok_inv in Hvalid. destruct Hvalid as [Hv ->]. destruct u.
  apply bind_ok_inv in H. destruct H as (found & w1 & Hget & H).
  destruct found as [existingRFQ|]; [|discriminate]. clear H.
  pose proof Hget as Hget'. rewrite mock_getRFQ in Hget' by exact Hv.
  inversion Hget' as [[Hfound Hw1]]. clear Hget'.
  rewrite deleteRFQ_after_read with (existingRFQ := existingRFQ) (w1 := w1) in H0
    by exact Hget.
  apply bind_ok_inv in H0. destruct H0 as (a & x1 & Hsigner & H0).
  apply getSignerAddress_ok_inv in Hsigner. destruct Hsigner as (s & _ & _ & ->).
  destruct (negb (String.eqb _ _)); [discriminate|].
  rewrite mock_delete in H0. inversion H0 as [Hw']. clear H0.
  rewrite mock_getRFQ by exact Hv. cbn [store fst].
  rewrite <- Hw1. cbn [store].
  now rewrite mapGet_mapDelete_same.
Qed.

End OnTheMock.

(** X16: on the store of the tests, a record [createRFQ] has returned is read
    back unchanged by [getRFQ] under its [id], and the read leaves the store
    as it was. *)
Theorem createRFQ_then_getRFQ_reads_the_record_back :
  forall (env : Env) (now : Z)
         (arraySort : ArkivSort -> list ArkivEntity -> list ArkivEntity)
         (sg : option Signer) (input : CreateRFQInput)
         (w : World Mock.Entities) (r : RFQ) (w' : World Mock.Entities),
    createRFQ env (mkArkivRFQClient (Mock.ArkivClientMock now arraySort) sg) input w
    = (Ok r, w') ->
    fst (getRFQ (mkArkivRFQClient (Mock.ArkivClientMock now arraySort) sg) (id r) w')
    = Ok (Some r)
    /\ store (snd (getRFQ (mkArkivRFQClient (Mock.ArkivClientMock now arraySort) sg)
                     (id r) w')) = store w'.
Proof.
  intros env now arraySort sg input w r w' H.
  eapply mock_create_then_get; eassumption.
Qed.

Lemma createRFQ_then_getRFQ_reads_the_record_back_witness :
  exists r w',
    createRFQ Examples.env Examples.client Examples.inputWithMinFill Examples.emptyWorld
    = (Ok r, w')
    /\ fst (getRFQ Examples.client (id r) w') = Ok (Some r).
Proof.
  destruct (createRFQ Examples.env Examples.client Examples.inputWithMinFill
              Examples.emptyWorld) as [[r|e] w'] eqn:Hrun;
    [|vm_compute in Hrun; discriminate Hrun].
  exists r, w'. split; [reflexivity|].
  exact (proj1 (@createRFQ_then_getRFQ_reads_the_record_back Examples.env _ _ _
                  Examples.inputWithMinFill Examples.emptyWorld r w' Hrun)).
Defined.

(** X17: on the store of the tests, [FILLED] and [CANCELLED] are final for
    this client: after a successful [updateRFQ] (a [cancelRFQ] included) that
    returned a record whose status is not [OPEN], every further [updateRFQ] or
    [cancelRFQ] of the same identifier by the same client fails with the
    [OwnershipError] "Cannot update a non-open RFQ" and leaves the store as
    it was. *)
Theorem non_open_status_is_final_on_the_mock :
  forall (env : Env) (now : Z)
         (arraySort : ArkivSort -> list ArkivEntity -> list ArkivEntity)
         (sg : option Signer) (key : string) (updates updates' : UpdateRFQInput)
         (w : World Mock.Entities) (r : RFQ) (w' : World Mock.Entities),
    updateRFQ env (mkArkivRFQClient (Mock.ArkivClientMock now arraySort) sg) key updates w
    = (Ok r, w') ->
    status r <> OPEN ->
    (fst (updateRFQ env (mkArkivRFQClient (Mock.ArkivClientMock now arraySort) sg)
            key updates' w')
     = Throw (OwnershipError "Cannot update a non-open RFQ")
     /\ store (snd (updateRFQ env (mkArkivRFQClient (Mock.ArkivClientMock now arraySort) sg)
                      key updates' w')) = store w')
    /\ fst (cancelRFQ env (mkArkivRFQClient (Mock.ArkivClientMock now arraySort) sg)
              key w')
       = Throw (OwnershipError "Cannot update a non-open RFQ").
Proof.
  intros env now arraySort sg key updates updates' w r w' H Hst. split.
  - eapply mock_update_then_update; eassumption.
  - unfold cancelRFQ. eapply mock_update_then_update; eassumption.
Qed.

Lemma non_open_status_is_final_on_the_mock_witness :
  exists r w',
    cancelRFQ Examples.env Examples.client "rfq-1" (Examples.worldWith OPEN) = (Ok r, w')
    /\ fst (updateRFQ Examples.env Examples.client "rfq-1" Examples.newBaseAmount w')
       = Throw (OwnershipError "Cannot update a non-open RFQ").
Proof.
  destruct (cancelRFQ Examples.env Examples.client "rfq-1" (Examples.worldWith OPEN))
    as [[r|e] w'] eqn:Hrun; [|vm_compute in Hrun; discriminate Hrun].
  exists r, w'. split; [reflexivity|].
  refine (proj1 (proj1 (@non_open_status_is_final_on_the_mock Examples.env _ _ _ "rfq-1"
                          _ Examples.newBaseAmount (Examples.worldWith OPEN) r w' Hrun _))).
  vm_compute in Hrun. inversion Hrun. discriminate.
Defined.

(** X18: on the store of the tests (a map: no key twice), a record that
    [deleteRFQ] has deleted is absent for [getRFQ] afterwards. *)
Theorem deleteRFQ_then_getRFQ_finds_nothing :
  forall (now : Z) (arraySort : ArkivSort -> list ArkivEntity -> list ArkivEntity)
         (sg : option Signer) (key : string)
         (w w' : World Mock.Entities),
    NoDup (map fst (store w)) ->
    deleteRFQ (mkArkivRFQClient (Mock.ArkivClientMock now arraySort) sg) key w
    = (Ok tt, w') ->
    fst (getRFQ (mkArkivRFQClient (Mock.ArkivClientMock now arraySort) sg) key w')
    = Ok None.
Proof.
  intros now arraySort sg key w w' Hnd H.
  eapply mock_delete_then_get; eassumption.
Qed.

Lemma deleteRFQ_then_getRFQ_finds_nothing_witness :
  exists w',
    deleteRFQ Examples.client "rfq-1" (Examples.worldWith CANCELLED) = (Ok tt, w')
    /\ fst (getRFQ Examples.client "rfq-1" w') = Ok None.
Proof.
  destruct (deleteRFQ Examples.client "rfq-1" (Examples.worldWith CANCELLED))
    as [[[]|e] w'] eqn:Hrun; [|vm_compute in Hrun; discriminate Hrun].
  exists w'. split; [reflexivity|].
  refine (@deleteRFQ_then_getRFQ_finds_nothing _ _ _ "rfq-1"
            (Examples.worldWith CANCELLED) w' _ Hrun).
  simpl. constructor; [intros []|constructor].
Defined.

(** ** Queries and their filters *)

Lemma buildArkivFilters_parts (f : QueryFilters) :
  buildArkivFilters (Some f)
  = ((match f_tokenPair f with
      | Some tp => [("baseToken.address", FString (address (base tp)));
                    ("baseToken.chainId", FNumber (chainId (base tp)));
                    ("quoteToken.address", FString (address (quote tp)));
                    ("quoteToken.chainId", FNumber (chainId (quote tp)))]
      | None => []
      end)
     ++ (match f_chain f with
         | Some c => if c =? 0 then []
                     else [("$or", FOr [ [("baseToken.chainId", FNumber c)];
                                         [("quoteToken.chainId", FNumber c)] ])]
         | None => []
         end)
     ++ (match f_creator f with
         | Some a => if Js.falsy a then [] else [("creator", FString (Js.toLowerCase a))]
         | None => []
         end)
     ++ (match f_expiration f with
         | Some (lo, hi) => [("expiresIn", FRange lo hi)]
         | None => []
         end)
     ++ (match f_status f with
         | Some st => [("status", FString (RFQStatus_toString st))]
         | None => []
         end))%list.
Proof.
  destruct f as [tp ch pr cr ex st]. unfold buildArkivFilters. simpl.
  destruct tp as [tp|]; destruct ch as [c|]; try destruct (c =? 0);
    destruct cr as [a|]; try destruct (Js.falsy a);
    destruct ex as [[lo hi]|]; destruct st as [st|]; reflexivity.
Qed.

Lemma RFQStatus_toString_eqb (a b : RFQStatus) :
  String.eqb (RFQStatus_toString a) (RFQStatus_toString b) = true <-> a = b.
Proof. destruct a, b; simpl; split; intros H; first [reflexivity | discriminate H]. Qed.

Lemma matchesFilters_app (e : ArkivEntity) (l1 l2 : ArkivFilters) :
  Mock.matchesFilters e (l1 ++ l2)%list = true
  <-> Mock.matchesFilters e l1 = true /\ Mock.matchesFilters e l2 = true.
Proof.
  unfold Mock.matchesFilters. rewrite forallb_app. apply andb_true_iff.
Qed.

Lemma and_iff_both (A B C D : Prop) : (A <-> B) -> (C <-> D) -> (A /\ C <-> B /\ D).
Proof. tauto. Qed.

Lemma matchesFilters_buildArkivFilters_iff (e : ArkivEntity) (f : QueryFilters) :
  Mock.matchesFilters e (buildArkivFilters (Some f)) = true
  <-> satisfiesFilters (data e) f.
Proof.
  rewrite buildArkivFilters_parts.
  repeat rewrite matchesFilters_app.
  unfold satisfiesFilters.
  apply and_iff_both; [|apply and_iff_both;
    [|apply and_iff_both; [|apply and_iff_both]]].
  - destruct (f_tokenPair f) as [tp|].
    + unfold Mock.matchesFilters. simpl.
      repeat rewrite andb_true_iff.
      rewrite !String.eqb_eq, !Z.eqb_eq. split.
      * intros (H1 & H2 & H3 & H4 & _) tp' Htp. inversion Htp; subst. tauto.
      * intros H. destruct (H tp eq_refl) as (H1 & H2 & H3 & H4). tauto.
    + split; [intros _ tp H; discriminate H | reflexivity].
  - destruct (f_chain f) as [c|].
    + destruct (c =? 0) eqn:Hc.
      * apply Z.eqb_eq in Hc. split; [|reflexivity].
        intros _ c' Hc' Hne. inversion Hc'; subst. now elim Hne.
      * apply Z.eqb_neq in Hc. unfold Mock.matchesFilters. simpl.
        repeat rewrite andb_true_r. rewrite orb_false_r, orb_true_iff, !Z.eqb_eq.
        split.
        -- intros H c' Hc' _. inversion Hc'; subst. exact H.
        -- intros H. now apply (H c eq_refl).
    + split; [intros _ c H; discriminate H | reflexivity].
  - destruct (f_creator f) as [a|].
    + destruct a as [|ch r].
      * split; [|reflexivity]. intros _ a' Ha' Hne. inversion Ha'; subst. now elim Hne.
      * cbn [Js.falsy]. unfold Mock.matchesFilters.
        cbn -[Js.toLowerCase]. rewrite andb_true_r, String.eqb_eq. split.
        -- intros H a' Ha' _. inversion Ha'; subst. exact H.
        -- intros H. apply (H _ eq_refl). discriminate.
    + split; [intros _ a H; discriminate H | reflexivity].
  - destruct (f_expiration f) as [[lo hi]|].
    + unfold Mock.matchesFilters. simpl.
      rewrite andb_true_r, andb_true_iff, !negb_true_iff, Z.ltb_ge, Z.gtb_ltb, Z.ltb_ge.
      split.
      * intros H lo' hi' Hx. inversion Hx; subst. exact H.
      * intros H. now apply H.
    + split; [intros _ lo hi H; discriminate H | reflexivity].
  - destruct (f_status f) as [st|].
    + unfold Mock.matchesFilters. simpl.
      rewrite andb_true_r, RFQStatus_toString_eqb. split.
      * intros H st' Hst. injection Hst as <-. exact H.
      * intros H. now apply H.
    + split; [intros _ st H; discriminate H | reflexivity].
Qed.

(** X19: under the matching of the store of the tests, the filters
    [buildArkivFilters] builds hold of an entity exactly when every filter of
    the query that is present holds of its record: the four fields of a token
    pair equal (addresses compared as they are written), the chain equal to
    the base or the quote chain (a chain filter of 0 asks nothing), the
    creator equal to the lower-cased filter address (an empty one asks
    nothing), the expiry within the two bounds, bounds included, and the
    status equal; a price range asks nothing. *)
Theorem translated_filters_select_the_records_the_query_describes :
  forall (e : ArkivEntity) (f : QueryFilters),
    Mock.matchesFilters e (buildArkivFilters (Some f)) = true
    <-> satisfiesFilters (data e) f.
Proof.
  intros e f. apply matchesFilters_buildArkivFilters_iff.
Qed.

(** X20: the price is never used: the options [queryRFQs] hands to the store
    do not depend on the price range of the filters, and sorting by best price
    gives the options of sorting by creation time. *)
Theorem price_is_never_translated :
  forall (tokenPair : option TokenPair) (chain : option Z) (p p' : option (Z * Z))
         (creator : option string) (expiration : option (Z * Z))
         (status : option RFQStatus) (ascending : option bool)
         (pagination : option PaginationOptions),
    queryOptions (Some (mkQueryFilters tokenPair chain p creator expiration status))
      (Some (mkSortOptions BEST_PRICE ascending)) pagination
    = queryOptions (Some (mkQueryFilters tokenPair chain p' creator expiration status))
        (Some (mkSortOptions CREATION_TIME ascending)) pagination.
Proof. reflexivity. Qed.

Section QueryFacts.

Variable S : Type.
Variable this : ArkivRFQClient S.

Lemma queryRFQs_first_answer filters sort pagination (w : World S) response s' :
  queryEntities (arkivClient this) (queryOptions filters sort pagination) (store w)
  = (Ok response, s') ->
  queryRFQs this filters sort pagination w
  = (Ok (mkQueryResult (map entityToRFQ (entities response)) (total response)
           (match nextCursor response with
            | Some c => negb (Js.falsy c)
            | None => false
            end)
           (nextCursor response)),
     mkWorld s' (calls w ++ [CallQueryEntities (queryOptions filters sort pagination)])
       (sleeps w) (clockReads w) (randomReads w)).
Proof.
  intros Hq. unfold queryRFQs. apply withRetry_resolves_at_once.
  unfold queryAttempt, tryCatch, bind, callStore, ret. now rewrite Hq.
Qed.

End QueryFacts.

(** X21: when the store answers the first [queryEntities], [queryRFQs] makes
    that one call and returns one record per entity, each the data of its
    entity, in the store's order, together with the store's [total] and
    cursor; [hasMore] holds exactly when the cursor is a non-empty string. *)
Theorem queryRFQs_maps_the_first_answer :
  forall (S : Type) (this : ArkivRFQClient S) (filters : option QueryFilters)
         (sort : option SortOptions) (pagination : option PaginationOptions)
         (w : World S) (response : QueryResponse) (s' : S),
    queryEntities (arkivClient this) (queryOptions filters sort pagination) (store w)
    = (Ok response, s') ->
    exists result,
      queryRFQs this filters sort pagination w
      = (Ok result,
         mkWorld s' (calls w ++ [CallQueryEntities (queryOptions filters sort pagination)])
           (sleeps w) (clockReads w) (randomReads w))
      /\ rfqs result = map data (entities response)
      /\ qr_total result = total response
      /\ qr_nextCursor result = nextCursor response
      /\ (hasMore result = true
          <-> exists c, nextCursor response = Some c /\ c <> EmptyString).
Proof.
  intros S this filters sort pagination w response s' Hq.
  eexists. split; [apply queryRFQs_first_answer; exact Hq|]. simpl.
  split; [apply map_ext; intros a; apply entityToRFQ_is_data|].
  split; [reflexivity|]. split; [reflexivity|].
  destruct (nextCursor response) as [c|].
  - destruct c as [|ch r]; simpl; split.
    + discriminate.
    + intros (c & Hc & Hne). inversion Hc; subst. now elim Hne.
    + intros _. eexists. split; [reflexivity | discriminate].
    + reflexivity.
  - split; [discriminate | intros (c & Hc & _); discriminate Hc].
Qed.

Lemma queryRFQs_maps_the_first_answer_witness :
  exists result w',
    queryRFQs Examples.client None None None (Examples.worldWith OPEN) = (Ok result, w')
    /\ rfqs result = [Examples.rfq1 OPEN]
    /\ hasMore result = false.
Proof.
  destruct (@queryRFQs_maps_the_first_answer _ Examples.client None None None
              (Examples.worldWith OPEN)
              (mkQueryResponse [mkArkivEntity "rfq-1" (Examples.rfq1 OPEN) 1700000000000]
                 1 None)
              (store (Examples.worldWith OPEN)) eq_refl)
    as (result & Hrun & Hr & _ & _ & Hm).
  exists result. eexists. split; [exact Hrun|]. split; [exact Hr|].
  destruct (hasMore result); [|reflexivity].
  destruct (proj1 Hm eq_refl) as (c & Hc & _). discriminate Hc.
Defined.

(** X22: the page size handed to the store is the [limit] of the pagination,
    negative ones included, except that a missing pagination, a missing limit
    and a limit of 0 all give 50; the order is by [createdAt], descending,
    when no sort is given, and descending too when a sort does not say
    [ascending]. *)
Theorem queryOptions_defaults :
  forall (filters : option QueryFilters) (sort : option SortOptions)
         (c : option string) (n : Z) (by_ : SortBy),
    q_limit (queryOptions filters sort None) = 50
    /\ q_limit (queryOptions filters sort (Some (mkPaginationOptions None c))) = 50
    /\ q_limit (queryOptions filters sort (Some (mkPaginationOptions (Some 0) c))) = 50
    /\ (n <> 0 ->
        q_limit (queryOptions filters sort (Some (mkPaginationOptions (Some n) c))) = n)
    /\ q_sort (queryOptions filters None None) = Some (mkArkivSort "createdAt" desc)
    /\ (exists fld, q_sort (queryOptions filters (Some (mkSortOptions by_ None)) None)
                    = Some (mkArkivSort fld desc)).
Proof.
  intros filters sort c n by_. repeat split.
  - intros Hn. unfold queryOptions. simpl. apply Z.eqb_neq in Hn. now rewrite Hn.
  - eexists. reflexivity.
Qed.

Lemma queryOptions_defaults_witness :
  q_limit (queryOptions None None (Some (mkPaginationOptions (Some (-1)) None))) = -1.
Proof.
  apply (proj1 (proj2 (proj2 (proj2 (queryOptions_defaults None None None (-1)
                                       CREATION_TIME))))).
  discriminate.
Defined.

(** ** The change feed *)

(** X23: the subscription [watchRFQs] registers carries the entity type RFQ,
    the translated filters and the polling interval (2000 ms when none or 0
    is given).  Its creation callback exists exactly when [onCreated] is
    registered and invokes it, once, for a record whose status is [OPEN] and
    not at all otherwise.  Its update callback, which exists exactly when
    [onUpdated] is registered, invokes exactly one handler: [onCancelled] for
    a cancelled record when registered, [onFilled] for a filled record when
    registered, [onUpdated] in every other case. *)
Theorem watchRFQs_classifies_notifications :
  forall (A : Type) (options : WatchRFQsOptions A) (entity : ArkivEntity),
    we_entityType (watchRFQs options) = RFQ_ENTITY_TYPE
    /\ we_filters (watchRFQs options) = buildArkivFilters (filters options)
    /\ we_pollingInterval (watchRFQs options)
       = match pollingInterval options with
         | Some n => if n =? 0 then 2000 else n
         | None => 2000
         end
    /\ match onCreated options, we_onCreated (watchRFQs options) with
       | Some h, Some f =>
           f entity = match status (data entity) with
                      | OPEN => [h (data entity)]
                      | _ => []
                      end
       | None, None => True
       | _, _ => False
       end
    /\ match onUpdated options, we_onUpdated (watchRFQs options) with
       | Some u, Some f =>
           f entity = match status (data entity), onCancelled options, onFilled options with
                      | CANCELLED, Some c, _ => [c (data entity)]
                      | FILLED, _, Some g => [g (data entity)]
                      | _, _, _ => [u (data entity)]
                      end
       | None, None => True
       | _, _ => False
       end.
Proof.
  intros A options entity. unfold watchRFQs.
  cbn [we_entityType we_filters we_pollingInterval we_onCreated we_onUpdated].
  split; [reflexivity|]. split; [reflexivity|]. split; [reflexivity|]. split.
  - destruct (onCreated options) as [h|]; [|exact I].
    rewrite entityToRFQ_is_data.
    destruct (status (data entity)); reflexivity.
  - destruct (onUpdated options) as [u|]; [|exact I].
    rewrite entityToRFQ_is_data.
    destruct (status (data entity)); cbn [RFQStatus_eqb];
      destruct (onCancelled options), (onFilled options); reflexivity.
Qed.

(** ** A signer that fails *)

(** X24: when the signer cannot sign, [createRFQ] on a valid input and
    [updateRFQ] on an open record of the caller both fail with the
    [SignatureError] "Failed to sign RFQ data", which records the signer's
    error as its cause, and no [writeEntity] is attempted: [createRFQ] has
    made no store call at all, [updateRFQ] none after its read. *)
Theorem failed_signing_prevents_the_write :
  forall (S : Type) (env : Env) (this : ArkivRFQClient S) (s : Signer)
         (signerAddress : string) (cause : thrown) (w : World S),
    signer this = Some s ->
    getAddress s = Ok signerAddress ->
    (forall record, signMessage s record = Throw cause) ->
    (forall input,
        fst (validateCreateRFQInput env input w) = Ok tt ->
        fst (createRFQ env this input w)
        = Throw (SignatureError "Failed to sign RFQ data" (Some cause))
        /\ calls (snd (createRFQ env this input w)) = calls w
        /\ store (snd (createRFQ env this input w)) = store w)
    /\ (forall key updates existingRFQ w1,
        getRFQ this key w = (Ok (Some existingRFQ), w1) ->
        Js.toLowerCase (creator existingRFQ) = Js.toLowerCase signerAddress ->
        status existingRFQ = OPEN ->
        fst (updateRFQ env this key updates w)
        = Throw (SignatureError "Failed to sign RFQ data" (Some cause))
        /\ calls (snd (updateRFQ env this key updates w)) = calls w1
        /\ store (snd (updateRFQ env this key updates w)) = store w1).
Proof.
  intros S env this s a cause w Hs Ha Hsign. split.
  - intros input Hv.
    destruct (validateCreateRFQInput env input w) as [[[]|e] w0] eqn:Hval;
      simpl in Hv; [|discriminate].
    pose proof Hval as Hw0. apply validateCreateRFQInput_ok_world in Hw0.
    assert (Hrun : exists x,
               createRFQ env this input w
               = (Throw (SignatureError "Failed to sign RFQ data" (Some cause)), x)
               /\ calls x = calls w /\ store x = store w).
    { unfold createRFQ.
      rewrite bind_ok with (a := tt) (w1 := w0) by exact Hval.
      erewrite bind_ok by (eapply getSignerAddress_ok; eassumption).
      erewrite bind_ok by (unfold dateNow; reflexivity).
      erewrite bind_ok by (unfold generateRFQId, bind, mathRandom, ret; reflexivity).
      erewrite bind_throw by (unfold signRFQData, throw; rewrite Hs, Hsign; reflexivity).
      eexists. split; [reflexivity|]. subst w0. split; reflexivity. }
    destruct Hrun as (x & -> & Hc & Hst). repeat split; assumption.
  - intros key updates existingRFQ w1 Hget Hown Hst.
    rewrite updateRFQ_after_read with (existingRFQ := existingRFQ) (w1 := w1)
      by exact Hget.
    erewrite bind_ok by (eapply getSignerAddress_ok; eassumption).
    apply String.eqb_eq in Hown. rewrite Hown, Hst. cbn [negb RFQStatus_eqb].
    erewrite bind_ok by (unfold dateNow; reflexivity).
    erewrite bind_throw by (unfold signRFQData, throw; rewrite Hs, Hsign; reflexivity).
    repeat split.
Qed.

Lemma failed_signing_prevents_the_write_witness :
  fst (createRFQ Examples.env Examples.refusingClient Examples.input Examples.emptyWorld)
  = Throw (SignatureError "Failed to sign RFQ data"
             (Some (JsError "Error" "user rejected signing" None)))
  /\ calls (snd (createRFQ Examples.env Examples.refusingClient Examples.input
                   Examples.emptyWorld)) = [].
Proof.
  destruct (@failed_signing_prevents_the_write _ Examples.env Examples.refusingClient
              Examples.refusingSigner "0x1234567890123456789012345678901234567890"
              (JsError "Error" "user rejected signing" None) Examples.emptyWorld
              eq_refl eq_refl (fun _ => eq_refl)) as [Hcreate _].
  destruct (Hcreate Examples.input) as (Hf & Hc & _).
  - vm_compute. reflexivity.
  - split; [exact Hf | exact Hc].
Defined.

(** ** Created records and the token-pair filter *)

(** X25: on a store that answers a write with the data written, the tokens of
    an input [createRFQ] has accepted are accepted by [filterByTokenPair], and
    the filter it builds matches the record [createRFQ] returned, under the
    matching of the store of the tests. *)
Theorem created_record_matches_the_filter_of_its_token_pair :
  forall (S : Type) (env : Env) (this : ArkivRFQClient S) (input : CreateRFQInput)
         (w : World S) (r : RFQ) (w' : World S),
    writeEchoes (arkivClient this) ->
    createRFQ env this input w = (Ok r, w') ->
    exists f,
      filterByTokenPair (address (in_baseToken input)) (chainId (in_baseToken input))
        (address (in_quoteToken input)) (chainId (in_quoteToken input)) = Ok f
      /\ forall key ts,
           Mock.matchesFilters (mkArkivEntity key r ts) (buildArkivFilters (Some f)) = true.
Proof.
  intros S env this input w r w' echo H.
  apply createRFQ_ok_full in H.
  destruct H as (s & a & sig & _ & _ & Hv & _ & Hw).
  apply validateCreateRFQInput_ok_iff in Hv.
  destruct Hv as ((Hb & _) & (Hq & _) & _).
  apply withRetry_writeAttempt_ok in Hw.
  destruct Hw as (entity & st & st' & Hwrite & Hr & _).
  apply echo in Hwrite. simpl in Hwrite.
  rewrite entityToRFQ_is_data, Hwrite in Hr.
  apply matchesAddress_iff in Hb, Hq.
  apply (validateAddress_ok_iff_matches _ "baseAddress") in Hb.
  apply (validateAddress_ok_iff_matches _ "quoteAddress") in Hq.
  eexists. split.
  - unfold filterByTokenPair, andThen. rewrite Hb, Hq. reflexivity.
  - intros key ts. apply matchesFilters_buildArkivFilters_iff.
    unfold satisfiesFilters. cbn [data f_tokenPair f_chain f_creator f_expiration f_status].
    rewrite Hr. cbn [rfqData baseToken quoteToken].
    split; [|split; [|split; [|split]]]; try (intros; discriminate).
    intros tp Htp. injection Htp as <-. simpl. repeat split.
Qed.

Lemma created_record_matches_the_filter_of_its_token_pair_witness :
  exists r w' f,
    createRFQ Examples.env Examples.client Examples.input Examples.emptyWorld = (Ok r, w')
    /\ filterByTokenPair "0x1111111111111111111111111111111111111111" 1
         "0x2222222222222222222222222222222222222222" 1 = Ok f
    /\ Mock.matchesFilters (mkArkivEntity (id r) r 0) (buildArkivFilters (Some f)) = true.
Proof.
  destruct (createRFQ Examples.env Examples.client Examples.input Examples.emptyWorld)
    as [[r|e] w'] eqn:Hrun; [|vm_compute in Hrun; discriminate Hrun].
  destruct (@created_record_matches_the_filter_of_its_token_pair _ Examples.env
              Examples.client Examples.input Examples.emptyWorld r w'
              (@mock_writeEchoes _ _) Hrun) as (f & Hf & Hm).
  exists r, w', f. split; [reflexivity|]. split; [exact Hf | apply Hm].
Defined.

(** ** Notifications of the store of the tests *)

(** X26: when the store of the tests announces an update to the watcher
    [watchRFQs] has registered with an [onUpdated] handler, exactly one handler
    runs if the entity is announced under the type RFQ and matches the
    translated filters of the watcher (the one the status selects), and none
    runs otherwise; an entity announced as created runs [onCreated] under the
    same two conditions and only if its status is [OPEN]. *)
Theorem mock_notifications_reach_the_matching_watcher :
  forall (A : Type) (options : WatchRFQsOptions A) (u : RFQ -> A)
         (entity : ArkivEntity) (entityType : string),
    onUpdated options = Some u ->
    Mock.simulateEntityUpdate [watchRFQs options] entity entityType
    = (if String.eqb RFQ_ENTITY_TYPE entityType
          && Mock.matchesFilters entity (buildArkivFilters (filters options))
       then match status (data entity), onCancelled options, onFilled options with
            | CANCELLED, Some c, _ => [c (data entity)]
            | FILLED, _, Some g => [g (data entity)]
            | _, _, _ => [u (data entity)]
            end
       else [])
    /\ Mock.triggerWatchers [watchRFQs options] entityType entity Mock.created
       = (if String.eqb RFQ_ENTITY_TYPE entityType
             && Mock.matchesFilters entity (buildArkivFilters (filters options))
          then match onCreated options, status (data entity) with
               | Some h, OPEN => [h (data entity)]
               | _, _ => []
               end
          else []).
Proof.
  intros A options u entity entityType Hu.
  unfold Mock.simulateEntityUpdate, Mock.triggerWatchers, watchRFQs.
  cbn [flat_map we_entityType we_filters we_onCreated we_onUpdated].
  rewrite Hu, !app_nil_r, !entityToRFQ_is_data.
  destruct (String.eqb RFQ_ENTITY_TYPE entityType); cbn [andb]; [|split; reflexivity].
  destruct (Mock.matchesFilters entity (buildArkivFilters (filters options)));
    [|split; reflexivity].
  split.
  - cbv beta. rewrite ?entityToRFQ_is_data.
    destruct (status (data entity)); cbn [RFQStatus_eqb];
      destruct (onCancelled options), (onFilled options); reflexivity.
  - destruct (onCreated options) as [h|]; [|reflexivity].
    cbv beta. rewrite ?entityToRFQ_is_data.
    destruct (status (data entity)); reflexivity.
Qed.

Lemma mock_notifications_reach_the_matching_watcher_witness :
  Mock.simulateEntityUpdate
    [watchRFQs (mkWatchRFQsOptions None (Some Examples.FiredUpdated)
                  (Some Examples.FiredCancelled) None None None)]
    Examples.cancelledEntity "RFQ"
  = [Examples.FiredCancelled (Examples.rfq1 CANCELLED)].
Proof.
  apply (proj1 (@mock_notifications_reach_the_matching_watcher _
                  (mkWatchRFQsOptions None (Some Examples.FiredUpdated)
                     (Some Examples.FiredCancelled) None None None)
                  Examples.FiredUpdated Examples.cancelledEntity "RFQ" eq_refl)).
Defined.
